(** * LC-3 virtual machine (lc3.c): a shallow embedding and its properties

    The machine of [lc3.c] is embedded as it is written: the two global
    arrays [memory] and [reg] are lists of 16-bit words read and updated by
    index, the terminal is descriptor 0 with the buffer of the stream
    [stdin] in front of it and the bytes written to [stdout], and the body
    of the interpreter loop is a computation in a small state-and-fault
    monad. Words are integers in [0, 2^16); every
    store into a [uint16_t] object reduces its value modulo 2^16. *)

From Stdlib Require Import ZArith Lia List.
From Stdlib Require Import Strings.Byte Strings.String.
From stdpp Require Import base tactics option list.

Open Scope Z_scope.

(** ** Constants of the source *)

(** Registers ([enum] of register indices). *)
Abbreviation R_R0 := 0 (only parsing).
Abbreviation R_R1 := 1 (only parsing).
Abbreviation R_R2 := 2 (only parsing).
Abbreviation R_R3 := 3 (only parsing).
Abbreviation R_R4 := 4 (only parsing).
Abbreviation R_R5 := 5 (only parsing).
Abbreviation R_R6 := 6 (only parsing).
Abbreviation R_R7 := 7 (only parsing).
Abbreviation R_PC := 8 (only parsing).
Abbreviation R_COND := 9 (only parsing).
Abbreviation R_COUNT := 10 (only parsing).

(** Opcodes. *)
Abbreviation OP_BR := 0 (only parsing).
Abbreviation OP_ADD := 1 (only parsing).
Abbreviation OP_LD := 2 (only parsing).
Abbreviation OP_ST := 3 (only parsing).
Abbreviation OP_JSR := 4 (only parsing).
Abbreviation OP_AND := 5 (only parsing).
Abbreviation OP_LDR := 6 (only parsing).
Abbreviation OP_STR := 7 (only parsing).
Abbreviation OP_RTI := 8 (only parsing).
Abbreviation OP_NOT := 9 (only parsing).
Abbreviation OP_LDI := 10 (only parsing).
Abbreviation OP_STI := 11 (only parsing).
Abbreviation OP_JMP := 12 (only parsing).
Abbreviation OP_RES := 13 (only parsing).
Abbreviation OP_LEA := 14 (only parsing).
Abbreviation OP_TRAP := 15 (only parsing).

(** Condition flags: [1 << 0], [1 << 1], [1 << 2]. *)
Abbreviation FL_POS := 1 (only parsing).
Abbreviation FL_ZRO := 2 (only parsing).
Abbreviation FL_NEG := 4 (only parsing).

(** Trap codes. *)
Abbreviation TRAP_GETC := 32 (only parsing).
Abbreviation TRAP_OUT := 33 (only parsing).
Abbreviation TRAP_PUTS := 34 (only parsing).
Abbreviation TRAP_IN := 35 (only parsing).
Abbreviation TRAP_PUTSP := 36 (only parsing).
Abbreviation TRAP_HALT := 37 (only parsing).

(** Memory mapped registers: [0xFE00] and [0xFE02]. *)
Abbreviation MR_KBSR := 65024 (only parsing).
Abbreviation MR_KBDR := 65026 (only parsing).

(** [#define MEMORY_MAX (1 << 16)] and [PC_START = 0x3000]. *)
Abbreviation MEMORY_MAX := 65536 (only parsing).
Abbreviation PC_START := 12288 (only parsing).

(** ** Words and bytes *)

(** Conversion to [uint16_t]. *)
Definition u16 (x : Z) : Z := x mod 65536.

(** Conversion to [unsigned char]. *)
Definition u8 (x : Z) : Z := x mod 256.

(** Conversion to [signed char] (two's complement wrap-around). *)
Definition s8 (x : Z) : Z := (x + 128) mod 256 - 128.

(** The truth value of a C scalar: nonzero. *)
Definition truthy (x : Z) : bool := negb (x =? 0).

Definition Z_of_byte (b : byte) : Z := Z.of_N (Byte.to_N b).

Definition byte_of_Z (x : Z) : byte :=
  match Byte.of_N (Z.to_N (u8 x)) with
  | Some b => b
  | None => Byte.x00
  end.

(** [sign_extend]: [x] is a [uint16_t], promoted to [int] for the shift and
    the bitwise or; the assignment [x |= ...] converts back to [uint16_t]. *)
Definition sign_extend (x : Z) (bit_count : Z) : Z :=
  if truthy (Z.land (Z.shiftr x (bit_count - 1)) 1)
  then u16 (Z.lor x (Z.shiftl 65535 bit_count))
  else x.

(** [swap16]: the result of the [int] expression is converted to the
    [uint16_t] return type. *)
Definition swap16 (x : Z) : Z := u16 (Z.lor (Z.shiftl x 8) (Z.shiftr x 8)).

(** ** The machine state *)

(** What descriptor 0 ([STDIN_FILENO]) has for a [read]: nothing
    ([Idle]: a [read] waits, and [select] does not report the descriptor;
    what is typed while the program waits is not part of the state), the
    end of the input ([EndOfFile]: a [read] returns 0 at once, and [select]
    reports the descriptor as readable), or bytes ([Ready]: a [read]
    returns [b :: bs] at once, as much as the host hands over in one call,
    and [next] is what the descriptor has after that). *)
Inductive descriptor : Type :=
  | Idle
  | EndOfFile
  | Ready (b : byte) (bs : list byte) (next : descriptor).

(** The globals of the program and the terminal it talks to.
    [memory] is [uint16_t memory[MEMORY_MAX]] and [reg] is
    [uint16_t reg[R_COUNT]]. [stdin] is the buffer of the stream [stdin]:
    the bytes a [read] has taken from the descriptor and [getchar] has not
    returned yet ([main] leaves the stream buffered). [stdin_fileno] is
    descriptor 0, which [check_key] asks [select] about; [stdout] holds the
    bytes written so far. *)
Record machine : Type := Machine {
  memory : list Z;
  reg : list Z;
  stdin : list byte;
  stdin_fileno : descriptor;
  stdout : list byte
}.

Definition with_memory (mem : list Z) (m : machine) : machine :=
  Machine mem (reg m) (stdin m) (stdin_fileno m) (stdout m).
Definition with_reg (rs : list Z) (m : machine) : machine :=
  Machine (memory m) rs (stdin m) (stdin_fileno m) (stdout m).
Definition with_stdin (i : list byte) (m : machine) : machine :=
  Machine (memory m) (reg m) i (stdin_fileno m) (stdout m).
Definition with_stdin_fileno (d : descriptor) (m : machine) : machine :=
  Machine (memory m) (reg m) (stdin m) d (stdout m).
Definition with_stdout (o : list byte) (m : machine) : machine :=
  Machine (memory m) (reg m) (stdin m) (stdin_fileno m) o.

(** [a[i]] for an array of [uint16_t]: defined inside the array only. *)
Definition cell (a : list Z) (i : Z) : option Z :=
  if 0 <=? i then a !! Z.to_nat i else None.

(** [a[i] = v]: the stored value is converted to [uint16_t]; defined inside
    the array only. *)
Definition set_cell (a : list Z) (i v : Z) : option (list Z) :=
  if (0 <=? i) && (i <? Z.of_nat (length a))
  then Some (<[Z.to_nat i := u16 v]> a)
  else None.

(** ** The monad of the interpreter *)

(** What stops a computation: [abort()], [exit], a [getchar] that waits for
    a key that has not been typed, and an access outside one of the two
    arrays (undefined behaviour in C). *)
Inductive fault : Type :=
  | Aborted
  | Exited (status : Z)
  | WaitingForInput
  | MemoryOutOfRange (i : Z)
  | RegOutOfRange (i : Z).

Inductive result (A : Type) : Type :=
  | Done (a : A) (m : machine)
  | Fault (f : fault).
Arguments Done {A} a m.
Arguments Fault {A} f.

Definition M (A : Type) : Type := machine -> result A.

Definition ret {A : Type} (a : A) : M A := fun m => Done a m.

Definition bind {A B : Type} (c : M A) (k : A -> M B) : M B :=
  fun m => match c m with
           | Done a m' => k a m'
           | Fault f => Fault f
           end.

Definition raise {A : Type} (f : fault) : M A := fun _ => Fault f.

Notation "x <- c ;; k" := (bind c (fun x => k))
  (at level 100, c at next level, right associativity).
Notation "c ;; k" := (bind c (fun _ => k))
  (at level 100, right associativity).

(** Reading and writing the globals. *)
Definition get_reg (r : Z) : M Z :=
  fun m => match cell (reg m) r with
           | Some v => Done v m
           | None => Fault (RegOutOfRange r)
           end.

Definition set_reg (r v : Z) : M unit :=
  fun m => match set_cell (reg m) r v with
           | Some rs => Done tt (with_reg rs m)
           | None => Fault (RegOutOfRange r)
           end.

Definition get_mem (i : Z) : M Z :=
  fun m => match cell (memory m) i with
           | Some v => Done v m
           | None => Fault (MemoryOutOfRange i)
           end.

Definition set_mem (i v : Z) : M unit :=
  fun m => match set_cell (memory m) i v with
           | Some mem => Done tt (with_memory mem m)
           | None => Fault (MemoryOutOfRange i)
           end.

(** [EOF], the value of [getchar] at the end of the input. *)
Abbreviation EOF := (-1) (only parsing).

(** The terminal. [check_key] is [select] on descriptor 0 with a zero
    timeout: it reports whether a [read] on the descriptor would return at
    once, and knows nothing of the bytes the stream has buffered.
    [getchar] returns the next byte of the buffer; with the buffer empty it
    has the stream [read] from the descriptor, which refills the buffer
    with what the [read] returns, gives [EOF] at the end of the input, and
    waits when the descriptor has nothing yet. [putc] writes its argument
    converted to [unsigned char]; [print] stands for [printf] and [puts] of
    a constant string. *)
Definition check_key : M bool :=
  fun m => Done (match stdin_fileno m with
                 | Idle => false
                 | EndOfFile | Ready _ _ _ => true
                 end) m.

Definition getchar : M Z :=
  fun m => match stdin m with
           | b :: rest => Done (Z_of_byte b) (with_stdin rest m)
           | [] =>
               match stdin_fileno m with
               | Ready b bs next =>
                   Done (Z_of_byte b) (with_stdin bs (with_stdin_fileno next m))
               | EndOfFile => Done EOF m
               | Idle => Fault WaitingForInput
               end
           end.

Definition putc (c : Z) : M unit :=
  fun m => Done tt (with_stdout (stdout m ++ [byte_of_Z c]) m).

Definition print (s : string) : M unit :=
  fun m => Done tt (with_stdout (stdout m ++ list_byte_of_string s) m).

(** [update_flags]. *)
Definition update_flags (r : Z) : M unit :=
  v <- get_reg r ;;
  if v =? 0 then set_reg R_COND FL_ZRO
  else if truthy (Z.shiftr v 15) then set_reg R_COND FL_NEG
  else set_reg R_COND FL_POS.

(** [mem_read] and [mem_write]; [addr] is a [uint16_t]. *)
Definition mem_read (addr : Z) : M Z :=
  (if addr =? MR_KBSR then
     k <- check_key ;;
     if k then
       set_mem MR_KBSR (Z.shiftl 1 15) ;;
       c <- getchar ;;
       set_mem MR_KBDR c
     else set_mem MR_KBSR 0
   else ret tt) ;;
  get_mem addr.

Definition mem_write (addr val : Z) : M unit := set_mem addr val.

(** ** The interpreter *)

Section Interpreter.

(** Whether plain [char] is a signed type is left to the platform by C (it
    is on x86-64, it is not on AArch64 Linux); the interpreter is
    parameterised by it. *)
Variable char_is_signed : bool.

(** Conversion to [char]. *)
Definition to_char (x : Z) : Z := if char_is_signed then s8 x else u8 x.

(** The loop of [TRAP_PUTS]: [c] points at [memory[i]] and [cells] is what
    the array holds from there on; with no cell left the pointer has run
    past the end of [memory]. *)
Fixpoint puts_loop (i : Z) (cells : list Z) : M unit :=
  match cells with
  | [] => raise (MemoryOutOfRange i)
  | w :: rest =>
      if truthy w then
        putc (to_char w) ;;
        puts_loop (i + 1) rest
      else ret tt
  end.

(** The loop of [TRAP_PUTSP]. *)
Fixpoint putsp_loop (i : Z) (cells : list Z) : M unit :=
  match cells with
  | [] => raise (MemoryOutOfRange i)
  | w :: rest =>
      if truthy w then
        let char1 := to_char (Z.land w 255) in
        putc char1 ;;
        let char2 := to_char (Z.shiftr w 8) in
        (if truthy char2 then putc char2 else ret tt) ;;
        putsp_loop (i + 1) rest
      else ret tt
  end.

(** [memory + reg[R_R0]] and the cells from there to the end of the array. *)
Definition string_at (r0 : Z) : M (list Z) :=
  fun m => Done (drop (Z.to_nat r0) (memory m)) m.

(** The cases of [switch (trap_opcode)]; the result is [running]. *)
Definition trap_getc : M bool :=
  c <- getchar ;;
  let c := to_char c in
  set_reg R_R0 c ;;
  update_flags R_R0 ;;
  ret true.

Definition trap_out : M bool :=
  r0 <- get_reg R_R0 ;;
  putc r0 ;;
  ret true.

Definition trap_puts : M bool :=
  r0 <- get_reg R_R0 ;;
  cells <- string_at r0 ;;
  puts_loop r0 cells ;;
  ret true.

Definition trap_in : M bool :=
  print "Enter a character: " ;;
  c <- getchar ;;
  let c := to_char c in
  putc c ;;
  set_reg R_R0 c ;;
  update_flags R_R0 ;;
  ret true.

Definition trap_putsp : M bool :=
  r0 <- get_reg R_R0 ;;
  cells <- string_at r0 ;;
  putsp_loop r0 cells ;;
  ret true.

Definition trap_halt : M bool :=
  print "HALT" ;;
  putc 10 ;;
  ret false.

(** The cases of [switch (op)], [PC] already incremented by the fetch; the
    result is [running]. *)
Definition op_add (inst : Z) : M bool :=
  let r0 := Z.land (Z.shiftr inst 9) 7 in
  let r1 := Z.land (Z.shiftr inst 6) 7 in
  let imm_flag := Z.land (Z.shiftr inst 5) 1 in
  (if truthy imm_flag then
     let imm5 := sign_extend (Z.land inst 31) 5 in
     a <- get_reg r1 ;;
     set_reg r0 (a + imm5)
   else
     let r2 := Z.land inst 7 in
     a <- get_reg r1 ;;
     b <- get_reg r2 ;;
     set_reg r0 (a + b)) ;;
  update_flags r0 ;;
  ret true.

Definition op_and (inst : Z) : M bool :=
  let r0 := Z.land (Z.shiftr inst 9) 7 in
  let r1 := Z.land (Z.shiftr inst 6) 7 in
  let imm_flag := Z.land (Z.shiftr inst 5) 1 in
  (if truthy imm_flag then
     let imm5 := sign_extend (Z.land inst 31) 5 in
     a <- get_reg r1 ;;
     set_reg r0 (Z.land a imm5)
   else
     let r2 := Z.land inst 7 in
     a <- get_reg r1 ;;
     b <- get_reg r2 ;;
     set_reg r0 (Z.land a b)) ;;
  update_flags r0 ;;
  ret true.

Definition op_not (inst : Z) : M bool :=
  let r0 := Z.land (Z.shiftr inst 9) 7 in
  let r1 := Z.land (Z.shiftr inst 6) 7 in
  a <- get_reg r1 ;;
  set_reg r0 (Z.lnot a) ;;
  update_flags r0 ;;
  ret true.

Definition op_br (inst : Z) : M bool :=
  let cond_flag := Z.land (Z.shiftr inst 9) 7 in
  let pc_offset := sign_extend (Z.land inst 511) 9 in
  cond <- get_reg R_COND ;;
  (if truthy (Z.land cond_flag cond) then
     pc <- get_reg R_PC ;;
     set_reg R_PC (pc + pc_offset)
   else ret tt) ;;
  ret true.

Definition op_jmp (inst : Z) : M bool :=
  let r1 := Z.land (Z.shiftr inst 6) 7 in
  a <- get_reg r1 ;;
  set_reg R_PC a ;;
  ret true.

(** In the immediate case [imm11] is computed and not used. *)
Definition op_jsr (inst : Z) : M bool :=
  pc <- get_reg R_PC ;;
  set_reg R_R7 pc ;;
  let imm_flag := Z.land (Z.shiftr inst 11) 1 in
  (if truthy imm_flag then
     let imm11 := sign_extend (Z.land inst 2047) 11 in
     ret tt
   else
     let r1 := Z.land (Z.shiftr inst 6) 7 in
     a <- get_reg r1 ;;
     set_reg R_PC a) ;;
  ret true.

Definition op_ld (inst : Z) : M bool :=
  let r0 := Z.land (Z.shiftr inst 9) 7 in
  let pc_offset := sign_extend (Z.land inst 511) 9 in
  pc <- get_reg R_PC ;;
  let ptr := u16 (pc + pc_offset) in
  v <- mem_read ptr ;;
  set_reg r0 v ;;
  update_flags r0 ;;
  ret true.

Definition op_ldi (inst : Z) : M bool :=
  let r0 := Z.land (Z.shiftr inst 9) 7 in
  let pc_offset := sign_extend (Z.land inst 511) 9 in
  pc <- get_reg R_PC ;;
  ptr <- mem_read (u16 (pc + pc_offset)) ;;
  v <- mem_read ptr ;;
  set_reg r0 v ;;
  update_flags r0 ;;
  ret true.

Definition op_ldr (inst : Z) : M bool :=
  let r0 := Z.land (Z.shiftr inst 9) 7 in
  let r1 := Z.land (Z.shiftr inst 6) 7 in
  let offset := sign_extend (Z.land inst 63) 6 in
  a <- get_reg r1 ;;
  let ptr := u16 (a + offset) in
  v <- mem_read ptr ;;
  set_reg r0 v ;;
  update_flags r0 ;;
  ret true.

Definition op_lea (inst : Z) : M bool :=
  let r0 := Z.land (Z.shiftr inst 9) 7 in
  let pc_offset := sign_extend (Z.land inst 511) 9 in
  pc <- get_reg R_PC ;;
  set_reg r0 (pc + pc_offset) ;;
  update_flags r0 ;;
  ret true.

Definition op_st (inst : Z) : M bool :=
  let r0 := Z.land (Z.shiftr inst 9) 7 in
  let pc_offset := sign_extend (Z.land inst 511) 9 in
  pc <- get_reg R_PC ;;
  v <- get_reg r0 ;;
  mem_write (u16 (pc + pc_offset)) v ;;
  ret true.

Definition op_sti (inst : Z) : M bool :=
  let r0 := Z.land (Z.shiftr inst 9) 7 in
  let pc_offset := sign_extend (Z.land inst 511) 9 in
  pc <- get_reg R_PC ;;
  ptr <- mem_read (u16 (pc + pc_offset)) ;;
  v <- get_reg r0 ;;
  mem_write ptr v ;;
  ret true.

Definition op_str (inst : Z) : M bool :=
  let r0 := Z.land (Z.shiftr inst 9) 7 in
  let r1 := Z.land (Z.shiftr inst 6) 7 in
  let offset := sign_extend (Z.land inst 63) 6 in
  a <- get_reg r1 ;;
  let ptr := u16 (a + offset) in
  v <- get_reg r0 ;;
  mem_write ptr v ;;
  ret true.

Definition op_trap (inst : Z) : M bool :=
  pc <- get_reg R_PC ;;
  set_reg R_R7 pc ;;
  let trap_opcode := Z.land inst 255 in
  match trap_opcode with
  | TRAP_GETC => trap_getc
  | TRAP_OUT => trap_out
  | TRAP_PUTS => trap_puts
  | TRAP_IN => trap_in
  | TRAP_PUTSP => trap_putsp
  | TRAP_HALT => trap_halt
  | _ => raise Aborted
  end.

(** [switch (op)] with [op = inst >> 12]: one instruction executed. *)
Definition exec (inst : Z) : M bool :=
  let op := Z.shiftr inst 12 in
  match op with
  | OP_ADD => op_add inst
  | OP_AND => op_and inst
  | OP_NOT => op_not inst
  | OP_BR => op_br inst
  | OP_JMP => op_jmp inst
  | OP_JSR => op_jsr inst
  | OP_LD => op_ld inst
  | OP_LDI => op_ldi inst
  | OP_LDR => op_ldr inst
  | OP_LEA => op_lea inst
  | OP_ST => op_st inst
  | OP_STI => op_sti inst
  | OP_STR => op_str inst
  | OP_TRAP => op_trap inst
  | _ => raise Aborted
  end.

(** [uint16_t inst = mem_read(reg[R_PC]++)]. *)
Definition fetch : M Z :=
  pc <- get_reg R_PC ;;
  set_reg R_PC (pc + 1) ;;
  mem_read pc.

(** One turn of [while (running)]. *)
Definition step : M bool :=
  inst <- fetch ;;
  exec inst.

(** At most [fuel] turns of the loop; [true] when the machine still runs. *)
Fixpoint run (fuel : nat) : M bool :=
  match fuel with
  | O => ret true
  | S fuel' =>
      running <- step ;;
      if running then run fuel' else ret false
  end.

(** The states the loop passes through from [m0], each with the value of
    [running] it is reached with. *)
Inductive steps (m0 : machine) : bool -> machine -> Prop :=
  | steps_refl : steps m0 true m0
  | steps_step m running m' :
      steps m0 true m -> step m = Done running m' -> steps m0 running m'.

End Interpreter.

(** ** The image loader *)

Section Loader.

(** Two values are indeterminate in C and are parameters here: what the
    local [origin] holds when the file is too short for [fread] to fill it,
    and what [fread] leaves in the array element it could read only the
    first byte of (given the old content of the cell and that byte). *)
Variable indeterminate_origin : Z.
Variable partial_item : Z -> byte -> Z.

(** Two bytes of the file as a [uint16_t] of the (little-endian) host. *)
Definition host_word (b0 b1 : byte) : Z := Z_of_byte b0 + 256 * Z_of_byte b1.

(** The same stream as [fread] delivers it: two bytes an item, in the byte
    order of the host. *)
Fixpoint host_words (bytes : list byte) : list Z :=
  match bytes with
  | b0 :: b1 :: rest => host_word b0 b1 :: host_words rest
  | _ => []
  end.

(** [fread(ptr, sizeof(uint16_t), nmemb, file)]: the complete items read, the
    first byte of an item cut short by the end of the file, and the rest of
    the file. *)
Fixpoint fread (nmemb : Z) (file : list byte) {struct file}
  : list Z * option byte * list byte :=
  if nmemb <=? 0 then ([], None, file)
  else match file with
       | b0 :: b1 :: rest =>
           let '(items, cut, file') := fread (nmemb - 1) rest in
           (host_word b0 b1 :: items, cut, file')
       | [b0] => ([], Some b0, [])
       | [] => ([], None, [])
       end.

(** The items of an [fread] stored from [memory[p]] on. *)
Fixpoint store_items (p : Z) (items : list Z) : M unit :=
  match items with
  | [] => ret tt
  | w :: items' => set_mem p w ;; store_items (p + 1) items'
  end.

Definition store_cut (p : Z) (cut : option byte) : M unit :=
  match cut with
  | None => ret tt
  | Some b => old <- get_mem p ;; set_mem p (partial_item old b)
  end.

(** [while (read-- > 0) { *p = swap16( *p); ++p; }] *)
Fixpoint swap_loop (read : nat) (p : Z) : M unit :=
  match read with
  | O => ret tt
  | S read' =>
      w <- get_mem p ;;
      set_mem p (swap16 w) ;;
      swap_loop read' (p + 1)
  end.

(** [read_image_file]. *)
Definition read_image_file (file : list byte) : M unit :=
  let '(items, _, file1) := fread 1 file in
  let origin := match items with
                | w :: _ => w
                | [] => indeterminate_origin
                end in
  let origin := swap16 origin in
  let max_read := u16 (MEMORY_MAX - origin) in
  let p := origin in
  let '(words, cut, _) := fread max_read file1 in
  store_items p words ;;
  store_cut (p + Z.of_nat (length words)) cut ;;
  let read := length words in
  swap_loop read p.

(** The loop of [main] over its arguments; every file is taken to open. *)
Fixpoint read_images (images : list (list byte)) : M unit :=
  match images with
  | [] => ret tt
  | file :: images' => read_image_file file ;; read_images images'
  end.

(** [main] up to the loop: the usage check, the images, [COND] and [PC]. *)
Definition main_setup (images : list (list byte)) : M unit :=
  match images with
  | [] => print "lc3 [image-file1] ..." ;; putc 10 ;; raise (Exited 2)
  | _ :: _ =>
      read_images images ;;
      set_reg R_COND FL_ZRO ;;
      set_reg R_PC PC_START
  end.

(** The globals when the program starts (objects of static storage are
    zero), with [input] at descriptor 0 and nothing read from it yet. *)
Definition power_on (input : descriptor) : machine :=
  Machine (replicate (Z.to_nat MEMORY_MAX) 0) (replicate (Z.to_nat R_COUNT) 0)
          [] input [].

(** [main] with at most [fuel] turns of its loop. *)
Definition main (char_is_signed : bool) (fuel : nat)
    (images : list (list byte)) : M bool :=
  main_setup images ;;
  run char_is_signed fuel.

End Loader.

(** ** Vocabulary of the statements *)

(** A triple for the monad: from a state in [P] the computation ends in
    [Q], or stops with a fault in [F]. *)
Definition hoare {A : Type} (P : machine -> Prop) (c : M A)
    (Q : A -> machine -> Prop) (F : fault -> Prop) : Prop :=
  forall m, P m ->
    match c m with
    | Done a m' => Q a m'
    | Fault f => F f
    end.

(** A computation keeps the invariant [P], or stops with a fault in [F]. *)
Definition keeps {A : Type} (P : machine -> Prop) (F : fault -> Prop)
    (c : M A) : Prop :=
  hoare P c (fun _ => P) F.

(** Any fault. *)
Definition any_fault (f : fault) : Prop := True.

(** The two arrays have the sizes of their declarations. *)
Definition sized (m : machine) : Prop :=
  length (memory m) = Z.to_nat MEMORY_MAX /\ length (reg m) = Z.to_nat R_COUNT.

(** Every cell of the two arrays holds a 16-bit value. *)
Definition word_cells (m : machine) : Prop :=
  Forall (fun w => 0 <= w < 65536) (memory m) /\
  Forall (fun w => 0 <= w < 65536) (reg m).

(** A property of what [reg[R_COND]] holds. *)
Definition cond_sat (Q : option Z -> Prop) (m : machine) : Prop :=
  Q (cell (reg m) R_COND).

(** [COND] holds one of the three flags. *)
Definition one_flag (o : option Z) : Prop :=
  o = Some FL_POS \/ o = Some FL_ZRO \/ o = Some FL_NEG.

Definition cond_ok : machine -> Prop := cond_sat one_flag.

(** A well-formed machine: arrays of the declared sizes holding words. *)
Definition wf (m : machine) : Prop := sized m /\ word_cells m.

(** The faults that are not an access outside an array. *)
Definition benign (f : fault) : Prop :=
  match f with
  | Aborted | Exited _ | WaitingForInput => True
  | MemoryOutOfRange _ | RegOutOfRange _ => False
  end.

(** A computation keeps [P] and returns a 16-bit word. *)
Definition yields_word (P : machine -> Prop) (F : fault -> Prop)
    (c : M Z) : Prop :=
  hoare P c (fun a m => P m /\ 0 <= a < 65536) F.

(** [TRAP PUTS] and [TRAP PUTSP]. *)
Definition string_trap (inst : Z) : Prop :=
  Z.shiftr inst 12 = OP_TRAP /\
  (Z.land inst 255 = TRAP_PUTS \/ Z.land inst 255 = TRAP_PUTSP).

(** The faults of one instruction on a well-formed machine: benign ones,
    and the read of [memory[MEMORY_MAX]] by a string trap. *)
Definition exec_fault (inst : Z) (f : fault) : Prop :=
  benign f \/ (string_trap inst /\ f = MemoryOutOfRange MEMORY_MAX).

(** The flag [c] that goes with the word [v]. *)
Definition flag_for (c v : Z) : Prop :=
  (c = FL_NEG <-> 32768 <= v) /\
  (c = FL_ZRO <-> v = 0) /\
  (c = FL_POS <-> v <> 0 /\ v < 32768).

(** The flag in [COND] goes with the word in register [r0]. *)
Definition flags_written (r0 : Z) (m : machine) : Prop :=
  exists v c, cell (reg m) r0 = Some v /\ cell (reg m) R_COND = Some c /\
              flag_for c v.

(** What a flag-updating case leaves behind: it ends, still running, with
    the value [x] in the destination and the flag that goes with it. *)
Definition writes_with_flags (c : M bool) (m : machine) (r0 x : Z) : Prop :=
  exists m', c m = Done true m' /\ cell (reg m') r0 = Some (u16 x) /\
             flags_written r0 m'.

(** The content of register [r], or of [memory[i]], when a computation is
    over. *)
Definition reg_after {A : Type} (r : Z) (x : result A) : option Z :=
  match x with
  | Done _ m' => cell (reg m') r
  | Fault _ => None
  end.

Definition mem_after {A : Type} (i : Z) (x : result A) : option Z :=
  match x with
  | Done _ m' => cell (memory m') i
  | Fault _ => None
  end.

(** What a computation returns, and what it leaves in the buffer of
    [stdin]. *)
Definition returned {A : Type} (x : result A) : option A :=
  match x with
  | Done a _ => Some a
  | Fault _ => None
  end.

Definition stdin_after {A : Type} (x : result A) : option (list byte) :=
  match x with
  | Done _ m' => Some (stdin m')
  | Fault _ => None
  end.

(** A machine that has just fetched the instruction at [0x3000] of an empty
    memory: [PC = 0x3001], [COND = FL_ZRO], nothing typed at the terminal. *)
Definition fetched_at_3000 : machine :=
  Machine (replicate (Z.to_nat MEMORY_MAX) 0) [0; 0; 0; 0; 0; 0; 0; 0; 12289; 2]
          [] Idle [].

(** The 16-bit words of a byte stream read big-endian, two bytes a word, a
    last odd byte left out: the words of an image as the spec describes
    them. *)
Fixpoint big_endian_words (bytes : list byte) : list Z :=
  match bytes with
  | b1 :: b0 :: rest => (256 * Z_of_byte b1 + Z_of_byte b0) :: big_endian_words rest
  | _ => []
  end.

(** The bytes [TRAP_PUTSP] writes for one word: the low byte, then the high
    byte unless it is zero. *)
Definition packed_bytes (w : Z) : list byte :=
  byte_of_Z (Z.land w 255) ::
  (if u8 (Z.shiftr w 8) =? 0 then [] else [byte_of_Z (Z.shiftr w 8)]).

(** A machine at [0x3001] with the string "Hi" in the last three cells of
    memory, one character a word, and [R0] pointing at it. *)
Definition hi_machine : machine :=
  Machine (<[Z.to_nat 65533 := 72]>
             (<[Z.to_nat 65534 := 105]> (replicate (Z.to_nat MEMORY_MAX) 0)))
          [65533; 0; 0; 0; 0; 0; 0; 0; 12289; 2] [] Idle [].

(** The same with "Hi!" packed two characters a word. *)
Definition packed_hi_machine : machine :=
  Machine (<[Z.to_nat 65533 := 26952]>
             (<[Z.to_nat 65534 := 33]> (replicate (Z.to_nat MEMORY_MAX) 0)))
          [65533; 0; 0; 0; 0; 0; 0; 0; 12289; 2] [] Idle [].

(** A machine about to fetch [TRAP HALT] (the word [0xF025]) at [0x3000]. *)
Definition halt_machine : machine :=
  Machine (<[Z.to_nat 12288 := 61477]> (replicate (Z.to_nat MEMORY_MAX) 0))
          [0; 0; 0; 0; 0; 0; 0; 0; 12288; 2] [] Idle [].

(** The machine at [0x3001] with the bytes [0x41 0x42] typed at the
    terminal, for one [read] to take, and nothing read yet. *)
Definition key_machine : machine :=
  Machine (replicate (Z.to_nat MEMORY_MAX) 0) [0; 0; 0; 0; 0; 0; 0; 0; 12289; 2]
          [] (Ready Byte.x41 [Byte.x42] Idle) [].

(** A machine at [0x3001] with values in its registers ([R0 = 0x1234],
    [R1 = 0x4000], [R2 = 0x00FF], [R3 = 0xF0F0], [R4 = 0x0FF0],
    [R5 = 0xFFFF], [R6 = 0x8000], [R7 = 0x3000], [COND = FL_POS]) and a
    pointer in memory: [memory[0x3005] = 0x4000] and
    [memory[0x4000] = 0xBEEF]. *)
Definition busy_machine : machine :=
  Machine (<[Z.to_nat 12293 := 16384]>
             (<[Z.to_nat 16384 := 48879]> (replicate (Z.to_nat MEMORY_MAX) 0)))
          [4660; 16384; 255; 61680; 4080; 65535; 32768; 12288; 12289; 1]
          [] Idle [].

(** * Properties *)

(** ** Words *)

Lemma u16_range x : 0 <= u16 x < 65536.
Proof. unfold u16. apply Z.mod_pos_bound. lia. Qed.

Lemma u16_small x : 0 <= x < 65536 -> u16 x = x.
Proof. intros H. unfold u16. now apply Z.mod_small. Qed.

Lemma Z_of_byte_range b : 0 <= Z_of_byte b < 256.
Proof.
  unfold Z_of_byte. pose proof (Byte.to_N_bounded b) as H. lia.
Qed.

Lemma byte_of_Z_of_byte b : byte_of_Z (Z_of_byte b) = b.
Proof.
  unfold byte_of_Z, u8. pose proof (Z_of_byte_range b) as H.
  rewrite Z.mod_small by lia. unfold Z_of_byte.
  rewrite N2Z.id, Byte.of_to_N. reflexivity.
Qed.

(** A three-bit field of an instruction names one of [R0] to [R7]. *)
Lemma field3_range x : 0 <= Z.land x 7 < 8.
Proof.
  change 7 with (Z.ones 3). rewrite Z.land_ones by lia.
  apply Z.mod_pos_bound. lia.
Qed.

Lemma truthy_false x : truthy x = false <-> x = 0.
Proof. unfold truthy. destruct (Z.eqb_spec x 0); simpl; split; congruence. Qed.

Lemma truthy_true x : truthy x = true <-> x <> 0.
Proof. unfold truthy. destruct (Z.eqb_spec x 0); simpl; split; congruence. Qed.

(** Bit 15 of a 16-bit word is set exactly from [0x8000] on. *)
Lemma bit15_set v : 0 <= v < 65536 -> (truthy (Z.shiftr v 15) = true <-> 32768 <= v).
Proof.
  intros Hv. rewrite truthy_true, Z.shiftr_div_pow2 by lia.
  change (2 ^ 15) with 32768. split.
  - intros Hne. destruct (Z_lt_le_dec v 32768) as [Hlt|]; [|assumption].
    exfalso. apply Hne. apply Z.div_small. lia.
  - intros Hle Hz.
    assert (1 <= v / 32768) by (apply Z.div_le_lower_bound; lia). lia.
Qed.

(** C9. The sign extension of the source satisfies
    [sext(0x1F, 5) = 0xFFFF], [sext(0x10, 5) = 0xFFF0] and
    [sext(0x0F, 5) = 0x000F]. *)
Theorem sign_extend_imm5_boundaries :
  sign_extend 31 5 = 65535 /\ sign_extend 16 5 = 65520 /\ sign_extend 15 5 = 15.
Proof. repeat split; vm_compute; reflexivity. Qed.

(** ** Array cells *)

Lemma cell_is_Some (a : list Z) i :
  0 <= i < Z.of_nat (length a) -> exists w, cell a i = Some w.
Proof.
  intros [Hlo Hhi]. unfold cell.
  destruct (Z.leb_spec 0 i); [|lia].
  destruct (lookup_lt_is_Some_2 a (Z.to_nat i)) as [w Hw]; [lia|].
  exists w. exact Hw.
Qed.

Lemma set_cell_in_range (a : list Z) i v :
  0 <= i < Z.of_nat (length a) ->
  set_cell a i v = Some (<[Z.to_nat i := u16 v]> a).
Proof.
  intros [Hlo Hhi]. unfold set_cell.
  destruct (Z.leb_spec 0 i); [|lia].
  destruct (Z.ltb_spec i (Z.of_nat (length a))); [|lia].
  reflexivity.
Qed.

Lemma set_cell_Some (a a' : list Z) i v :
  set_cell a i v = Some a' ->
  0 <= i < Z.of_nat (length a) /\ a' = <[Z.to_nat i := u16 v]> a.
Proof.
  unfold set_cell.
  destruct (Z.leb_spec 0 i); simpl; [|discriminate].
  destruct (Z.ltb_spec i (Z.of_nat (length a))); [|discriminate].
  intros [= <-]. split; [lia|reflexivity].
Qed.

Lemma cell_insert_eq (a : list Z) i v :
  0 <= i < Z.of_nat (length a) -> cell (<[Z.to_nat i := v]> a) i = Some v.
Proof.
  intros [Hlo Hhi]. unfold cell.
  destruct (Z.leb_spec 0 i); [|lia].
  apply list_lookup_insert_eq. lia.
Qed.

Lemma cell_insert_ne (a : list Z) i j v :
  0 <= i -> i <> j -> cell (<[Z.to_nat i := v]> a) j = cell a j.
Proof.
  intros Hlo Hne. unfold cell.
  destruct (Z.leb_spec 0 j); [|reflexivity].
  apply list_lookup_insert_ne. lia.
Qed.

Lemma Forall_insert_word (a : list Z) n v :
  Forall (fun w => 0 <= w < 65536) a ->
  Forall (fun w => 0 <= w < 65536) (<[n := u16 v]> a).
Proof.
  intros Ha. apply Forall_insert; [assumption|]. apply u16_range.
Qed.

Lemma cell_word (a : list Z) i w :
  Forall (fun w => 0 <= w < 65536) a -> cell a i = Some w -> 0 <= w < 65536.
Proof.
  intros Ha. unfold cell. destruct (0 <=? i); [|discriminate].
  intros Hw. exact (Forall_lookup_1 _ _ _ _ Ha Hw).
Qed.

(** ** Running a computation by hand *)

Lemma bind_Done {A B : Type} (c : M A) (k : A -> M B) m a m1 :
  c m = Done a m1 -> bind c k m = k a m1.
Proof. intros H. unfold bind. rewrite H. reflexivity. Qed.

Lemma bind_Fault {A B : Type} (c : M A) (k : A -> M B) m f :
  c m = Fault f -> bind c k m = Fault f.
Proof. intros H. unfold bind. rewrite H. reflexivity. Qed.

Lemma bind_inv {A B : Type} (c : M A) (k : A -> M B) m b m' :
  bind c k m = Done b m' ->
  exists a m1, c m = Done a m1 /\ k a m1 = Done b m'.
Proof.
  unfold bind. destruct (c m) as [a m1|f]; [|discriminate].
  intros H. exists a, m1. split; [reflexivity|exact H].
Qed.

Lemma get_reg_Done r v m : cell (reg m) r = Some v -> get_reg r m = Done v m.
Proof. intros H. unfold get_reg. rewrite H. reflexivity. Qed.

Lemma set_reg_Done r v m :
  0 <= r < Z.of_nat (length (reg m)) ->
  set_reg r v m = Done tt (with_reg (<[Z.to_nat r := u16 v]> (reg m)) m).
Proof. intros H. unfold set_reg. rewrite set_cell_in_range by exact H. reflexivity. Qed.

Lemma get_mem_Done i v m : cell (memory m) i = Some v -> get_mem i m = Done v m.
Proof. intros H. unfold get_mem. rewrite H. reflexivity. Qed.

Lemma set_mem_Done i v m :
  0 <= i < Z.of_nat (length (memory m)) ->
  set_mem i v m = Done tt (with_memory (<[Z.to_nat i := u16 v]> (memory m)) m).
Proof. intros H. unfold set_mem. rewrite set_cell_in_range by exact H. reflexivity. Qed.

(** ** [mem_read] *)

Lemma mem_read_elsewhere addr w m :
  addr <> MR_KBSR -> cell (memory m) addr = Some w -> mem_read addr m = Done w m.
Proof.
  intros Hne Hw. unfold mem_read.
  destruct (Z.eqb_spec addr 65024) as [->|_]; [congruence|].
  rewrite (bind_Done _ _ m tt m) by reflexivity.
  apply get_mem_Done. exact Hw.
Qed.

Lemma mem_read_plain addr m :
  sized m -> 0 <= addr < 65536 -> addr <> MR_KBSR ->
  exists w, cell (memory m) addr = Some w /\ mem_read addr m = Done w m.
Proof.
  intros [Hmem _] Hrange Hne.
  destruct (cell_is_Some (memory m) addr) as [w Hw]; [rewrite Hmem; lia|].
  exists w. split; [exact Hw|]. now apply mem_read_elsewhere.
Qed.


(** *** [getchar] and [check_key] case by case *)

Lemma getchar_buffered m b rest :
  stdin m = b :: rest -> getchar m = Done (Z_of_byte b) (with_stdin rest m).
Proof. intros H. unfold getchar. rewrite H. reflexivity. Qed.

Lemma getchar_refill m b bs next :
  stdin m = [] -> stdin_fileno m = Ready b bs next ->
  getchar m = Done (Z_of_byte b) (with_stdin bs (with_stdin_fileno next m)).
Proof. intros H Hd. unfold getchar. rewrite H, Hd. reflexivity. Qed.

Lemma getchar_eof m :
  stdin m = [] -> stdin_fileno m = EndOfFile -> getchar m = Done EOF m.
Proof. intros H Hd. unfold getchar. rewrite H, Hd. reflexivity. Qed.

Lemma getchar_waits m :
  stdin m = [] -> stdin_fileno m = Idle -> getchar m = Fault WaitingForInput.
Proof. intros H Hd. unfold getchar. rewrite H, Hd. reflexivity. Qed.

(** [getchar] touches the terminal only, and returns a byte or [EOF]. *)
Lemma getchar_frame m c m1 :
  getchar m = Done c m1 ->
  memory m1 = memory m /\ reg m1 = reg m /\ stdout m1 = stdout m /\ -1 <= c < 256.
Proof.
  unfold getchar. destruct (stdin m) as [|b rest].
  - destruct (stdin_fileno m) as [| |b bs next]; [discriminate| |].
    + intros H. injection H as <- <-. repeat split; lia.
    + intros H. injection H as <- <-. pose proof (Z_of_byte_range b).
      repeat split; lia.
  - intros H. injection H as <- <-. pose proof (Z_of_byte_range b).
    repeat split; lia.
Qed.

(** When [select] reports the descriptor, [getchar] does not wait. *)
Lemma getchar_readable m :
  stdin_fileno m <> Idle -> exists c m1, getchar m = Done c m1.
Proof.
  intros Hd. unfold getchar. destruct (stdin m) as [|b rest]; [|eauto].
  destruct (stdin_fileno m); [congruence|eauto|eauto].
Qed.

(** [getchar] does not look at [memory]. *)
Lemma getchar_with_memory mem m :
  getchar (with_memory mem m)
  = match getchar m with
    | Done c m1 => Done c (with_memory mem m1)
    | Fault f => Fault f
    end.
Proof.
  unfold getchar. cbn [stdin stdin_fileno with_memory].
  destruct (stdin m); [destruct (stdin_fileno m)|]; reflexivity.
Qed.

Lemma mem_read_kbsr_idle m :
  sized m -> stdin_fileno m = Idle ->
  mem_read MR_KBSR m
  = Done 0 (with_memory (<[Z.to_nat MR_KBSR := 0]> (memory m)) m).
Proof.
  intros [Hmem _] Hd. unfold mem_read. cbn [Z.eqb Pos.eqb].
  unfold bind at 1. unfold bind at 1. unfold check_key. rewrite Hd.
  rewrite set_mem_Done by (rewrite Hmem; lia).
  apply get_mem_Done. cbn [memory with_memory].
  change (u16 0) with 0. apply cell_insert_eq. rewrite Hmem. lia.
Qed.

Lemma mem_read_kbsr_readable m c m1 :
  sized m -> stdin_fileno m <> Idle -> getchar m = Done c m1 ->
  mem_read MR_KBSR m
  = Done 32768
      (with_memory (<[Z.to_nat MR_KBDR := u16 c]>
                      (<[Z.to_nat MR_KBSR := 32768]> (memory m))) m1).
Proof.
  intros [Hmem _] Hd Hget. unfold mem_read. cbn [Z.eqb Pos.eqb].
  unfold bind at 1. unfold bind at 1. unfold check_key.
  assert (match stdin_fileno m with Idle => false | _ => true end = true) as ->
    by (destruct (stdin_fileno m); [congruence|reflexivity|reflexivity]).
  unfold bind at 1. rewrite set_mem_Done by (rewrite Hmem; lia).
  unfold bind at 1. rewrite getchar_with_memory, Hget.
  destruct (getchar_frame m c m1 Hget) as (Hm1 & _ & _ & _).
  rewrite set_mem_Done
    by (cbn [memory with_memory]; rewrite length_insert, Hmem; lia).
  cbn [memory reg stdin stdin_fileno stdout with_memory].
  change (u16 (Z.shiftl 1 15)) with 32768.
  apply get_mem_Done. cbn [memory with_memory].
  rewrite cell_insert_ne by lia.
  apply cell_insert_eq. rewrite Hmem. lia.
Qed.

(** C5 on the code. With the bytes [0x41 0x42] typed before the first poll,
    a read of [0xFE00] returns [0x8000] and leaves [0x41] in
    [memory[0xFE02]]; the [read] behind its [getchar] has moved both bytes
    to the buffer of [stdin], where [0x42] is now pending. A second read of
    [0xFE00] asks [select] about the descriptor, which has nothing more: it
    returns 0, clears [memory[0xFE00]] and leaves [0x41] in
    [memory[0xFE02]] and [0x42] in the buffer, where the claim has [0x8000]
    returned and [0x42] stored. The image [30 00 A2 02 A4 01 F0 25 FE 00]
    makes the two reads with [LDI R1] and [LDI R2] through the pointer at
    [0x3003]. At the end of the input, where no byte is pending, a read of
    [0xFE00] returns [0x8000] and stores [0xFFFF] in [memory[0xFE02]],
    where the claim has 0 returned. *)
Theorem keyboard_poll_misses_buffered_byte
    (io : Z) (pi : Z -> byte -> Z) (cs : bool) :
  let typed := power_on (Ready Byte.x41 [Byte.x42] Idle) in
  let once := mem_read MR_KBSR typed in
  let twice := (mem_read MR_KBSR ;; mem_read MR_KBSR) typed in
  let polls := main io pi cs 2
                 [[Byte.x30; Byte.x00; Byte.xa2; Byte.x02; Byte.xa4; Byte.x01;
                   Byte.xf0; Byte.x25; Byte.xfe; Byte.x00]] typed in
  let ended := mem_read MR_KBSR (power_on EndOfFile) in
  (returned once = Some 32768 /\ mem_after MR_KBDR once = Some 65 /\
   stdin_after once = Some [Byte.x42]) /\
  (returned twice = Some 0 /\ mem_after MR_KBSR twice = Some 0 /\
   mem_after MR_KBDR twice = Some 65 /\ stdin_after twice = Some [Byte.x42]) /\
  (reg_after R_R1 polls = Some 32768 /\ reg_after R_R2 polls = Some 0 /\
   mem_after MR_KBDR polls = Some 65 /\ stdin_after polls = Some [Byte.x42]) /\
  (returned ended = Some 32768 /\ mem_after MR_KBDR ended = Some 65535).
Proof.
  cbv zeta. destruct cs.
  all: repeat match goal with |- _ /\ _ => split end; vm_compute; reflexivity.
Qed.

(** Whatever the address, a read on a well-formed machine returns a word,
    and touches neither the registers nor the shape of the arrays. *)
Lemma mem_read_total addr m :
  sized m -> word_cells m -> 0 <= addr < 65536 ->
  exists w m', mem_read addr m = Done w m' /\ reg m' = reg m /\
               sized m' /\ word_cells m' /\ 0 <= w < 65536.
Proof.
  intros Hsz Hwc Hrange.
  destruct (Z.eq_dec addr 65024) as [->|Hne].
  - destruct Hsz as [Hmem Hreg], Hwc as [Hwm Hwr].
    destruct (stdin_fileno m) as [| |b bs next] eqn:Hd.
    + rewrite mem_read_kbsr_idle by (try split; assumption).
      eexists _, _. split; [reflexivity|].
      repeat split; cbn [memory reg with_memory];
        rewrite ?length_insert; try assumption; try lia.
      apply Forall_insert; [assumption|lia].
    + destruct (getchar_readable m) as (c & m1 & Hget); [congruence|].
      rewrite (mem_read_kbsr_readable m c m1) by (try split; congruence).
      destruct (getchar_frame m c m1 Hget) as (Hm1 & Hr1 & _ & _).
      pose proof (u16_range c).
      eexists _, _. split; [reflexivity|]. unfold sized, word_cells.
      cbn [memory reg with_memory].
      rewrite !length_insert, Hr1. repeat split; try assumption; try lia.
      apply Forall_insert; [apply Forall_insert; [assumption|lia]|lia].
    + destruct (getchar_readable m) as (c & m1 & Hget); [congruence|].
      rewrite (mem_read_kbsr_readable m c m1) by (try split; congruence).
      destruct (getchar_frame m c m1 Hget) as (Hm1 & Hr1 & _ & _).
      pose proof (u16_range c).
      eexists _, _. split; [reflexivity|]. unfold sized, word_cells.
      cbn [memory reg with_memory].
      rewrite !length_insert, Hr1. repeat split; try assumption; try lia.
      apply Forall_insert; [apply Forall_insert; [assumption|lia]|lia].
  - destruct (mem_read_plain addr m Hsz Hrange Hne) as (w & Hw & Hrd).
    exists w, m. repeat split; try assumption; try apply Hsz; try apply Hwc.
    + exact (proj1 (cell_word _ _ _ (proj1 Hwc) Hw)).
    + exact (proj2 (cell_word _ _ _ (proj1 Hwc) Hw)).
Qed.

(** ** Condition flags *)

Lemma update_flags_Done r v m :
  length (reg m) = Z.to_nat R_COUNT -> cell (reg m) r = Some v ->
  0 <= v < 65536 ->
  exists c, update_flags r m
            = Done tt (with_reg (<[Z.to_nat R_COND := c]> (reg m)) m) /\
            flag_for c v.
Proof.
  intros Hlen Hr Hv. unfold update_flags.
  rewrite (bind_Done _ _ m v m) by now apply get_reg_Done.
  destruct (Z.eqb_spec v 0) as [->|Hnz].
  - exists 2. split; [rewrite set_reg_Done by (rewrite Hlen; lia); reflexivity|].
    unfold flag_for. lia.
  - destruct (truthy (Z.shiftr v 15)) eqn:Hbit.
    + apply bit15_set in Hbit; [|exact Hv].
      exists 4. split; [rewrite set_reg_Done by (rewrite Hlen; lia); reflexivity|].
      unfold flag_for. lia.
    + assert (~ 32768 <= v) as Hlt.
      { intros Hge. apply bit15_set in Hge; [congruence|exact Hv]. }
      exists 1. split; [rewrite set_reg_Done by (rewrite Hlen; lia); reflexivity|].
      unfold flag_for. lia.
Qed.

(** The common end of the flag-updating cases: [reg[r0] = x] and then
    [update_flags(r0)]. *)
Lemma write_then_flags (r0 x : Z) (m : machine) :
  length (reg m) = Z.to_nat R_COUNT -> 0 <= r0 < 8 ->
  exists c m',
    (set_reg r0 x ;; update_flags r0 ;; ret true) m = Done true m' /\
    m' = with_reg (<[Z.to_nat R_COND := c]> (<[Z.to_nat r0 := u16 x]> (reg m))) m /\
    cell (reg m') r0 = Some (u16 x) /\ cell (reg m') R_COND = Some c /\
    flag_for c (u16 x).
Proof.
  intros Hlen Hr0.
  rewrite (bind_Done _ _ m tt _ (set_reg_Done r0 x m ltac:(rewrite Hlen; lia))).
  set (m1 := with_reg _ m).
  assert (length (reg m1) = Z.to_nat 10) as Hlen1
    by (unfold m1; cbn [reg with_reg]; now rewrite length_insert).
  assert (cell (reg m1) r0 = Some (u16 x)) as Hcell
    by (unfold m1; cbn [reg with_reg]; apply cell_insert_eq; rewrite Hlen; lia).
  destruct (update_flags_Done r0 (u16 x) m1 Hlen1 Hcell (u16_range x))
    as (c & Hupd & Hc).
  exists c. eexists. split; [|split; [reflexivity|]].
  - rewrite (bind_Done _ _ m1 tt _ Hupd). reflexivity.
  - cbn [reg with_reg]. split; [|split; [|exact Hc]].
    + rewrite cell_insert_ne by lia. exact Hcell.
    + apply cell_insert_eq. rewrite length_insert, Hlen. lia.
Qed.

Lemma bind_assoc {A B C : Type} (c : M A) (k : A -> M B) (k' : B -> M C) m :
  bind (bind c k) k' m = bind c (fun a => bind (k a) k') m.
Proof. unfold bind. destruct (c m); reflexivity. Qed.

Lemma reg_is_Some m r :
  sized m -> 0 <= r < 10 -> exists v, cell (reg m) r = Some v.
Proof. intros [_ Hreg] Hr. apply cell_is_Some. rewrite Hreg. lia. Qed.

Lemma field_reg_is_Some m x :
  sized m -> exists v, cell (reg m) (Z.land x 7) = Some v.
Proof.
  intros Hsz. apply reg_is_Some; [exact Hsz|].
  pose proof (field3_range x). lia.
Qed.

Lemma write_then_flags_ends (r0 x : Z) (m : machine) :
  sized m -> 0 <= r0 < 8 ->
  writes_with_flags (set_reg r0 x ;; update_flags r0 ;; ret true) m r0 x.
Proof.
  intros [_ Hreg] Hr0.
  destruct (write_then_flags r0 x m Hreg Hr0) as (c & m' & Hrun & _ & Hv & Hc & Hf).
  exists m'. split; [exact Hrun|]. split; [exact Hv|].
  exists (u16 x), c. auto.
Qed.

Ltac step_with H := rewrite (bind_Done _ _ _ _ _ H).

Lemma wwf_bind {A : Type} (c : M A) (k : A -> M bool) m a m1 r0 x :
  c m = Done a m1 -> writes_with_flags (k a) m1 r0 x ->
  writes_with_flags (bind c k) m r0 x.
Proof.
  intros Hc (m' & Hk & Hrest). exists m'. split; [|exact Hrest].
  step_with Hc. exact Hk.
Qed.

Lemma wwf_assoc {A B : Type} (c : M A) (k : A -> M B) (k' : B -> M bool) m r0 x :
  writes_with_flags (bind c (fun a => bind (k a) k')) m r0 x ->
  writes_with_flags (bind (bind c k) k') m r0 x.
Proof.
  intros (m' & Hk & Hrest). exists m'. split; [|exact Hrest].
  rewrite bind_assoc. exact Hk.
Qed.

Lemma op_add_Done inst m :
  sized m ->
  exists x, writes_with_flags (op_add inst) m (Z.land (Z.shiftr inst 9) 7) x.
Proof.
  intros Hsz. unfold op_add.
  destruct (field_reg_is_Some m (Z.shiftr inst 6) Hsz) as [a Ha].
  destruct (field_reg_is_Some m inst Hsz) as [b Hb].
  destruct (truthy _); eexists; apply wwf_assoc;
    apply (wwf_bind _ _ _ _ _ _ _ (get_reg_Done _ _ _ Ha)).
  - apply write_then_flags_ends; [exact Hsz|apply field3_range].
  - apply wwf_assoc, (wwf_bind _ _ _ _ _ _ _ (get_reg_Done _ _ _ Hb)).
    apply write_then_flags_ends; [exact Hsz|apply field3_range].
Qed.

Lemma op_and_Done inst m :
  sized m ->
  exists x, writes_with_flags (op_and inst) m (Z.land (Z.shiftr inst 9) 7) x.
Proof.
  intros Hsz. unfold op_and.
  destruct (field_reg_is_Some m (Z.shiftr inst 6) Hsz) as [a Ha].
  destruct (field_reg_is_Some m inst Hsz) as [b Hb].
  destruct (truthy _); eexists; apply wwf_assoc;
    apply (wwf_bind _ _ _ _ _ _ _ (get_reg_Done _ _ _ Ha)).
  - apply write_then_flags_ends; [exact Hsz|apply field3_range].
  - apply wwf_assoc, (wwf_bind _ _ _ _ _ _ _ (get_reg_Done _ _ _ Hb)).
    apply write_then_flags_ends; [exact Hsz|apply field3_range].
Qed.

Lemma op_not_Done inst m :
  sized m ->
  exists x, writes_with_flags (op_not inst) m (Z.land (Z.shiftr inst 9) 7) x.
Proof.
  intros Hsz. unfold op_not.
  destruct (field_reg_is_Some m (Z.shiftr inst 6) Hsz) as [a Ha].
  eexists. apply (wwf_bind _ _ _ _ _ _ _ (get_reg_Done _ _ _ Ha)).
  apply write_then_flags_ends; [exact Hsz|apply field3_range].
Qed.

Lemma op_lea_Done inst m pc :
  sized m -> cell (reg m) R_PC = Some pc ->
  writes_with_flags (op_lea inst) m (Z.land (Z.shiftr inst 9) 7)
                    (pc + sign_extend (Z.land inst 511) 9).
Proof.
  intros Hsz Hpc. unfold op_lea.
  apply (wwf_bind _ _ _ _ _ _ _ (get_reg_Done _ _ _ Hpc)).
  apply write_then_flags_ends; [exact Hsz|apply field3_range].
Qed.

Lemma op_ld_Done inst m :
  sized m -> word_cells m ->
  exists x, writes_with_flags (op_ld inst) m (Z.land (Z.shiftr inst 9) 7) x.
Proof.
  intros Hsz Hwc. unfold op_ld.
  destruct (reg_is_Some m 8 Hsz) as [pc Hpc]; [lia|].
  destruct (mem_read_total (u16 (pc + sign_extend (Z.land inst 511) 9)) m
              Hsz Hwc (u16_range _)) as (w & m1 & Hrd & _ & Hsz1 & _ & _).
  exists w. apply (wwf_bind _ _ _ _ _ _ _ (get_reg_Done _ _ _ Hpc)).
  apply (wwf_bind _ _ _ _ _ _ _ Hrd).
  apply write_then_flags_ends; [exact Hsz1|apply field3_range].
Qed.

Lemma op_ldi_Done inst m :
  sized m -> word_cells m ->
  exists x, writes_with_flags (op_ldi inst) m (Z.land (Z.shiftr inst 9) 7) x.
Proof.
  intros Hsz Hwc. unfold op_ldi.
  destruct (reg_is_Some m 8 Hsz) as [pc Hpc]; [lia|].
  destruct (mem_read_total (u16 (pc + sign_extend (Z.land inst 511) 9)) m
              Hsz Hwc (u16_range _)) as (ptr & m1 & Hrd & _ & Hsz1 & Hwc1 & Hptr).
  destruct (mem_read_total ptr m1 Hsz1 Hwc1 Hptr)
    as (w & m2 & Hrd2 & _ & Hsz2 & _ & _).
  exists w. apply (wwf_bind _ _ _ _ _ _ _ (get_reg_Done _ _ _ Hpc)).
  apply (wwf_bind _ _ _ _ _ _ _ Hrd), (wwf_bind _ _ _ _ _ _ _ Hrd2).
  apply write_then_flags_ends; [exact Hsz2|apply field3_range].
Qed.

Lemma op_ldr_Done inst m :
  sized m -> word_cells m ->
  exists x, writes_with_flags (op_ldr inst) m (Z.land (Z.shiftr inst 9) 7) x.
Proof.
  intros Hsz Hwc. unfold op_ldr.
  destruct (field_reg_is_Some m (Z.shiftr inst 6) Hsz) as [a Ha].
  destruct (mem_read_total (u16 (a + sign_extend (Z.land inst 63) 6)) m
              Hsz Hwc (u16_range _)) as (w & m1 & Hrd & _ & Hsz1 & _ & _).
  exists w. apply (wwf_bind _ _ _ _ _ _ _ (get_reg_Done _ _ _ Ha)).
  apply (wwf_bind _ _ _ _ _ _ _ Hrd).
  apply write_then_flags_ends; [exact Hsz1|apply field3_range].
Qed.

Lemma exec_opcode cs inst :
  let op := Z.shiftr inst 12 in
  (op = OP_ADD -> exec cs inst = op_add inst) /\
  (op = OP_AND -> exec cs inst = op_and inst) /\
  (op = OP_NOT -> exec cs inst = op_not inst) /\
  (op = OP_LD -> exec cs inst = op_ld inst) /\
  (op = OP_LDI -> exec cs inst = op_ldi inst) /\
  (op = OP_LDR -> exec cs inst = op_ldr inst) /\
  (op = OP_LEA -> exec cs inst = op_lea inst) /\
  (op = OP_JSR -> exec cs inst = op_jsr inst) /\
  (op = OP_TRAP -> exec cs inst = op_trap cs inst).
Proof.
  unfold exec. repeat split; intros ->; reflexivity.
Qed.

(** C6. Every instruction of the code that updates the flags for a
    destination register [DR = inst[11:9]] (ADD, AND, NOT, LD, LDI, LDR and
    LEA) ends with [COND = N] exactly when [R[DR] >= 0x8000], [COND = Z]
    exactly when [R[DR] = 0], and [COND = P] otherwise. *)
Theorem flags_follow_destination (cs : bool) (inst : Z) (m : machine) :
  sized m -> word_cells m ->
  In (Z.shiftr inst 12) [OP_ADD; OP_AND; OP_NOT; OP_LD; OP_LDI; OP_LDR; OP_LEA] ->
  exists m' v c,
    exec cs inst m = Done true m' /\
    cell (reg m') (Z.land (Z.shiftr inst 9) 7) = Some v /\
    cell (reg m') R_COND = Some c /\
    (c = FL_NEG <-> 32768 <= v) /\
    (c = FL_ZRO <-> v = 0) /\
    (c = FL_POS <-> v <> 0 /\ v < 32768).
Proof.
  intros Hsz Hwc Hop.
  assert (exists x, writes_with_flags (exec cs inst) m
                      (Z.land (Z.shiftr inst 9) 7) x) as (x & m' & Hrun & _ & Hfl).
  { pose proof (exec_opcode cs inst) as E. cbv zeta in E.
    destruct E as (E1 & E5 & E9 & E2 & E10 & E6 & E14 & _).
    destruct (reg_is_Some m 8 Hsz) as [pc Hpc]; [lia|].
    simpl in Hop.
    destruct Hop as [H|[H|[H|[H|[H|[H|[H|[]]]]]]]]; symmetry in H.
    - rewrite (E1 H). now apply op_add_Done.
    - rewrite (E5 H). now apply op_and_Done.
    - rewrite (E9 H). now apply op_not_Done.
    - rewrite (E2 H). now apply op_ld_Done.
    - rewrite (E10 H). now apply op_ldi_Done.
    - rewrite (E6 H). now apply op_ldr_Done.
    - rewrite (E14 H). eexists. apply op_lea_Done; eassumption. }
  destruct Hfl as (v & c & Hv & Hc & Hn & Hz & Hp).
  exists m', v, c. split; [exact Hrun|]. split; [exact Hv|].
  split; [exact Hc|]. exact (conj Hn (conj Hz Hp)).
Qed.

Lemma fetched_at_3000_sized : sized fetched_at_3000.
Proof. split; [apply length_replicate|reflexivity]. Qed.

Lemma busy_machine_sized : sized busy_machine.
Proof.
  split; [|reflexivity]. unfold busy_machine. cbn [memory].
  rewrite !length_insert. apply length_replicate.
Qed.

Lemma fetched_at_3000_words : word_cells fetched_at_3000.
Proof.
  split; cbn [memory reg fetched_at_3000].
  - apply Forall_replicate. lia.
  - repeat constructor; lia.
Qed.

(** [ADD R0, R0, #1] on the machine at [0x3001]. *)
Lemma flags_follow_destination_witness :
  (sized fetched_at_3000 /\ word_cells fetched_at_3000 /\
   In (Z.shiftr 4129 12) [1; 5; 9; 2; 10; 6; 14]) /\
  exists m' v c,
    exec true 4129 fetched_at_3000 = Done true m' /\
    cell (reg m') (Z.land (Z.shiftr 4129 9) 7) = Some v /\
    cell (reg m') 9 = Some c /\
    (c = 4 <-> 32768 <= v) /\ (c = 2 <-> v = 0) /\ (c = 1 <-> v <> 0 /\ v < 32768).
Proof.
  split.
  - split; [exact fetched_at_3000_sized|].
    split; [exact fetched_at_3000_words|]. left. reflexivity.
  - apply (flags_follow_destination true 4129 fetched_at_3000).
    + exact fetched_at_3000_sized.
    + exact fetched_at_3000_words.
    + left. reflexivity.
Defined.


(** ** LEA *)

(** C2, as the spec states it, fails: [LEA R0, #2] executed with [COND = Z]
    ends with [COND = P]. *)
Lemma lea_leaves_cond_unchanged_fails :
  ~ (forall (cs : bool) (inst : Z) (m : machine) (pc : Z) (running : bool)
            (m' : machine),
       Z.shiftr inst 12 = OP_LEA ->
       cell (reg m) R_PC = Some pc ->
       exec cs inst m = Done running m' ->
       cell (reg m') (Z.land (Z.shiftr inst 9) 7)
       = Some (u16 (pc + sign_extend (Z.land inst 511) 9)) /\
       cell (reg m') R_COND = cell (reg m) R_COND).
Proof.
  intros H.
  destruct (op_lea_Done 57346 fetched_at_3000 12289 fetched_at_3000_sized eq_refl)
    as (m' & Hrun & Hv & v & c & Hv' & Hc & _ & Hz & _).
  destruct (H true 57346 fetched_at_3000 12289 true m' eq_refl eq_refl Hrun)
    as [_ Hcond].
  rewrite Hc in Hcond. change (cell (reg fetched_at_3000) 9) with (Some 2) in Hcond.
  rewrite Hv in Hv'. vm_compute in Hv'.
  assert (v = 0) as Hv0 by (apply Hz; congruence).
  congruence.
Qed.

(** C2, amended. Every execution of LEA puts [PC + sext(inst[8:0], 9)],
    modulo 2^16, in the destination register and then sets [COND] from that
    value: N from [0x8000] on, Z for 0, P otherwise. *)
Theorem lea_writes_address_and_flags (cs : bool) (inst : Z) (m : machine) (pc : Z) :
  sized m -> Z.shiftr inst 12 = OP_LEA -> cell (reg m) R_PC = Some pc ->
  exists m' c,
    exec cs inst m = Done true m' /\
    cell (reg m') (Z.land (Z.shiftr inst 9) 7)
    = Some (u16 (pc + sign_extend (Z.land inst 511) 9)) /\
    cell (reg m') R_COND = Some c /\
    (c = FL_NEG <-> 32768 <= u16 (pc + sign_extend (Z.land inst 511) 9)) /\
    (c = FL_ZRO <-> u16 (pc + sign_extend (Z.land inst 511) 9) = 0) /\
    (c = FL_POS <-> u16 (pc + sign_extend (Z.land inst 511) 9) <> 0 /\
                    u16 (pc + sign_extend (Z.land inst 511) 9) < 32768).
Proof.
  intros Hsz Hop Hpc.
  pose proof (exec_opcode cs inst) as E. cbv zeta in E.
  destruct E as (_ & _ & _ & _ & _ & _ & E14 & _). rewrite (E14 Hop).
  destruct (op_lea_Done inst m pc Hsz Hpc) as (m' & Hrun & Hv & v & c & Hv' & Hc & Hf).
  assert (v = u16 (pc + sign_extend (Z.land inst 511) 9)) as -> by congruence.
  exists m', c. split; [exact Hrun|]. split; [exact Hv|]. split; [exact Hc|].
  exact Hf.
Qed.

Lemma lea_writes_address_and_flags_witness :
  (sized fetched_at_3000 /\ Z.shiftr 57346 12 = 14 /\
   cell (reg fetched_at_3000) 8 = Some 12289) /\
  exists m' c,
    exec true 57346 fetched_at_3000 = Done true m' /\
    cell (reg m') (Z.land (Z.shiftr 57346 9) 7)
    = Some (u16 (12289 + sign_extend (Z.land 57346 511) 9)) /\
    cell (reg m') 9 = Some c /\
    (c = 4 <-> 32768 <= u16 (12289 + sign_extend (Z.land 57346 511) 9)) /\
    (c = 2 <-> u16 (12289 + sign_extend (Z.land 57346 511) 9) = 0) /\
    (c = 1 <-> u16 (12289 + sign_extend (Z.land 57346 511) 9) <> 0 /\
               u16 (12289 + sign_extend (Z.land 57346 511) 9) < 32768).
Proof.
  split.
  - split; [exact fetched_at_3000_sized|]. split; reflexivity.
  - apply (lea_writes_address_and_flags true 57346 fetched_at_3000 12289).
    + exact fetched_at_3000_sized.
    + reflexivity.
    + reflexivity.
Defined.

(** ** JSR *)

(** In the immediate case of [OP_JSR] the link register is written and [PC]
    is not: the machine is left as the fetch left it, but for [R7]. *)
Lemma op_jsr_immediate inst m pc :
  sized m -> cell (reg m) R_PC = Some pc ->
  truthy (Z.land (Z.shiftr inst 11) 1) = true ->
  op_jsr inst m = Done true (with_reg (<[Z.to_nat R_R7 := u16 pc]> (reg m)) m).
Proof.
  intros [_ Hreg] Hpc Himm. unfold op_jsr.
  step_with (get_reg_Done _ _ _ Hpc).
  step_with (set_reg_Done 7 pc m ltac:(rewrite Hreg; lia)).
  rewrite Himm. reflexivity.
Qed.

Lemma op_jsr_immediate_pc inst m pc :
  sized m -> cell (reg m) R_PC = Some pc ->
  truthy (Z.land (Z.shiftr inst 11) 1) = true ->
  reg_after R_PC (op_jsr inst m) = Some pc /\
  reg_after R_R7 (op_jsr inst m) = Some (u16 pc).
Proof.
  intros Hsz Hpc Himm. rewrite (op_jsr_immediate inst m pc Hsz Hpc Himm).
  cbn [reg_after reg with_reg]. split.
  - rewrite cell_insert_ne by lia. exact Hpc.
  - apply cell_insert_eq. destruct Hsz as [_ ->]. lia.
Qed.

(** The register case next to it does assign [PC] (after the link register
    is written, so [JSRR R7] reads the new [R7]). *)
Lemma op_jsr_register inst m pc :
  sized m -> cell (reg m) R_PC = Some pc ->
  truthy (Z.land (Z.shiftr inst 11) 1) = false ->
  exists a,
    cell (<[Z.to_nat R_R7 := u16 pc]> (reg m)) (Z.land (Z.shiftr inst 6) 7) = Some a /\
    reg_after R_PC (op_jsr inst m) = Some (u16 a).
Proof.
  intros [_ Hreg] Hpc Himm. unfold op_jsr.
  step_with (get_reg_Done _ _ _ Hpc).
  step_with (set_reg_Done 7 pc m ltac:(rewrite Hreg; lia)).
  rewrite Himm. set (m1 := with_reg _ m).
  pose proof (field3_range (Z.shiftr inst 6)) as Hf.
  destruct (cell_is_Some (reg m1) (Z.land (Z.shiftr inst 6) 7)) as [a Ha].
  { unfold m1. cbn [reg with_reg]. rewrite length_insert, Hreg. lia. }
  exists a. split; [exact Ha|].
  rewrite bind_assoc. step_with (get_reg_Done _ _ _ Ha).
  rewrite (bind_Done _ _ m1 tt _ (set_reg_Done 8 a m1
             ltac:(unfold m1; cbn [reg with_reg]; rewrite length_insert, Hreg; lia))).
  cbn [ret reg_after reg with_reg]. apply cell_insert_eq.
  unfold m1. cbn [reg with_reg]. rewrite length_insert, Hreg. lia.
Qed.

(** C1 on the code. The image [30 00 48 01] holds [JSR #1] at [0x3000]; after
    one turn of the loop [R7] is [0x3001] and so is [PC], where the claim
    has [PC = 0x3001 + sext(1, 11) = 0x3002]. *)
Theorem jsr_immediate_does_not_jump (io : Z) (pi : Z -> byte -> Z) :
  let image := [Byte.x30; Byte.x00; Byte.x48; Byte.x01] in
  let r := main io pi true 1 [image] (power_on Idle) in
  reg_after R_R7 r = Some 12289 /\
  reg_after R_PC r = Some 12289 /\
  u16 (12289 + sign_extend (Z.land 18433 2047) 11) = 12290.
Proof. cbv zeta. repeat split; vm_compute; reflexivity. Qed.

(** ** GETC and IN *)

(** What [(uint16_t)c] is for [char c] holding an input byte. *)
Lemma u16_to_char cs b :
  u16 (to_char cs (Z_of_byte b))
  = if cs && (128 <=? Z_of_byte b) then Z_of_byte b + 65280 else Z_of_byte b.
Proof.
  pose proof (Z_of_byte_range b) as Hb. unfold to_char, s8, u8, u16.
  generalize dependent (Z_of_byte b). intros z Hz.
  destruct cs; cbn [andb].
  - destruct (Z.leb_spec 128 z).
    + replace ((z + 128) mod 256) with (z - 128)
        by (apply Z.mod_unique with (q := 1); lia).
      symmetry. apply Z.mod_unique with (q := -1); lia.
    + rewrite (Z.mod_small (z + 128)) by lia.
      replace (z + 128 - 128) with z by lia. apply Z.mod_small. lia.
  - rewrite (Z.mod_small z) by lia. apply Z.mod_small. lia.
Qed.

(** C3 on the code, where plain [char] is signed. The images [30 00 F0 20]
    and [30 00 F0 23] hold [TRAP GETC] and [TRAP IN] at [0x3000]; with the
    byte [0x80] typed, one turn of the loop leaves [R0 = 0xFF80] (and
    [COND = N], the flag of that value), where the claim has
    [R0 = 0x0080]. *)
Theorem getc_in_sign_extend_the_byte (io : Z) (pi : Z -> byte -> Z) :
  let getc := main io pi true 1 [[Byte.x30; Byte.x00; Byte.xf0; Byte.x20]]
                   (power_on (Ready Byte.x80 [] Idle)) in
  let in_ := main io pi true 1 [[Byte.x30; Byte.x00; Byte.xf0; Byte.x23]]
                  (power_on (Ready Byte.x80 [] Idle)) in
  (reg_after R_R0 getc = Some 65408 /\ reg_after R_COND getc = Some FL_NEG) /\
  (reg_after R_R0 in_ = Some 65408 /\ reg_after R_COND in_ = Some FL_NEG).
Proof. cbv zeta. repeat split; vm_compute; reflexivity. Qed.

(** ** Invariants of the loop *)

Section Keeps.

Context (P : machine -> Prop) (F : fault -> Prop).

Lemma keeps_ret {A : Type} (a : A) : keeps P F (ret a).
Proof. intros m Hm. exact Hm. Qed.

Lemma keeps_raise {A : Type} (f : fault) : F f -> keeps P F (@raise A f).
Proof. intros Hf m _. exact Hf. Qed.

Lemma keeps_bind {A B : Type} (c : M A) (k : A -> M B) :
  keeps P F c -> (forall a, keeps P F (k a)) -> keeps P F (bind c k).
Proof.
  intros Hc Hk m Hm. specialize (Hc m Hm). unfold bind.
  destruct (c m) as [a m1|f]; [|exact Hc]. exact (Hk a m1 Hc).
Qed.

Lemma keeps_if {A : Type} (b : bool) (c1 c2 : M A) :
  keeps P F c1 -> keeps P F c2 -> keeps P F (if b then c1 else c2).
Proof. intros H1 H2. destruct b; assumption. Qed.

End Keeps.

(** The structural steps of a proof that a computation keeps an invariant;
    [prim] closes the primitive operations. *)
Ltac keeps_walk prim :=
  repeat first
    [ solve [prim]
    | apply keeps_ret
    | apply keeps_bind; [|intros ?]
    | apply keeps_if ].

(** *** [COND] holds one flag *)

(** What does not write [reg[R_COND]] keeps every property of it. *)
Section CondSat.

Context (Q : option Z -> Prop).

Lemma cond_get_reg r : keeps (cond_sat Q) any_fault (get_reg r).
Proof.
  intros m Hm. unfold get_reg. destruct (cell (reg m) r); [exact Hm|exact I].
Qed.

Lemma cond_get_mem i : keeps (cond_sat Q) any_fault (get_mem i).
Proof.
  intros m Hm. unfold get_mem. destruct (cell (memory m) i); [exact Hm|exact I].
Qed.

Lemma cond_set_mem i v : keeps (cond_sat Q) any_fault (set_mem i v).
Proof.
  intros m Hm. unfold set_mem. destruct (set_cell (memory m) i v); [exact Hm|exact I].
Qed.

Lemma cond_set_reg r v : r <> R_COND -> keeps (cond_sat Q) any_fault (set_reg r v).
Proof.
  intros Hr m Hm. unfold set_reg.
  destruct (set_cell (reg m) r v) as [rs|] eqn:Hset; [|exact I].
  apply set_cell_Some in Hset as [Hrange Heq]; subst rs.
  unfold cond_sat in *. cbn [reg with_reg].
  rewrite cell_insert_ne by lia. exact Hm.
Qed.

Lemma cond_set_reg_field x v :
  keeps (cond_sat Q) any_fault (set_reg (Z.land x 7) v).
Proof. apply cond_set_reg. pose proof (field3_range x). lia. Qed.

Lemma cond_check_key : keeps (cond_sat Q) any_fault check_key.
Proof. intros m Hm. exact Hm. Qed.

Lemma cond_getchar : keeps (cond_sat Q) any_fault getchar.
Proof.
  intros m Hm. unfold getchar.
  destruct (stdin m); [destruct (stdin_fileno m)|]; first [exact I|exact Hm].
Qed.

Lemma cond_putc c : keeps (cond_sat Q) any_fault (putc c).
Proof. intros m Hm. exact Hm. Qed.

Lemma cond_print s : keeps (cond_sat Q) any_fault (print s).
Proof. intros m Hm. exact Hm. Qed.

Lemma cond_string_at r0 : keeps (cond_sat Q) any_fault (string_at r0).
Proof. intros m Hm. exact Hm. Qed.

Lemma cond_raise {A : Type} f : keeps (cond_sat Q) any_fault (@raise A f).
Proof. apply keeps_raise. exact I. Qed.

End CondSat.

(** Storing one of the three flags in [COND] establishes the invariant. *)
Lemma cond_set_flag c m :
  c = FL_POS \/ c = FL_ZRO \/ c = FL_NEG ->
  match set_reg R_COND c m with
  | Done _ m' => cond_ok m'
  | Fault _ => True
  end.
Proof.
  intros Hc. unfold set_reg.
  destruct (set_cell (reg m) 9 c) as [rs|] eqn:Hset; [|exact I].
  apply set_cell_Some in Hset as [Hrange Heq]; subst rs.
  unfold cond_ok, cond_sat, one_flag. cbn [reg with_reg].
  rewrite cell_insert_eq by exact Hrange.
  destruct Hc as [ -> | [ -> | -> ] ]; auto.
Qed.

Lemma cond_update_flags r : keeps (cond_sat one_flag) any_fault (update_flags r).
Proof.
  intros m _. unfold update_flags, bind, get_reg.
  destruct (cell (reg m) r) as [v|]; [|exact I].
  destruct (v =? 0); [apply cond_set_flag; auto|].
  destruct (truthy _); apply cond_set_flag; auto.
Qed.

Create HintDb cond_keeps.
#[local] Hint Resolve cond_get_reg cond_get_mem cond_set_mem cond_set_reg_field
  cond_update_flags cond_check_key cond_getchar cond_putc cond_print
  cond_string_at cond_raise : cond_keeps.
#[local] Hint Extern 1 (keeps (cond_sat _) any_fault (set_reg _ _)) =>
  apply cond_set_reg; lia : cond_keeps.

Ltac cond_walk := keeps_walk ltac:(auto with cond_keeps).

Lemma cond_mem_read Q addr : keeps (cond_sat Q) any_fault (mem_read addr).
Proof. unfold mem_read. cond_walk. Qed.

Lemma cond_mem_write Q addr v : keeps (cond_sat Q) any_fault (mem_write addr v).
Proof. apply cond_set_mem. Qed.

#[local] Hint Resolve cond_mem_read cond_mem_write : cond_keeps.

Lemma cond_puts_loop Q cs cells :
  forall i, keeps (cond_sat Q) any_fault (puts_loop cs i cells).
Proof.
  induction cells as [|w rest IH]; intros i; cbn [puts_loop]; cond_walk.
Qed.

Lemma cond_putsp_loop Q cs cells :
  forall i, keeps (cond_sat Q) any_fault (putsp_loop cs i cells).
Proof.
  induction cells as [|w rest IH]; intros i; cbn [putsp_loop]; cbv zeta; cond_walk.
Qed.

#[local] Hint Resolve cond_puts_loop cond_putsp_loop : cond_keeps.

Lemma cond_op_trap cs inst : keeps cond_ok any_fault (op_trap cs inst).
Proof.
  unfold cond_ok, op_trap. cbv zeta. cond_walk.
  repeat match goal with
         | |- context [match ?x with _ => _ end] => destruct x
         end;
    first [ apply cond_raise
          | unfold trap_getc, trap_out, trap_puts, trap_in, trap_putsp, trap_halt;
            cbv zeta; cond_walk ].
Qed.

Lemma cond_exec cs inst : keeps cond_ok any_fault (exec cs inst).
Proof.
  unfold exec. cbv zeta.
  repeat match goal with
         | |- context [match ?x with _ => _ end] => destruct x
         end;
    first [ apply cond_raise
          | apply cond_op_trap
          | unfold cond_ok, op_add, op_and, op_not, op_br, op_jmp, op_jsr, op_ld,
              op_ldi, op_ldr, op_lea, op_st, op_sti, op_str;
            cbv zeta; cond_walk ].
Qed.

Lemma cond_step cs : keeps cond_ok any_fault (step cs).
Proof.
  unfold step. apply keeps_bind; [|intros inst; apply cond_exec].
  unfold cond_ok, fetch. cond_walk.
Qed.

(** The cases that do not call [update_flags] leave [COND] as it is. *)
Lemma cond_untouched Q inst :
  keeps (cond_sat Q) any_fault (op_br inst) /\
  keeps (cond_sat Q) any_fault (op_jmp inst) /\
  keeps (cond_sat Q) any_fault (op_jsr inst) /\
  keeps (cond_sat Q) any_fault (op_st inst) /\
  keeps (cond_sat Q) any_fault (op_sti inst) /\
  keeps (cond_sat Q) any_fault (op_str inst).
Proof.
  repeat split; unfold op_br, op_jmp, op_jsr, op_st, op_sti, op_str;
    cbv zeta; cond_walk.
Qed.

Lemma step_keeps_cond cs m running m' :
  cond_ok m -> step cs m = Done running m' -> cond_ok m'.
Proof.
  intros Hm Hstep. pose proof (cond_step cs m Hm) as H.
  rewrite Hstep in H. exact H.
Qed.

(** [main] enters its loop with [COND = FL_ZRO] and [PC = PC_START]. *)
Lemma main_setup_regs io pi images m m0 :
  main_setup io pi images m = Done tt m0 ->
  cell (reg m0) R_COND = Some FL_ZRO /\ cell (reg m0) R_PC = Some PC_START.
Proof.
  unfold main_setup. destruct images as [|file images]; [discriminate|].
  intros H.
  apply bind_inv in H as (_ & m1 & _ & H).
  apply bind_inv in H as ([] & m2 & Hcond & Hpc).
  unfold set_reg in Hcond, Hpc.
  destruct (set_cell (reg m1) 9 2) as [rs1|] eqn:H1; [|discriminate].
  injection Hcond as Hm2. subst m2.
  destruct (set_cell (reg (with_reg rs1 m1)) 8 12288) as [rs2|] eqn:H2;
    [|discriminate].
  injection Hpc as Hm0. subst m0.
  apply set_cell_Some in H1 as [Hr1 Hrs1]. apply set_cell_Some in H2 as [Hr2 Hrs2].
  subst rs1 rs2. cbn [reg with_reg] in *. split.
  - rewrite cell_insert_ne by lia. apply cell_insert_eq. exact Hr1.
  - apply cell_insert_eq. exact Hr2.
Qed.

Lemma steps_keep_cond cs m0 running m :
  cond_ok m0 -> steps cs m0 running m -> cond_ok m.
Proof.
  intros H0 Hsteps. induction Hsteps as [|m r m' _ IH Hstep].
  - exact H0.
  - exact (step_keeps_cond cs m r m' IH Hstep).
Qed.

(** C4. [main] enters its loop with [COND = Z]; every turn of the loop that
    starts with one of 1, 2, 4 in [COND] ends with one of them there; so
    every state the loop reaches holds one of 1, 2, 4 in [COND]. *)
Theorem cond_is_one_flag (cs : bool) :
  (forall io pi images input m0,
     main_setup io pi images (power_on input) = Done tt m0 ->
     cell (reg m0) R_COND = Some FL_ZRO) /\
  (forall m running m',
     cond_ok m -> step cs m = Done running m' -> cond_ok m') /\
  (forall io pi images input m0 running m,
     main_setup io pi images (power_on input) = Done tt m0 ->
     steps cs m0 running m ->
     cell (reg m) R_COND = Some FL_POS \/
     cell (reg m) R_COND = Some FL_ZRO \/
     cell (reg m) R_COND = Some FL_NEG).
Proof.
  split; [|split].
  - intros io pi images input m0 H. exact (proj1 (main_setup_regs _ _ _ _ _ H)).
  - apply step_keeps_cond.
  - intros io pi images input m0 running m H Hsteps.
    apply (steps_keep_cond cs m0 running m); [|exact Hsteps].
    right. left. exact (proj1 (main_setup_regs _ _ _ _ _ H)).
Qed.

(** The image [30 00 10 21 F0 25]: [ADD R0, R0, #1] and [HALT]. The first
    turn of the loop ends, with [COND = FL_POS]. *)
Lemma cond_is_one_flag_witness :
  let image := [Byte.x30; Byte.x00; Byte.x10; Byte.x21; Byte.xf0; Byte.x25] in
  let keep := fun (old : Z) (_ : byte) => old in
  reg_after R_COND (main 0 keep true 1 [image] (power_on Idle)) = Some FL_POS /\
  match main_setup 0 keep [image] (power_on Idle) with
  | Done _ m0 =>
      match step true m0 with
      | Done _ m1 => cond_ok m1
      | Fault _ => True
      end
  | Fault _ => True
  end.
Proof.
  cbv zeta. split; [vm_compute; reflexivity|].
  destruct (main_setup 0 _ _ (power_on Idle)) as [[] m0|f] eqn:E0; [|exact I].
  destruct (step true m0) as [r m1|f] eqn:E1; [|exact I].
  apply (proj2 (proj2 (cond_is_one_flag true)) 0 (fun old _ => old)
           [[Byte.x30; Byte.x00; Byte.x10; Byte.x21; Byte.xf0; Byte.x25]] Idle
           m0 r m1 E0).
  apply (steps_step true m0 m0 r m1); [apply steps_refl|exact E1].
Defined.

(** *** Accesses stay inside the arrays, the string traps apart *)

Lemma keeps_weaken {A : Type} (P : machine -> Prop) (F F' : fault -> Prop)
    (c : M A) :
  (forall f, F f -> F' f) -> keeps P F c -> keeps P F' c.
Proof.
  intros HF Hc m Hm. specialize (Hc m Hm).
  destruct (c m); [exact Hc|exact (HF _ Hc)].
Qed.

Lemma keeps_bind_word {B : Type} (P : machine -> Prop) (F : fault -> Prop)
    (c : M Z) (k : Z -> M B) :
  yields_word P F c -> (forall a, 0 <= a < 65536 -> keeps P F (k a)) ->
  keeps P F (bind c k).
Proof.
  intros Hc Hk m Hm. specialize (Hc m Hm). unfold bind.
  destruct (c m) as [a m1|f]; [|exact Hc]. destruct Hc as [Hm1 Ha].
  exact (Hk a Ha m1 Hm1).
Qed.

Lemma wf_get_reg F r : 0 <= r < 10 -> yields_word wf F (get_reg r).
Proof.
  intros Hr m Hm. unfold get_reg.
  destruct (reg_is_Some m r (proj1 Hm) Hr) as [v Hv]. rewrite Hv.
  split; [exact Hm|]. exact (cell_word _ _ _ (proj2 (proj2 Hm)) Hv).
Qed.

Lemma wf_get_reg_field F x : yields_word wf F (get_reg (Z.land x 7)).
Proof. apply wf_get_reg. pose proof (field3_range x). lia. Qed.

Lemma wf_set_reg F r v : 0 <= r < 10 -> keeps wf F (set_reg r v).
Proof.
  intros Hr m Hm. destruct Hm as [[Hmem Hreg] [Hwm Hwr]].
  rewrite set_reg_Done by (rewrite Hreg; lia).
  repeat split; cbn [memory reg with_reg]; try assumption.
  - now rewrite length_insert.
  - now apply Forall_insert_word.
Qed.

Lemma wf_set_reg_field F x v : keeps wf F (set_reg (Z.land x 7) v).
Proof. apply wf_set_reg. pose proof (field3_range x). lia. Qed.

Lemma wf_set_mem F i v : 0 <= i < 65536 -> keeps wf F (set_mem i v).
Proof.
  intros Hi m Hm. destruct Hm as [[Hmem Hreg] [Hwm Hwr]].
  rewrite set_mem_Done by (rewrite Hmem; lia).
  repeat split; cbn [memory reg with_memory]; try assumption.
  - now rewrite length_insert.
  - now apply Forall_insert_word.
Qed.

Lemma wf_mem_read F addr : 0 <= addr < 65536 -> yields_word wf F (mem_read addr).
Proof.
  intros Haddr m [Hsz Hwc].
  destruct (mem_read_total addr m Hsz Hwc Haddr) as (w & m' & -> & _ & Hsz' & Hwc' & Hw).
  split; [split|]; assumption.
Qed.

Lemma wf_update_flags F r : 0 <= r < 10 -> keeps wf F (update_flags r).
Proof.
  intros Hr. unfold update_flags. apply keeps_bind_word; [now apply wf_get_reg|].
  intros v _. repeat apply keeps_if; apply wf_set_reg; lia.
Qed.

Lemma wf_update_flags_field F x : keeps wf F (update_flags (Z.land x 7)).
Proof. apply wf_update_flags. pose proof (field3_range x). lia. Qed.

(** [getchar] may return [EOF], which is no word; what it returns is
    converted before it is stored. *)
Lemma wf_getchar F : F WaitingForInput -> keeps wf F getchar.
Proof.
  intros HF m Hm. unfold getchar.
  destruct (stdin m) as [|b rest]; [|exact Hm].
  destruct (stdin_fileno m); [exact HF|exact Hm|exact Hm].
Qed.

Lemma wf_putc F c : keeps wf F (putc c).
Proof. intros m Hm. exact Hm. Qed.

Lemma wf_print F s : keeps wf F (print s).
Proof. intros m Hm. exact Hm. Qed.

Lemma wf_abort {A : Type} F : F Aborted -> keeps wf F (@raise A Aborted).
Proof. apply keeps_raise. Qed.

Create HintDb wf_keeps.
Lemma exec_fault_benign inst f : benign f -> exec_fault inst f.
Proof. intros Hf. left. exact Hf. Qed.

#[local] Hint Resolve wf_get_reg_field wf_set_reg_field wf_update_flags_field
  wf_putc wf_print u16_range : wf_keeps.
#[local] Hint Extern 1 (yields_word wf _ (get_reg _)) =>
  apply wf_get_reg; lia : wf_keeps.
#[local] Hint Extern 1 (keeps wf _ (set_reg _ _)) =>
  apply wf_set_reg; lia : wf_keeps.
#[local] Hint Extern 1 (keeps wf _ (update_flags _)) =>
  apply wf_update_flags; lia : wf_keeps.
#[local] Hint Extern 1 (yields_word wf _ (mem_read _)) =>
  apply wf_mem_read; first [assumption | apply u16_range] : wf_keeps.
#[local] Hint Extern 1 (keeps wf _ (mem_write _ _)) =>
  apply wf_set_mem; first [assumption | apply u16_range] : wf_keeps.
#[local] Hint Extern 1 (keeps wf _ getchar) =>
  apply wf_getchar; first [exact I | apply exec_fault_benign; exact I] : wf_keeps.
#[local] Hint Extern 1 (keeps wf _ (raise Aborted)) =>
  apply wf_abort; first [exact I | apply exec_fault_benign; exact I] : wf_keeps.

Ltac wf_walk :=
  repeat first
    [ solve [auto with wf_keeps]
    | apply keeps_ret
    | match goal with
      | |- keeps _ _ (bind getchar _) => apply keeps_bind; [|intros ?]
      | |- keeps _ _ (@bind Z _ _ _) => apply keeps_bind_word; [|intros ? ?]
      | |- keeps _ _ (@bind _ _ _ _) => apply keeps_bind; [|intros ?]
      end
    | apply keeps_if ].

Lemma wf_fetch F : yields_word wf F fetch.
Proof.
  intros m Hm. unfold fetch.
  pose proof (wf_get_reg F 8 ltac:(lia) m Hm) as Hpc. unfold bind at 1.
  destruct (get_reg 8 m) as [pc m1|f]; [|exact Hpc]. destruct Hpc as [Hm1 Hpc].
  pose proof (wf_set_reg F 8 (pc + 1) ltac:(lia) m1 Hm1) as Hset. unfold bind.
  destruct (set_reg 8 (pc + 1) m1) as [[] m2|f]; [|exact Hset].
  exact (wf_mem_read F pc Hpc m2 Hset).
Qed.

(** The cases other than [OP_TRAP] never fault on a well-formed machine. *)
Lemma wf_plain_ops F inst :
  keeps wf F (op_add inst) /\ keeps wf F (op_and inst) /\
  keeps wf F (op_not inst) /\ keeps wf F (op_br inst) /\
  keeps wf F (op_jmp inst) /\ keeps wf F (op_jsr inst) /\
  keeps wf F (op_ld inst) /\ keeps wf F (op_ldi inst) /\
  keeps wf F (op_ldr inst) /\ keeps wf F (op_lea inst) /\
  keeps wf F (op_st inst) /\ keeps wf F (op_sti inst) /\
  keeps wf F (op_str inst).
Proof.
  repeat split;
    unfold op_add, op_and, op_not, op_br, op_jmp, op_jsr, op_ld, op_ldi,
      op_ldr, op_lea, op_st, op_sti, op_str;
    cbv zeta; wf_walk.
Qed.

(** The string loops: a run past the end of [memory] is their only fault. *)
Lemma wf_puts_loop cs cells : forall i m,
  wf m ->
  match puts_loop cs i cells m with
  | Done _ m' => wf m'
  | Fault f => f = MemoryOutOfRange (i + Z.of_nat (length cells))
  end.
Proof.
  induction cells as [|w rest IH]; intros i m Hm; cbn [puts_loop].
  - unfold raise. f_equal. cbn [length]. lia.
  - destruct (truthy w); [|exact Hm].
    unfold bind at 1. unfold putc at 1.
    specialize (IH (i + 1) (with_stdout (stdout m ++ [byte_of_Z (to_char cs w)]) m) Hm).
    destruct (puts_loop cs (i + 1) rest _); [exact IH|].
    rewrite IH. f_equal. cbn [length]. lia.
Qed.

Lemma wf_putsp_loop cs cells : forall i m,
  wf m ->
  match putsp_loop cs i cells m with
  | Done _ m' => wf m'
  | Fault f => f = MemoryOutOfRange (i + Z.of_nat (length cells))
  end.
Proof.
  induction cells as [|w rest IH]; intros i m Hm; cbn [putsp_loop].
  - unfold raise. f_equal. cbn [length]. lia.
  - destruct (truthy w); [|exact Hm]. cbv zeta.
    unfold bind at 1. unfold putc at 1. unfold bind at 1.
    set (m1 := with_stdout _ m).
    assert (exists m2, (if truthy (to_char cs (Z.shiftr w 8))
                        then putc (to_char cs (Z.shiftr w 8)) else ret tt) m1
                       = Done tt m2 /\ wf m2) as (m2 & -> & Hm2).
    { destruct (truthy _); eexists; (split; [reflexivity|exact Hm]). }
    specialize (IH (i + 1) m2 Hm2).
    destruct (putsp_loop cs (i + 1) rest m2); [exact IH|].
    rewrite IH. f_equal. cbn [length]. lia.
Qed.

Lemma string_cells_end m r0 :
  sized m -> 0 <= r0 < 65536 ->
  r0 + Z.of_nat (length (drop (Z.to_nat r0) (memory m))) = 65536.
Proof. intros [Hmem _] Hr0. rewrite length_drop, Hmem. lia. Qed.

Lemma wf_trap_puts cs inst :
  string_trap inst -> keeps wf (exec_fault inst) (trap_puts cs).
Proof.
  intros Hst. unfold trap_puts. apply keeps_bind_word; [auto with wf_keeps|].
  intros r0 Hr0 m Hm. unfold bind at 1. unfold string_at at 1. unfold bind.
  pose proof (wf_puts_loop cs (drop (Z.to_nat r0) (memory m)) r0 m Hm) as H.
  destruct (puts_loop cs r0 _ m); [exact H|].
  right. split; [exact Hst|]. rewrite H. f_equal.
  apply string_cells_end; [apply Hm|exact Hr0].
Qed.

Lemma wf_trap_putsp cs inst :
  string_trap inst -> keeps wf (exec_fault inst) (trap_putsp cs).
Proof.
  intros Hst. unfold trap_putsp. apply keeps_bind_word; [auto with wf_keeps|].
  intros r0 Hr0 m Hm. unfold bind at 1. unfold string_at at 1. unfold bind.
  pose proof (wf_putsp_loop cs (drop (Z.to_nat r0) (memory m)) r0 m Hm) as H.
  destruct (putsp_loop cs r0 _ m); [exact H|].
  right. split; [exact Hst|]. rewrite H. f_equal.
  apply string_cells_end; [apply Hm|exact Hr0].
Qed.

Lemma wf_op_trap cs inst :
  Z.shiftr inst 12 = OP_TRAP -> keeps wf (exec_fault inst) (op_trap cs inst).
Proof.
  intros Hop. unfold op_trap. cbv zeta.
  apply keeps_bind_word; [auto with wf_keeps|]. intros pc Hpc.
  apply keeps_bind; [auto with wf_keeps|]. intros _.
  remember (Z.land inst 255) as t eqn:Ht. symmetry in Ht.
  repeat match goal with
         | |- context [match ?x with _ => _ end] => destruct x
         end;
    first [ solve [auto with wf_keeps]
          | apply wf_trap_puts; split; [exact Hop|left; exact Ht]
          | apply wf_trap_putsp; split; [exact Hop|right; exact Ht]
          | unfold trap_getc, trap_out, trap_in, trap_halt; cbv zeta; wf_walk ].
Qed.

(** One instruction on a well-formed machine: the machine stays well-formed,
    and the only access outside the arrays is the read of
    [memory[MEMORY_MAX]] by [TRAP PUTS] and [TRAP PUTSP]. *)
Lemma wf_exec cs inst : keeps wf (exec_fault inst) (exec cs inst).
Proof.
  pose proof (wf_plain_ops (exec_fault inst) inst) as H.
  pose proof (wf_op_trap cs inst) as Htrap.
  unfold exec. cbv zeta.
  remember (Z.shiftr inst 12) as op eqn:Hop.
  repeat match goal with
         | |- context [match ?x with _ => _ end] => destruct x
         end;
    first [ solve [auto with wf_keeps] | apply Htrap; reflexivity | apply H ].
Qed.

Lemma wf_step cs :
  keeps wf (fun f => benign f \/ f = MemoryOutOfRange MEMORY_MAX) (step cs).
Proof.
  unfold step. apply keeps_bind_word; [apply wf_fetch|].
  intros inst _. apply keeps_weaken with (F := exec_fault inst); [|apply wf_exec].
  intros f [Hf|[_ Hf]]; [left|right]; assumption.
Qed.

(** C8 on the code. The images hold, at [0x3000], [AND R0, R0, #0],
    [ADD R0, R0, #-1], [STR R0, R0, #0] and then [TRAP PUTS] (or
    [TRAP PUTSP]): [R0 = 0xFFFF] and [memory[0xFFFF] = 0xFFFF], so the string
    has no terminator before the end of [memory], and the fourth turn of the
    loop reads [memory[0x10000]], outside the array. *)
Theorem string_traps_read_past_memory (io : Z) (pi : Z -> byte -> Z) (cs : bool) :
  let prefix := [Byte.x30; Byte.x00; Byte.x50; Byte.x20; Byte.x10; Byte.x3f;
                 Byte.x70; Byte.x00] in
  main io pi cs 4 [prefix ++ [Byte.xf0; Byte.x22]] (power_on Idle)
  = Fault (MemoryOutOfRange MEMORY_MAX) /\
  main io pi cs 4 [prefix ++ [Byte.xf0; Byte.x24]] (power_on Idle)
  = Fault (MemoryOutOfRange MEMORY_MAX).
Proof. cbv zeta. destruct cs; split; vm_compute; reflexivity. Qed.

(** ** The image loader *)

Lemma fread_none nmemb file : nmemb <= 0 -> fread nmemb file = ([], None, file).
Proof.
  intros Hn. destruct file as [|b0 file]; cbn [fread];
    destruct (Z.leb_spec nmemb 0); try reflexivity; lia.
Qed.

Lemma fread_one b0 b1 file :
  fread 1 (b0 :: b1 :: file) = ([host_word b0 b1], None, file).
Proof.
  cbn [fread Z.leb Z.compare]. rewrite (fread_none (1 - 1) file) by lia.
  reflexivity.
Qed.

(** An image whose origin is 0 leaves the machine as it is: [max_read] is
    [(uint16_t)(MEMORY_MAX - 0) = 0]. *)
Lemma read_image_file_origin_zero io pi payload m :
  read_image_file io pi (Byte.x00 :: Byte.x00 :: payload) m = Done tt m.
Proof.
  unfold read_image_file. rewrite fread_one.
  change (swap16 (host_word Byte.x00 Byte.x00)) with 0.
  change (u16 (65536 - 0)) with 0.
  rewrite (fread_none 0 payload) by lia.
  destruct m; reflexivity.
Qed.

(** C7 on the code. An image with origin [0x0000] is not loaded at all,
    whatever follows the origin; for the bytes [00 00 12 34] the claim has
    [memory[0] = 0x1234] and the code leaves [memory[0] = 0]. *)
Theorem origin_zero_image_is_not_loaded (io : Z) (pi : Z -> byte -> Z) :
  (forall payload m,
     read_image_file io pi (Byte.x00 :: Byte.x00 :: payload) m = Done tt m) /\
  mem_after 0 (main_setup io pi [[Byte.x00; Byte.x00; Byte.x12; Byte.x34]]
                 (power_on Idle))
  = Some 0.
Proof.
  split; [intros; apply read_image_file_origin_zero|].
  vm_compute. reflexivity.
Qed.

(** *** The loader keeps the machine well-formed *)

Lemma wf_power_on input : wf (power_on input).
Proof.
  split; split; cbn [memory reg power_on].
  - apply length_replicate.
  - apply length_replicate.
  - apply Forall_replicate. lia.
  - apply Forall_replicate. lia.
Qed.

Lemma wf_any_set_mem i v : keeps wf any_fault (set_mem i v).
Proof.
  intros m Hm. unfold set_mem.
  destruct (set_cell (memory m) i v) as [mem|] eqn:Hset; [|exact I].
  apply set_cell_Some in Hset as [Hi Hmem]. subst mem.
  destruct Hm as [[Hmem Hreg] [Hwm Hwr]].
  repeat split; cbn [memory reg with_memory]; try assumption.
  - now rewrite length_insert.
  - now apply Forall_insert_word.
Qed.

Lemma wf_any_get_mem i : keeps wf any_fault (get_mem i).
Proof.
  intros m Hm. unfold get_mem. destruct (cell (memory m) i); [exact Hm|exact I].
Qed.

Lemma wf_store_items items : forall p, keeps wf any_fault (store_items p items).
Proof.
  induction items as [|w items IH]; intros p; cbn [store_items].
  - apply keeps_ret.
  - apply keeps_bind; [apply wf_any_set_mem|]. intros _. apply IH.
Qed.

Lemma wf_swap_loop read : forall p, keeps wf any_fault (swap_loop read p).
Proof.
  induction read as [|read IH]; intros p; cbn [swap_loop].
  - apply keeps_ret.
  - apply keeps_bind; [apply wf_any_get_mem|]. intros w.
    apply keeps_bind; [apply wf_any_set_mem|]. intros _. apply IH.
Qed.

Lemma wf_read_image_file io pi file : keeps wf any_fault (read_image_file io pi file).
Proof.
  unfold read_image_file.
  destruct (fread 1 file) as [[items cut1] file1].
  destruct (fread _ file1) as [[words cut] file2].
  apply keeps_bind; [apply wf_store_items|]. intros _.
  apply keeps_bind; [|intros _; apply wf_swap_loop].
  unfold store_cut. destruct cut as [b|]; [|apply keeps_ret].
  apply keeps_bind; [apply wf_any_get_mem|]. intros old. apply wf_any_set_mem.
Qed.

Lemma wf_read_images io pi images : keeps wf any_fault (read_images io pi images).
Proof.
  induction images as [|file images IH]; cbn [read_images].
  - apply keeps_ret.
  - apply keeps_bind; [apply wf_read_image_file|]. intros _. exact IH.
Qed.

Lemma wf_main_setup io pi images : keeps wf any_fault (main_setup io pi images).
Proof.
  unfold main_setup. destruct images as [|file images].
  - intros m _. exact I.
  - apply keeps_bind; [apply wf_read_images|]. intros _.
    apply keeps_bind; intros; apply keeps_weaken with (F := benign);
      try (intros; exact I); apply wf_set_reg; lia.
Qed.

Lemma steps_keep_wf cs m0 running m : wf m0 -> steps cs m0 running m -> wf m.
Proof.
  intros H0 Hsteps. induction Hsteps as [|m r m' _ IH Hstep].
  - exact H0.
  - pose proof (wf_step cs m IH) as H. rewrite Hstep in H. exact H.
Qed.

(** Every state the loop of [main] reaches is well-formed, and the turn of
    the loop from it ends, or stops with a benign fault, or reads
    [memory[MEMORY_MAX]] in a string trap: no other access leaves the
    arrays. *)
Lemma reachable_accesses io pi cs images input m0 running m :
  main_setup io pi images (power_on input) = Done tt m0 ->
  steps cs m0 running m ->
  wf m /\
  match step cs m with
  | Done _ m' => wf m'
  | Fault f => benign f \/ f = MemoryOutOfRange MEMORY_MAX
  end.
Proof.
  intros Hsetup Hsteps.
  assert (wf m0) as H0.
  { pose proof (wf_main_setup io pi images (power_on input) (wf_power_on input)) as H.
    rewrite Hsetup in H. exact H. }
  assert (wf m) as Hm by exact (steps_keep_wf cs m0 running m H0 Hsteps).
  split; [exact Hm|]. exact (wf_step cs m Hm).
Qed.

(** *** What the loader stores *)

(** [swap16] exchanges the two bytes of a word. *)
Lemma swap16_bytes x : 0 <= x < 65536 -> swap16 x = 256 * (x mod 256) + x / 256.
Proof.
  intros Hx. unfold swap16, u16.
  rewrite Z.shiftl_mul_pow2, Z.shiftr_div_pow2 by lia.
  change (2 ^ 8) with 256.
  assert (0 <= x / 256 < 256) as Hh
    by (split; [apply Z.div_pos; lia|apply Z.div_lt_upper_bound; lia]).
  assert (Z.land (x * 256) (x / 256) = 0) as Hland.
  { assert (x / 256 = Z.land (x / 256) (Z.ones 8)) as Hh8.
    { rewrite Z.land_ones by lia. change (2 ^ 8) with 256.
      symmetry. apply Z.mod_small. exact Hh. }
    rewrite Hh8, (Z.land_comm (x / 256)), Z.land_assoc.
    rewrite (Z.land_ones (x * 256)) by lia. change (2 ^ 8) with 256.
    rewrite Z.mod_mul by lia. apply Z.land_0_l. }
  rewrite <- Z.lxor_lor, <- Z.add_nocarry_lxor by exact Hland.
  pose proof (Z.mod_pos_bound x 256 ltac:(lia)).
  pose proof (Z.div_mod x 256 ltac:(lia)).
  symmetry. apply Z.mod_unique with (q := x / 256); lia.
Qed.

Lemma host_word_range b0 b1 : 0 <= host_word b0 b1 < 65536.
Proof.
  unfold host_word. pose proof (Z_of_byte_range b0). pose proof (Z_of_byte_range b1).
  lia.
Qed.

Lemma swap16_host_word b0 b1 :
  swap16 (host_word b0 b1) = 256 * Z_of_byte b0 + Z_of_byte b1.
Proof.
  rewrite swap16_bytes by apply host_word_range. unfold host_word.
  pose proof (Z_of_byte_range b0). pose proof (Z_of_byte_range b1).
  replace ((Z_of_byte b0 + 256 * Z_of_byte b1) mod 256) with (Z_of_byte b0)
    by (apply Z.mod_unique with (q := Z_of_byte b1); lia).
  replace ((Z_of_byte b0 + 256 * Z_of_byte b1) / 256) with (Z_of_byte b1)
    by (apply Z.div_unique with (r := Z_of_byte b0); lia).
  reflexivity.
Qed.

(** Induction on a byte stream two bytes at a time. *)
Lemma byte_pairs_ind (P : list byte -> Prop) :
  P [] -> (forall b, P [b]) -> (forall b0 b1 l, P l -> P (b0 :: b1 :: l)) ->
  forall l, P l.
Proof.
  intros Hnil Hone Hpair l.
  assert (P l /\ forall b, P (b :: l)) as [H _]; [|exact H].
  induction l as [|b l [IH1 IH2]]; split; auto.
Qed.

Lemma swap16_host_words bytes :
  swap16 <$> host_words bytes = big_endian_words bytes.
Proof.
  induction bytes as [|b|b0 b1 l IH] using byte_pairs_ind; try reflexivity.
  cbn [host_words big_endian_words]. rewrite fmap_cons, IH, swap16_host_word.
  reflexivity.
Qed.

Lemma host_words_range bytes : Forall (fun w => 0 <= w < 65536) (host_words bytes).
Proof.
  induction bytes as [|b|b0 b1 l IH] using byte_pairs_ind; try constructor.
  - apply host_word_range.
  - exact IH.
Qed.

(** [fread] delivers the first [nmemb] items of the stream; an item cut
    short means fewer than [nmemb] were there. *)
Lemma fread_items file : forall nmemb items cut rest,
  fread nmemb file = (items, cut, rest) ->
  items = take (Z.to_nat nmemb) (host_words file) /\
  (cut <> None -> Z.of_nat (length items) < nmemb).
Proof.
  induction file as [|b|b0 b1 l IH] using byte_pairs_ind;
    intros nmemb items cut rest; cbn [fread];
    destruct (Z.leb_spec nmemb 0) as [Hn|Hn].
  - intros [= <- <- <-]. split; [now cbn [host_words]; rewrite take_nil|congruence].
  - intros [= <- <- <-]. split; [now cbn [host_words]; rewrite take_nil|congruence].
  - intros [= <- <- <-]. split; [now cbn [host_words]; rewrite take_nil|congruence].
  - intros [= <- <- <-]. split; [now cbn [host_words]; rewrite take_nil|]. cbn [length]. lia.
  - intros [= <- <- <-]. split; [|congruence].
    replace (Z.to_nat nmemb) with 0%nat by lia. reflexivity.
  - destruct (fread (nmemb - 1) l) as [[items' cut'] rest'] eqn:Hrec.
    intros [= <- <- <-]. destruct (IH _ _ _ _ Hrec) as [-> Hcut].
    split.
    + replace (Z.to_nat nmemb) with (S (Z.to_nat (nmemb - 1))) by lia.
      reflexivity.
    + intros Hc. specialize (Hcut Hc). cbn [length]. lia.
Qed.

Lemma with_memory_same m : with_memory (memory m) m = m.
Proof. destruct m; reflexivity. Qed.

Lemma store_items_Done items : forall p m,
  0 <= p -> p + Z.of_nat (length items) <= Z.of_nat (length (memory m)) ->
  Forall (fun w => 0 <= w < 65536) items ->
  exists mem',
    store_items p items m = Done tt (with_memory mem' m) /\
    length mem' = length (memory m) /\
    (forall i w, items !! i = Some w -> cell mem' (p + Z.of_nat i) = Some w) /\
    (forall j, j < p \/ p + Z.of_nat (length items) <= j ->
               cell mem' j = cell (memory m) j).
Proof.
  induction items as [|w items IH]; intros p m Hp Hlen Hws; cbn [store_items].
  - exists (memory m). rewrite with_memory_same.
    repeat split. intros i w Hi. discriminate Hi.
  - cbn [length] in Hlen. inversion Hws as [|? ? Hw Hws']; subst.
    step_with (set_mem_Done p w m ltac:(lia)).
    set (m1 := with_memory _ m).
    destruct (IH (p + 1) m1) as (mem' & Hrun & Hlen' & Hin & Hout);
      [lia|unfold m1; cbn [memory with_memory]; rewrite length_insert; lia
      |exact Hws'|].
    exists mem'. split; [|split; [|split]].
    + rewrite Hrun. reflexivity.
    + rewrite Hlen'. unfold m1. cbn [memory with_memory]. apply length_insert.
    + intros [|i] w' Hi.
      * injection Hi as <-. rewrite Z.add_0_r, Hout by lia.
        unfold m1. cbn [memory with_memory].
        rewrite cell_insert_eq by lia. now rewrite u16_small.
      * replace (p + Z.of_nat (S i)) with (p + 1 + Z.of_nat i) by lia.
        apply Hin. exact Hi.
    + intros j Hj. rewrite Hout by (cbn [length] in Hj; lia).
      unfold m1. cbn [memory with_memory]. apply cell_insert_ne; [lia|].
      cbn [length] in Hj. lia.
Qed.

Lemma store_cut_Done pi p cut m :
  (cut <> None -> 0 <= p < Z.of_nat (length (memory m))) ->
  exists mem',
    store_cut pi p cut m = Done tt (with_memory mem' m) /\
    length mem' = length (memory m) /\
    (forall j, j <> p -> cell mem' j = cell (memory m) j).
Proof.
  intros Hp. unfold store_cut. destruct cut as [b|].
  - specialize (Hp ltac:(congruence)).
    destruct (cell_is_Some (memory m) p Hp) as [old Hold].
    step_with (get_mem_Done _ _ _ Hold). rewrite set_mem_Done by exact Hp.
    eexists. split; [reflexivity|]. split; [apply length_insert|].
    intros j Hj. apply cell_insert_ne; lia.
  - exists (memory m). rewrite with_memory_same. auto.
Qed.

Lemma swap_loop_Done read : forall p m,
  0 <= p -> p + Z.of_nat read <= Z.of_nat (length (memory m)) ->
  exists mem',
    swap_loop read p m = Done tt (with_memory mem' m) /\
    length mem' = length (memory m) /\
    (forall j w, p <= j < p + Z.of_nat read -> cell (memory m) j = Some w ->
                 cell mem' j = Some (swap16 w)) /\
    (forall j, j < p \/ p + Z.of_nat read <= j -> cell mem' j = cell (memory m) j).
Proof.
  induction read as [|read IH]; intros p m Hp Hlen; cbn [swap_loop].
  - exists (memory m). rewrite with_memory_same.
    repeat split. intros j w Hj. lia.
  - destruct (cell_is_Some (memory m) p ltac:(lia)) as [w0 Hw0].
    step_with (get_mem_Done _ _ _ Hw0).
    step_with (set_mem_Done p (swap16 w0) m ltac:(lia)).
    set (m1 := with_memory _ m).
    assert (memory m1 = <[Z.to_nat p := u16 (swap16 w0)]> (memory m)) as Hm1
      by reflexivity.
    destruct (IH (p + 1) m1) as (mem' & Hrun & Hlen' & Hin & Hout);
      [lia|rewrite Hm1, length_insert; lia|].
    exists mem'. split; [|split; [|split]].
    + rewrite Hrun. reflexivity.
    + rewrite Hlen', Hm1. apply length_insert.
    + intros j w Hj Hw. destruct (Z.eq_dec j p) as [->|Hne].
      * rewrite Hout, Hm1 by lia. rewrite cell_insert_eq by lia.
        assert (w = w0) as -> by congruence.
        f_equal. apply u16_small. unfold swap16. apply u16_range.
      * apply Hin; [lia|]. rewrite Hm1, cell_insert_ne by lia. exact Hw.
    + intros j Hj. rewrite Hout by lia. rewrite Hm1. apply cell_insert_ne; lia.
Qed.

(** The loader on an image whose origin is not 0: the words of the image, as
    many as fit below the end of [memory], are stored big-endian from
    [memory[origin]] on, and the cells before them and the cells from the
    second after them on are left alone. (The cell right after the last
    word is where [fread] puts an item cut short.) *)
Lemma read_image_file_loads io pi o1 o0 payload m :
  sized m ->
  let origin := 256 * Z_of_byte o1 + Z_of_byte o0 in
  let words := take (Z.to_nat (65536 - origin)) (big_endian_words payload) in
  origin <> 0 ->
  exists m',
    read_image_file io pi (o1 :: o0 :: payload) m = Done tt m' /\
    reg m' = reg m /\ stdin m' = stdin m /\
    stdin_fileno m' = stdin_fileno m /\ stdout m' = stdout m /\
    length (memory m') = length (memory m) /\
    (forall i w, words !! i = Some w ->
                 cell (memory m') (origin + Z.of_nat i) = Some w) /\
    (forall j, j < origin \/ origin + Z.of_nat (length words) < j ->
               cell (memory m') j = cell (memory m) j).
Proof.
  intros [Hmem _] origin words Horigin.
  pose proof (Z_of_byte_range o1) as H1. pose proof (Z_of_byte_range o0) as H0.
  assert (0 < origin < 65536) as Ho by (unfold origin in *; lia).
  unfold read_image_file. rewrite fread_one, swap16_host_word. fold origin.
  rewrite (u16_small (65536 - origin)) by lia.
  destruct (fread (65536 - origin) payload) as [[items cut] rest] eqn:Hf.
  apply fread_items in Hf as [Hitems Hcut].
  assert (Z.of_nat (length items) <= 65536 - origin) as Hlen.
  { rewrite Hitems, length_take. lia. }
  assert (words = swap16 <$> items) as Hwords.
  { unfold words. rewrite <- swap16_host_words, <- fmap_take, Hitems. reflexivity. }
  assert (length words = length items) as Hlw by (rewrite Hwords; apply length_fmap).
  destruct (store_items_Done items origin m) as (mem1 & Hrun1 & Hlen1 & Hin1 & Hout1);
    [lia|rewrite Hmem; lia| |].
  { rewrite Hitems. apply Forall_take, host_words_range. }
  step_with Hrun1. set (m1 := with_memory mem1 m).
  destruct (store_cut_Done pi (origin + Z.of_nat (length items)) cut m1)
    as (mem2 & Hrun2 & Hlen2 & Hout2).
  { intros Hc. specialize (Hcut Hc). unfold m1. cbn [memory with_memory].
    rewrite Hlen1, Hmem. lia. }
  step_with Hrun2. set (m2 := with_memory mem2 m1).
  destruct (swap_loop_Done (length items) origin m2)
    as (mem3 & Hrun3 & Hlen3 & Hin3 & Hout3); [lia| |].
  { unfold m2, m1. cbn [memory with_memory]. rewrite Hlen2.
    unfold m1. cbn [memory with_memory]. rewrite Hlen1, Hmem. lia. }
  exists (with_memory mem3 m2). split; [exact Hrun3|].
  cbn [memory reg stdin stdin_fileno stdout with_memory m1 m2].
  repeat split.
  - rewrite Hlen3. unfold m2. cbn [memory with_memory]. rewrite Hlen2.
    unfold m1. cbn [memory with_memory]. exact Hlen1.
  - intros i w Hi. rewrite Hwords, list_lookup_fmap in Hi.
    destruct (items !! i) as [w0|] eqn:Hi0; [|discriminate Hi].
    injection Hi as <-.
    pose proof (lookup_lt_Some _ _ _ Hi0) as Hlt.
    apply Hin3; [lia|]. unfold m2. cbn [memory with_memory].
    rewrite Hout2 by lia. unfold m1. cbn [memory with_memory].
    apply Hin1. exact Hi0.
  - intros j Hj. rewrite Hlw in Hj.
    rewrite Hout3 by lia. unfold m2. cbn [memory with_memory].
    rewrite Hout2 by lia. unfold m1. cbn [memory with_memory].
    apply Hout1. lia.
Qed.

(** * Further properties of the code *)

(** ** [swap16] and [sign_extend] *)

(** X1. [swap16] is its own inverse on 16-bit words: converting a word to
    the other byte order twice gives the word back. *)
Theorem swap16_involutive (x : Z) :
  0 <= x < 65536 -> swap16 (swap16 x) = x.
Proof.
  intros Hx. rewrite (swap16_bytes x Hx).
  pose proof (Z.mod_pos_bound x 256 ltac:(lia)) as Hlo.
  assert (0 <= x / 256 < 256) as Hhi
    by (split; [apply Z.div_pos; lia|apply Z.div_lt_upper_bound; lia]).
  rewrite swap16_bytes by lia.
  replace ((256 * (x mod 256) + x / 256) mod 256) with (x / 256)
    by (apply Z.mod_unique with (q := x mod 256); lia).
  replace ((256 * (x mod 256) + x / 256) / 256) with (x mod 256)
    by (apply Z.div_unique with (r := x / 256); lia).
  pose proof (Z.div_mod x 256 ltac:(lia)). lia.
Qed.

Lemma swap16_involutive_witness :
  0 <= 4660 < 65536 /\ swap16 (swap16 4660) = 4660.
Proof. split; [lia|]. apply (swap16_involutive 4660). lia. Defined.

(** X2. For a field of [n] bits, [1 <= n <= 16], [sign_extend] returns the
    16-bit two's-complement encoding of the field read as a signed [n]-bit
    number: the field itself below [2^(n-1)], and the field minus [2^n],
    wrapped modulo 2^16, from [2^(n-1)] on. *)
Theorem sign_extend_twos_complement (x n : Z) :
  1 <= n <= 16 -> 0 <= x < 2 ^ n ->
  sign_extend x n = u16 (if x <? 2 ^ (n - 1) then x else x - 2 ^ n).
Proof.
  intros Hn Hx.
  assert (2 ^ n = 2 * 2 ^ (n - 1)) as Hpow.
  { replace n with (Z.succ (n - 1)) at 1 by lia. apply Z.pow_succ_r. lia. }
  assert (0 < 2 ^ (n - 1)) as Hpos by (apply Z.pow_pos_nonneg; lia).
  assert (2 ^ n <= 65536) as Hle.
  { change 65536 with (2 ^ 16). apply Z.pow_le_mono_r; lia. }
  unfold sign_extend. rewrite Z.shiftr_div_pow2 by lia.
  destruct (Z.ltb_spec x (2 ^ (n - 1))) as [Hlt|Hge].
  - rewrite Z.div_small by lia.
    change (truthy (Z.land 0 1)) with false. cbv iota.
    symmetry. apply u16_small. lia.
  - replace (x / 2 ^ (n - 1)) with 1
      by (apply Z.div_unique with (r := x - 2 ^ (n - 1)); lia).
    change (truthy (Z.land 1 1)) with true. cbv iota.
    assert (Z.land x (Z.shiftl 65535 n) = 0) as Hland.
    { rewrite <- (Z.mod_small x (2 ^ n)) by lia.
      rewrite <- Z.land_ones by lia.
      rewrite <- Z.land_assoc, (Z.land_comm (Z.ones n)), Z.land_ones by lia.
      rewrite Z.shiftl_mul_pow2, Z.mod_mul by lia. apply Z.land_0_r. }
    rewrite <- Z.lxor_lor, <- Z.add_nocarry_lxor by exact Hland.
    rewrite Z.shiftl_mul_pow2 by lia. unfold u16.
    set (p := 2 ^ n) in *.
    transitivity (x + 65536 - p).
    + symmetry. apply Z.mod_unique with (q := p - 1); lia.
    + apply Z.mod_unique with (q := -1); lia.
Qed.

Lemma sign_extend_twos_complement_witness :
  (1 <= 9 <= 16 /\ 0 <= 511 < 2 ^ 9) /\
  sign_extend 511 9 = u16 (if 511 <? 2 ^ (9 - 1) then 511 else 511 - 2 ^ 9).
Proof.
  split; [split; [lia|split; [lia|reflexivity]]|].
  apply (sign_extend_twos_complement 511 9); [lia|].
  split; [lia|reflexivity].
Defined.

(** ** The arithmetic and logic cases *)

Lemma exec_opcode_rest cs inst :
  let op := Z.shiftr inst 12 in
  (op = OP_BR -> exec cs inst = op_br inst) /\
  (op = OP_JMP -> exec cs inst = op_jmp inst) /\
  (op = OP_ST -> exec cs inst = op_st inst) /\
  (op = OP_STI -> exec cs inst = op_sti inst) /\
  (op = OP_STR -> exec cs inst = op_str inst) /\
  (op = OP_RTI -> exec cs inst = raise Aborted) /\
  (op = OP_RES -> exec cs inst = raise Aborted).
Proof.
  unfold exec. repeat split; intros ->; reflexivity.
Qed.

(** X3. ADD puts [R[SR1] + operand] modulo 2^16 in [DR], the operand being
    the sign-extended [imm5] when bit 5 is set and [R[SR2]] otherwise, sets
    [COND] to the flag of that result, and changes nothing else: not [PC],
    not any other register, not memory, not the terminal. *)
Theorem add_result (cs : bool) (inst : Z) (m : machine) (a b : Z) :
  sized m -> Z.shiftr inst 12 = OP_ADD ->
  cell (reg m) (Z.land (Z.shiftr inst 6) 7) = Some a ->
  cell (reg m) (Z.land inst 7) = Some b ->
  exists c,
    exec cs inst m
    = Done true
        (with_reg
           (<[Z.to_nat R_COND := c]>
              (<[Z.to_nat (Z.land (Z.shiftr inst 9) 7) :=
                   u16 (a + (if truthy (Z.land (Z.shiftr inst 5) 1)
                             then sign_extend (Z.land inst 31) 5 else b))]>
                 (reg m))) m) /\
    flag_for c (u16 (a + (if truthy (Z.land (Z.shiftr inst 5) 1)
                          then sign_extend (Z.land inst 31) 5 else b))).
Proof.
  intros Hsz Hop Ha Hb.
  rewrite (proj1 (exec_opcode cs inst) Hop). unfold op_add.
  destruct (truthy (Z.land (Z.shiftr inst 5) 1)).
  - destruct (write_then_flags (Z.land (Z.shiftr inst 9) 7)
                (a + sign_extend (Z.land inst 31) 5) m (proj2 Hsz)
                (field3_range _)) as (c & m' & Hrun & -> & _ & _ & Hc).
    exists c. split; [|exact Hc].
    rewrite bind_assoc. step_with (get_reg_Done _ _ _ Ha). exact Hrun.
  - destruct (write_then_flags (Z.land (Z.shiftr inst 9) 7) (a + b) m (proj2 Hsz)
                (field3_range _)) as (c & m' & Hrun & -> & _ & _ & Hc).
    exists c. split; [|exact Hc].
    rewrite bind_assoc. step_with (get_reg_Done _ _ _ Ha).
    rewrite bind_assoc. step_with (get_reg_Done _ _ _ Hb). exact Hrun.
Qed.

(** [ADD R0, R0, #1] at [0x3001]. *)
Lemma add_result_witness :
  (sized fetched_at_3000 /\ Z.shiftr 4129 12 = 1 /\
   cell (reg fetched_at_3000) (Z.land (Z.shiftr 4129 6) 7) = Some 0 /\
   cell (reg fetched_at_3000) (Z.land 4129 7) = Some 0) /\
  exists c,
    exec true 4129 fetched_at_3000
    = Done true
        (with_reg
           (<[Z.to_nat 9 := c]>
              (<[Z.to_nat (Z.land (Z.shiftr 4129 9) 7) :=
                   u16 (0 + (if truthy (Z.land (Z.shiftr 4129 5) 1)
                             then sign_extend (Z.land 4129 31) 5 else 0))]>
                 (reg fetched_at_3000))) fetched_at_3000) /\
    flag_for c (u16 (0 + (if truthy (Z.land (Z.shiftr 4129 5) 1)
                          then sign_extend (Z.land 4129 31) 5 else 0))).
Proof.
  split.
  - split; [exact fetched_at_3000_sized|]. repeat split.
  - apply (add_result true 4129 fetched_at_3000 0 0).
    + exact fetched_at_3000_sized.
    + reflexivity.
    + reflexivity.
    + reflexivity.
Defined.

(** X4. AND puts the bitwise and of [R[SR1]] and the operand (sign-extended
    [imm5] or [R[SR2]]) in [DR], sets [COND] to the flag of that result, and
    changes nothing else. In particular [AND DR, SR, #0] clears [DR] and
    sets [COND = Z]. *)
Theorem and_result (cs : bool) (inst : Z) (m : machine) (a b : Z) :
  sized m -> Z.shiftr inst 12 = OP_AND ->
  cell (reg m) (Z.land (Z.shiftr inst 6) 7) = Some a ->
  cell (reg m) (Z.land inst 7) = Some b ->
  (exists c,
     exec cs inst m
     = Done true
         (with_reg
            (<[Z.to_nat R_COND := c]>
               (<[Z.to_nat (Z.land (Z.shiftr inst 9) 7) :=
                    u16 (Z.land a (if truthy (Z.land (Z.shiftr inst 5) 1)
                                   then sign_extend (Z.land inst 31) 5 else b))]>
                  (reg m))) m) /\
     flag_for c (u16 (Z.land a (if truthy (Z.land (Z.shiftr inst 5) 1)
                                then sign_extend (Z.land inst 31) 5 else b)))) /\
  (Z.land inst 63 = 32 ->
   exec cs inst m
   = Done true
       (with_reg
          (<[Z.to_nat R_COND := FL_ZRO]>
             (<[Z.to_nat (Z.land (Z.shiftr inst 9) 7) := 0]> (reg m))) m)).
Proof.
  intros Hsz Hop Ha Hb.
  assert (forall x,
            (if truthy (Z.land (Z.shiftr inst 5) 1)
             then sign_extend (Z.land inst 31) 5 else b) = x ->
            exists c,
              exec cs inst m
              = Done true
                  (with_reg
                     (<[Z.to_nat 9 := c]>
                        (<[Z.to_nat (Z.land (Z.shiftr inst 9) 7) :=
                             u16 (Z.land a x)]> (reg m))) m) /\
              flag_for c (u16 (Z.land a x))) as Hgen.
  { intros x Hx.
    destruct (write_then_flags (Z.land (Z.shiftr inst 9) 7) (Z.land a x) m
                (proj2 Hsz) (field3_range _)) as (c & m' & Hrun & -> & _ & _ & Hc).
    exists c. split; [|exact Hc].
    rewrite (proj1 (proj2 (exec_opcode cs inst)) Hop). unfold op_and.
    destruct (truthy (Z.land (Z.shiftr inst 5) 1)); subst x.
    - rewrite bind_assoc. step_with (get_reg_Done _ _ _ Ha). exact Hrun.
    - rewrite bind_assoc. step_with (get_reg_Done _ _ _ Ha).
      rewrite bind_assoc. step_with (get_reg_Done _ _ _ Hb). exact Hrun. }
  split; [apply Hgen; reflexivity|].
  intros Himm.
  assert (Z.land (Z.shiftr inst 5) 1 = 1 /\ Z.land inst 31 = 0) as [H5 H31].
  { assert (inst mod 64 = 32) as H64
      by (rewrite <- Himm; symmetry; apply (Z.land_ones inst 6); lia).
    assert (Z.land inst 31 = inst mod 32) as ->
      by (apply (Z.land_ones inst 5); lia).
    assert (Z.land (Z.shiftr inst 5) 1 = (inst / 32) mod 2) as ->
      by (rewrite Z.shiftr_div_pow2 by lia; apply (Z.land_ones _ 1); lia).
    pose proof (Z.div_mod inst 64 ltac:(lia)) as Hd.
    pose proof (Z.div_mod inst 32 ltac:(lia)) as Hd5.
    pose proof (Z.mod_pos_bound inst 32 ltac:(lia)).
    pose proof (Z.div_mod (inst / 32) 2 ltac:(lia)).
    pose proof (Z.mod_pos_bound (inst / 32) 2 ltac:(lia)).
    lia. }
  destruct (Hgen 0) as (c & Hrun & _ & Hz & _).
  { rewrite H5, H31. reflexivity. }
  rewrite Z.land_0_r in Hrun, Hz. change (u16 0) with 0 in Hrun, Hz.
  rewrite Hrun. rewrite (proj2 Hz eq_refl). reflexivity.
Qed.

(** [AND R0, R3, R4] (the word [0x50C4]) where [R3 = 0xF0F0],
    [R4 = 0x0FF0] and [R0 = 0x1234]: [R0] receives [0x00F0]. [AND R0, R3, #0]
    (the word [0x50E0]) where [COND = FL_POS]: [R0] is cleared and [COND]
    becomes [FL_ZRO]. *)
Lemma and_result_witness :
  (sized busy_machine /\ Z.shiftr 20676 12 = 5 /\ Z.shiftr 20704 12 = 5 /\
   cell (reg busy_machine) (Z.land (Z.shiftr 20676 6) 7) = Some 61680 /\
   cell (reg busy_machine) (Z.land 20676 7) = Some 4080 /\
   cell (reg busy_machine) (Z.land (Z.shiftr 20704 6) 7) = Some 61680 /\
   cell (reg busy_machine) (Z.land 20704 7) = Some 4660 /\
   cell (reg busy_machine) 9 = Some 1 /\
   Z.land 20704 63 = 32) /\
  (exists c,
     exec true 20676 busy_machine
     = Done true
         (with_reg
            (<[Z.to_nat 9 := c]>
               (<[Z.to_nat (Z.land (Z.shiftr 20676 9) 7) :=
                    u16 (Z.land 61680
                           (if truthy (Z.land (Z.shiftr 20676 5) 1)
                            then sign_extend (Z.land 20676 31) 5 else 4080))]>
                  (reg busy_machine))) busy_machine) /\
     flag_for c (u16 (Z.land 61680
                        (if truthy (Z.land (Z.shiftr 20676 5) 1)
                         then sign_extend (Z.land 20676 31) 5 else 4080)))) /\
  u16 (Z.land 61680 4080) = 240 /\
  exec true 20704 busy_machine
  = Done true
      (with_reg
         (<[Z.to_nat 9 := 2]>
            (<[Z.to_nat (Z.land (Z.shiftr 20704 9) 7) := 0]>
               (reg busy_machine))) busy_machine).
Proof.
  split; [|split; [|split]].
  - split; [exact busy_machine_sized|]. repeat split.
  - exact (proj1 (and_result true 20676 busy_machine 61680 4080
                    busy_machine_sized eq_refl eq_refl eq_refl)).
  - reflexivity.
  - exact (proj2 (and_result true 20704 busy_machine 61680 4660
                    busy_machine_sized eq_refl eq_refl eq_refl) eq_refl).
Defined.

Lemma u16_lnot a : 0 <= a < 65536 -> u16 (Z.lnot a) = 65535 - a.
Proof.
  intros Ha. unfold u16, Z.lnot. symmetry.
  apply Z.mod_unique with (q := -1); lia.
Qed.

Lemma op_not_run inst m a :
  sized m -> cell (reg m) (Z.land (Z.shiftr inst 6) 7) = Some a ->
  exists c,
    op_not inst m
    = Done true
        (with_reg
           (<[Z.to_nat R_COND := c]>
              (<[Z.to_nat (Z.land (Z.shiftr inst 9) 7) := u16 (Z.lnot a)]> (reg m)))
           m) /\
    flag_for c (u16 (Z.lnot a)).
Proof.
  intros Hsz Ha. unfold op_not.
  destruct (write_then_flags (Z.land (Z.shiftr inst 9) 7) (Z.lnot a) m (proj2 Hsz)
              (field3_range _)) as (c & m' & Hrun & -> & _ & _ & Hc).
  exists c. split; [|exact Hc].
  step_with (get_reg_Done _ _ _ Ha). exact Hrun.
Qed.

(** X5. NOT puts the one's complement [0xFFFF - R[SR]] in [DR], whatever
    the two registers are, sets [COND] to the flag of that value and changes
    nothing else. Executed twice on the same register ([DR = SR]) it gives
    the register its value back, with [COND] the flag of that value, and
    memory and the terminal as they were. *)
Theorem not_result (cs : bool) (inst : Z) (m : machine) (a : Z) :
  sized m -> Z.shiftr inst 12 = OP_NOT ->
  cell (reg m) (Z.land (Z.shiftr inst 6) 7) = Some a -> 0 <= a < 65536 ->
  (exists c,
     exec cs inst m
     = Done true
         (with_reg
            (<[Z.to_nat R_COND := c]>
               (<[Z.to_nat (Z.land (Z.shiftr inst 9) 7) := 65535 - a]> (reg m)))
            m) /\
     flag_for c (65535 - a)) /\
  (Z.land (Z.shiftr inst 6) 7 = Z.land (Z.shiftr inst 9) 7 ->
   exists m1 m2,
     exec cs inst m = Done true m1 /\ exec cs inst m1 = Done true m2 /\
     cell (reg m1) (Z.land (Z.shiftr inst 9) 7) = Some (65535 - a) /\
     cell (reg m2) (Z.land (Z.shiftr inst 9) 7) = Some a /\
     flags_written (Z.land (Z.shiftr inst 9) 7) m2 /\
     memory m2 = memory m /\ stdin m2 = stdin m /\
     stdin_fileno m2 = stdin_fileno m /\ stdout m2 = stdout m /\
     (forall r, r <> Z.land (Z.shiftr inst 9) 7 -> r <> R_COND ->
                cell (reg m2) r = cell (reg m) r)).
Proof.
  intros Hsz Hop Ha' Hword.
  pose proof (field3_range (Z.shiftr inst 9)) as Hf.
  set (r0 := Z.land (Z.shiftr inst 9) 7) in *.
  rewrite (proj1 (proj2 (proj2 (exec_opcode cs inst))) Hop).
  destruct (op_not_run inst m a Hsz Ha') as (c1 & Hrun1 & Hc1).
  fold r0 in Hrun1. rewrite (u16_lnot a Hword) in Hrun1, Hc1.
  split; [exists c1; split; [exact Hrun1|exact Hc1]|].
  intros Hsame.
  set (m1 := with_reg _ m) in Hrun1.
  assert (sized m1) as Hsz1.
  { destruct Hsz as [Hmem Hreg]. split; [exact Hmem|].
    unfold m1. cbn [reg with_reg]. now rewrite !length_insert. }
  assert (cell (reg m1) r0 = Some (65535 - a)) as Ha1.
  { unfold m1. cbn [reg with_reg]. rewrite cell_insert_ne by lia.
    apply cell_insert_eq. destruct Hsz as [_ ->]. lia. }
  assert (cell (reg m1) (Z.land (Z.shiftr inst 6) 7) = Some (65535 - a)) as Ha1'
    by (rewrite Hsame; exact Ha1).
  destruct (op_not_run inst m1 (65535 - a) Hsz1 Ha1') as (c2 & Hrun2 & Hc2).
  fold r0 in Hrun2, Hc2. rewrite (u16_lnot (65535 - a)) in Hrun2, Hc2 by lia.
  replace (65535 - (65535 - a)) with a in Hrun2, Hc2 by lia.
  exists m1. eexists. split; [exact Hrun1|]. split; [exact Hrun2|].
  split; [exact Ha1|]. cbn [memory reg stdin stdin_fileno stdout with_reg].
  assert (Z.of_nat (length (reg m1)) = 10) as Hlen1 by (destruct Hsz1 as [_ ->]; lia).
  assert (cell (<[Z.to_nat 9 := c2]> (<[Z.to_nat r0 := a]> (reg m1))) r0 = Some a)
    as Hfinal.
  { rewrite cell_insert_ne by lia. apply cell_insert_eq. lia. }
  split; [exact Hfinal|]. split.
  { exists a, c2. split; [exact Hfinal|]. split; [|exact Hc2].
    apply cell_insert_eq. rewrite length_insert. lia. }
  repeat split.
  intros r Hr Hr9. rewrite !cell_insert_ne by lia.
  unfold m1. cbn [reg with_reg]. rewrite !cell_insert_ne by lia. reflexivity.
Qed.

(** [NOT R1, R2] (the word [0x92BF]) where [R2 = 0x00FF] and [R1 = 0x4000]:
    [R1] receives [0xFF00]. [NOT R2, R2] (the word [0x94BF]) twice: [R2] is
    [0xFF00] in between and [0x00FF] again in the end. *)
Lemma not_result_witness :
  (sized busy_machine /\ Z.shiftr 37567 12 = 9 /\ Z.shiftr 38079 12 = 9 /\
   cell (reg busy_machine) (Z.land (Z.shiftr 37567 6) 7) = Some 255 /\
   cell (reg busy_machine) (Z.land (Z.shiftr 38079 6) 7) = Some 255 /\
   cell (reg busy_machine) (Z.land (Z.shiftr 37567 9) 7) = Some 16384 /\
   0 <= 255 < 65536 /\
   Z.land (Z.shiftr 38079 6) 7 = Z.land (Z.shiftr 38079 9) 7) /\
  (exists c,
     exec true 37567 busy_machine
     = Done true
         (with_reg
            (<[Z.to_nat 9 := c]>
               (<[Z.to_nat (Z.land (Z.shiftr 37567 9) 7) := 65535 - 255]>
                  (reg busy_machine))) busy_machine) /\
     flag_for c (65535 - 255)) /\
  (exists m1 m2,
     exec true 38079 busy_machine = Done true m1 /\
     exec true 38079 m1 = Done true m2 /\
     cell (reg m1) (Z.land (Z.shiftr 38079 9) 7) = Some (65535 - 255) /\
     cell (reg m2) (Z.land (Z.shiftr 38079 9) 7) = Some 255).
Proof.
  split; [|split].
  - split; [exact busy_machine_sized|]. repeat split; lia.
  - exact (proj1 (not_result true 37567 busy_machine 255 busy_machine_sized
                    eq_refl eq_refl ltac:(lia))).
  - destruct (proj2 (not_result true 38079 busy_machine 255 busy_machine_sized
                       eq_refl eq_refl ltac:(lia)) eq_refl)
      as (m1 & m2 & H1 & H2 & H3 & H4 & _).
    exists m1, m2. repeat split; assumption.
Defined.

(** ** Control flow *)

(** X6. BR adds the sign-extended 9-bit offset to [PC], modulo 2^16, exactly
    when its mask [inst[11:9]] and [COND] have a bit in common, and otherwise
    leaves the machine as it is. With mask 0 (the zero word is such an
    instruction) it never branches; with mask 7 and one of the three flags
    in [COND] it always does. *)
Theorem br_result (cs : bool) (inst : Z) (m : machine) (pc cond : Z) :
  sized m -> Z.shiftr inst 12 = OP_BR ->
  cell (reg m) R_PC = Some pc -> cell (reg m) R_COND = Some cond ->
  let taken :=
    with_reg (<[Z.to_nat R_PC := u16 (pc + sign_extend (Z.land inst 511) 9)]> (reg m)) m in
  exec cs inst m
  = Done true (if truthy (Z.land (Z.land (Z.shiftr inst 9) 7) cond) then taken else m) /\
  (Z.land (Z.shiftr inst 9) 7 = 0 -> exec cs inst m = Done true m) /\
  (Z.land (Z.shiftr inst 9) 7 = 7 -> cond_ok m -> exec cs inst m = Done true taken).
Proof.
  intros Hsz Hop Hpc Hcond taken.
  assert (exec cs inst m
          = Done true (if truthy (Z.land (Z.land (Z.shiftr inst 9) 7) cond)
                       then taken else m)) as Hrun.
  { rewrite (proj1 (exec_opcode_rest cs inst) Hop). unfold op_br.
    step_with (get_reg_Done _ _ _ Hcond).
    destruct (truthy _); [|reflexivity].
    rewrite bind_assoc. step_with (get_reg_Done _ _ _ Hpc).
    rewrite (bind_Done _ _ m tt _ (set_reg_Done 8 _ m
               ltac:(destruct Hsz as [_ ->]; lia))).
    reflexivity. }
  split; [exact Hrun|]. split.
  - intros Hmask. rewrite Hrun, Hmask. reflexivity.
  - intros Hmask Hok. rewrite Hrun, Hmask.
    unfold cond_ok, cond_sat, one_flag in Hok. rewrite Hcond in Hok.
    destruct Hok as [H|[H|H]]; injection H as ->; reflexivity.
Qed.

(** The zero word at [0x3001]: mask 0. *)
Lemma br_result_witness :
  (sized fetched_at_3000 /\ Z.shiftr 0 12 = 0 /\
   cell (reg fetched_at_3000) 8 = Some 12289 /\
   cell (reg fetched_at_3000) 9 = Some 2 /\
   Z.land (Z.shiftr 0 9) 7 = 0) /\
  exec true 0 fetched_at_3000 = Done true fetched_at_3000.
Proof.
  split.
  - split; [exact fetched_at_3000_sized|]. repeat split.
  - apply (proj1 (proj2 (br_result true 0 fetched_at_3000 12289 2
                          fetched_at_3000_sized eq_refl eq_refl eq_refl))).
    reflexivity.
Defined.

(** X7. JMP copies [R[BaseR]] to [PC] and changes nothing else. *)
Theorem jmp_result (cs : bool) (inst : Z) (m : machine) (a : Z) :
  sized m -> Z.shiftr inst 12 = OP_JMP ->
  cell (reg m) (Z.land (Z.shiftr inst 6) 7) = Some a ->
  exec cs inst m = Done true (with_reg (<[Z.to_nat R_PC := u16 a]> (reg m)) m).
Proof.
  intros Hsz Hop Ha.
  rewrite (proj1 (proj2 (exec_opcode_rest cs inst)) Hop). unfold op_jmp.
  step_with (get_reg_Done _ _ _ Ha).
  rewrite (bind_Done _ _ m tt _ (set_reg_Done 8 a m
             ltac:(destruct Hsz as [_ ->]; lia))).
  reflexivity.
Qed.

(** [RET] ([JMP R7]) at [0x3001]. *)
Lemma jmp_result_witness :
  (sized fetched_at_3000 /\ Z.shiftr 49600 12 = 12 /\
   cell (reg fetched_at_3000) (Z.land (Z.shiftr 49600 6) 7) = Some 0) /\
  exec true 49600 fetched_at_3000
  = Done true (with_reg (<[Z.to_nat 8 := u16 0]> (reg fetched_at_3000))
                 fetched_at_3000).
Proof.
  split.
  - split; [exact fetched_at_3000_sized|]. repeat split.
  - apply (jmp_result true 49600 fetched_at_3000 0).
    + exact fetched_at_3000_sized.
    + reflexivity.
    + reflexivity.
Defined.

Lemma op_jmp_run inst m a :
  sized m -> cell (reg m) (Z.land (Z.shiftr inst 6) 7) = Some a ->
  op_jmp inst m = Done true (with_reg (<[Z.to_nat R_PC := u16 a]> (reg m)) m).
Proof.
  intros Hsz Ha. unfold op_jmp.
  step_with (get_reg_Done _ _ _ Ha).
  rewrite (bind_Done _ _ m tt _ (set_reg_Done 8 a m
             ltac:(destruct Hsz as [_ ->]; lia))).
  reflexivity.
Qed.

Lemma op_jsr_register_run inst m pc a :
  sized m -> cell (reg m) R_PC = Some pc ->
  truthy (Z.land (Z.shiftr inst 11) 1) = false ->
  cell (<[Z.to_nat R_R7 := u16 pc]> (reg m)) (Z.land (Z.shiftr inst 6) 7) = Some a ->
  op_jsr inst m
  = Done true
      (with_reg (<[Z.to_nat R_PC := u16 a]> (<[Z.to_nat R_R7 := u16 pc]> (reg m))) m).
Proof.
  intros [_ Hreg] Hpc Himm Ha. unfold op_jsr.
  step_with (get_reg_Done _ _ _ Hpc).
  step_with (set_reg_Done 7 pc m ltac:(rewrite Hreg; lia)).
  rewrite Himm. set (m1 := with_reg _ m).
  rewrite bind_assoc. step_with (get_reg_Done (Z.land (Z.shiftr inst 6) 7) a m1 Ha).
  rewrite (bind_Done _ _ m1 tt _ (set_reg_Done 8 a m1
             ltac:(unfold m1; cbn [reg with_reg]; rewrite length_insert, Hreg; lia))).
  reflexivity.
Qed.

(** X8. JSR and JSRR leave the address of the next instruction in [R7], and
    a [RET] ([JMP R7], the word [0xC1C0]) executed on that state puts it back
    in [PC]. In the register form the base register is read after [R7] is
    written, so [JSRR R7] continues at the next instruction. *)
Theorem call_then_ret_returns (cs : bool) (inst : Z) (m : machine) (pc : Z) :
  sized m -> Z.shiftr inst 12 = OP_JSR ->
  cell (reg m) R_PC = Some pc -> 0 <= pc < 65536 ->
  exists m1 m2,
    exec cs inst m = Done true m1 /\
    cell (reg m1) R_R7 = Some pc /\
    exec cs 49600 m1 = Done true m2 /\
    cell (reg m2) R_PC = Some pc /\
    (truthy (Z.land (Z.shiftr inst 11) 1) = false ->
     Z.land (Z.shiftr inst 6) 7 = R_R7 -> cell (reg m1) R_PC = Some pc).
Proof.
  intros Hsz Hop Hpc Hword. pose proof Hsz as [Hmem Hreg].
  assert (exec cs inst = op_jsr inst) as ->
    by (apply (exec_opcode cs inst); exact Hop).
  assert (forall m1, exec cs 49600 m1 = op_jmp 49600 m1) as Hret by reflexivity.
  assert (Z.of_nat (length (reg m)) = 10) as Hlen by (rewrite Hreg; lia).
  assert (forall m1,
            sized m1 -> cell (reg m1) 7 = Some pc ->
            exists m2, exec cs 49600 m1 = Done true m2 /\ cell (reg m2) 8 = Some pc)
    as Hback.
  { intros m1 Hsz1 H7. rewrite Hret.
    rewrite (op_jmp_run 49600 m1 pc Hsz1 H7).
    eexists. split; [reflexivity|]. cbn [reg with_reg].
    rewrite (u16_small pc Hword). apply cell_insert_eq.
    destruct Hsz1 as [_ ->]. lia. }
  destruct (truthy (Z.land (Z.shiftr inst 11) 1)) eqn:Himm.
  - rewrite (op_jsr_immediate inst m pc Hsz Hpc Himm).
    rewrite (u16_small pc Hword). set (m1 := with_reg _ m).
    assert (cell (reg m1) 7 = Some pc) as H7
      by (unfold m1; cbn [reg with_reg]; apply cell_insert_eq; lia).
    destruct (Hback m1) as (m2 & Hrun2 & Hpc2); [|exact H7|].
    { split; [exact Hmem|]. unfold m1. cbn [reg with_reg].
      now rewrite length_insert. }
    exists m1, m2. repeat split; try assumption. intros Hf. discriminate Hf.
  - pose proof (field3_range (Z.shiftr inst 6)) as Hf.
    destruct (cell_is_Some (<[Z.to_nat 7 := u16 pc]> (reg m))
                (Z.land (Z.shiftr inst 6) 7)) as [a Ha];
      [rewrite length_insert; lia|].
    rewrite (op_jsr_register_run inst m pc a Hsz Hpc Himm Ha).
    rewrite (u16_small pc Hword) in *. set (m1 := with_reg _ m).
    assert (cell (reg m1) 7 = Some pc) as H7.
    { unfold m1. cbn [reg with_reg]. rewrite cell_insert_ne by lia.
      apply cell_insert_eq. lia. }
    destruct (Hback m1) as (m2 & Hrun2 & Hpc2); [|exact H7|].
    { split; [exact Hmem|]. unfold m1. cbn [reg with_reg].
      now rewrite !length_insert. }
    exists m1, m2. repeat split; try assumption.
    intros _ Hbase. unfold m1. cbn [reg with_reg].
    rewrite Hbase, cell_insert_eq in Ha by lia. injection Ha as <-.
    rewrite (u16_small pc Hword). apply cell_insert_eq.
    rewrite length_insert. lia.
Qed.

(** [JSRR R2] (the word [0x4080]) at [0x3001]. *)
Lemma call_then_ret_returns_witness :
  (sized fetched_at_3000 /\ Z.shiftr 16512 12 = 4 /\
   cell (reg fetched_at_3000) 8 = Some 12289 /\ 0 <= 12289 < 65536) /\
  exists m1 m2,
    exec true 16512 fetched_at_3000 = Done true m1 /\
    cell (reg m1) 7 = Some 12289 /\
    exec true 49600 m1 = Done true m2 /\
    cell (reg m2) 8 = Some 12289 /\
    (truthy (Z.land (Z.shiftr 16512 11) 1) = false ->
     Z.land (Z.shiftr 16512 6) 7 = 7 -> cell (reg m1) 8 = Some 12289).
Proof.
  split.
  - split; [exact fetched_at_3000_sized|]. repeat split; lia.
  - apply (call_then_ret_returns true 16512 fetched_at_3000 12289).
    + exact fetched_at_3000_sized.
    + reflexivity.
    + reflexivity.
    + lia.
Defined.

(** X9. The cases that do not call [update_flags] (BR, JMP, JSR and JSRR,
    ST, STI, STR) never change [COND]. *)
Theorem cond_untouched_by_jumps_and_stores (cs : bool) (inst : Z)
    (m : machine) (running : bool) (m' : machine) :
  In (Z.shiftr inst 12) [OP_BR; OP_JMP; OP_JSR; OP_ST; OP_STI; OP_STR] ->
  exec cs inst m = Done running m' ->
  cell (reg m') R_COND = cell (reg m) R_COND.
Proof.
  intros Hop Hrun.
  pose proof (cond_untouched (fun o => o = cell (reg m) 9) inst)
    as (Hbr & Hjmp & Hjsr & Hst & Hsti & Hstr).
  pose proof (exec_opcode_rest cs inst) as E. cbv zeta in E.
  destruct E as (E0 & E12 & E3 & E11 & E7 & _).
  pose proof (exec_opcode cs inst) as E'. cbv zeta in E'.
  destruct E' as (_ & _ & _ & _ & _ & _ & _ & E4 & _).
  assert (forall c : M bool,
            keeps (cond_sat (fun o => o = cell (reg m) 9)) any_fault c ->
            exec cs inst = c -> cell (reg m') 9 = cell (reg m) 9) as Huse.
  { intros c Hc Heq. specialize (Hc m eq_refl). rewrite <- Heq, Hrun in Hc.
    exact Hc. }
  simpl in Hop.
  destruct Hop as [H|[H|[H|[H|[H|[H|[]]]]]]]; symmetry in H.
  - exact (Huse _ Hbr (E0 H)).
  - exact (Huse _ Hjmp (E12 H)).
  - exact (Huse _ Hjsr (E4 H)).
  - exact (Huse _ Hst (E3 H)).
  - exact (Huse _ Hsti (E11 H)).
  - exact (Huse _ Hstr (E7 H)).
Qed.

(** [RET] ([JMP R7], the word [0xC1C0]) at [0x3001]. *)
Lemma cond_untouched_by_jumps_and_stores_witness :
  (In (Z.shiftr 49600 12) [0; 12; 4; 3; 11; 7] /\
   exec true 49600 fetched_at_3000
   = Done true (with_reg (<[Z.to_nat 8 := u16 0]> (reg fetched_at_3000))
                  fetched_at_3000)) /\
  cell (reg (with_reg (<[Z.to_nat 8 := u16 0]> (reg fetched_at_3000))
               fetched_at_3000)) 9
  = cell (reg fetched_at_3000) 9.
Proof.
  split.
  - split; [right; left; reflexivity|reflexivity].
  - apply (cond_untouched_by_jumps_and_stores true 49600 fetched_at_3000 true).
    + right. left. reflexivity.
    + reflexivity.
Defined.

(** ** Memory *)

Lemma mem_write_Done addr v m :
  sized m -> 0 <= addr < 65536 ->
  mem_write addr v m
  = Done tt (with_memory (<[Z.to_nat addr := u16 v]> (memory m)) m).
Proof.
  intros [Hmem _] Haddr. unfold mem_write. apply set_mem_Done. rewrite Hmem. lia.
Qed.

Lemma sized_with_memory_insert m i v :
  sized m -> sized (with_memory (<[i := v]> (memory m)) m).
Proof.
  intros [Hmem Hreg]. split; cbn [memory reg with_memory];
    [now rewrite length_insert|exact Hreg].
Qed.

(** X10. A word written with [mem_write] is what [mem_read] returns from the
    same address, except at the keyboard status register: there the read
    polls the terminal and overwrites the cell, so the write cannot be
    observed at all. *)
Theorem write_then_read (addr v : Z) (m : machine) :
  sized m -> 0 <= addr < 65536 ->
  (addr <> MR_KBSR ->
   (mem_write addr v ;; mem_read addr) m
   = Done (u16 v) (with_memory (<[Z.to_nat addr := u16 v]> (memory m)) m)) /\
  (addr = MR_KBSR ->
   (mem_write addr v ;; mem_read addr) m = mem_read addr m).
Proof.
  intros Hsz Haddr.
  pose proof (mem_write_Done addr v m Hsz Haddr) as Hw.
  pose proof (sized_with_memory_insert m (Z.to_nat addr) (u16 v) Hsz) as Hsz1.
  split.
  - intros Hne. step_with Hw. apply mem_read_elsewhere; [exact Hne|].
    cbn [memory with_memory]. apply cell_insert_eq.
    destruct Hsz as [-> _]. lia.
  - intros ->. step_with Hw.
    destruct (stdin_fileno m) as [| |b bs next] eqn:Hd.
    { rewrite (mem_read_kbsr_idle m Hsz Hd).
      rewrite (mem_read_kbsr_idle _ Hsz1 Hd).
      unfold with_memory. cbn [memory reg stdin stdin_fileno stdout].
      now rewrite list_insert_insert_eq. }
    all: destruct (getchar_readable m) as (c & m1 & Hget); [congruence|].
    all: rewrite (mem_read_kbsr_readable m c m1 Hsz ltac:(congruence) Hget).
    all: rewrite (mem_read_kbsr_readable _ c
                    (with_memory (<[Z.to_nat 65024 := u16 v]> (memory m)) m1) Hsz1)
           by (cbn [stdin_fileno with_memory]; try congruence;
               rewrite getchar_with_memory, Hget; reflexivity).
    all: unfold with_memory; cbn [memory reg stdin stdin_fileno stdout].
    all: now rewrite list_insert_insert_eq.
Qed.

Lemma write_then_read_witness :
  (sized fetched_at_3000 /\ 0 <= 16384 < 65536 /\ 16384 <> 65024) /\
  (mem_write 16384 48879 ;; mem_read 16384) fetched_at_3000
  = Done (u16 48879)
      (with_memory (<[Z.to_nat 16384 := u16 48879]> (memory fetched_at_3000))
                   fetched_at_3000).
Proof.
  split.
  - split; [exact fetched_at_3000_sized|]. split; lia.
  - apply (write_then_read 16384 48879 fetched_at_3000).
    + exact fetched_at_3000_sized.
    + lia.
    + lia.
Defined.

Lemma op_str_run inst m a v :
  sized m -> cell (reg m) (Z.land (Z.shiftr inst 6) 7) = Some a ->
  cell (reg m) (Z.land (Z.shiftr inst 9) 7) = Some v ->
  op_str inst m
  = Done true
      (with_memory
         (<[Z.to_nat (u16 (a + sign_extend (Z.land inst 63) 6)) := u16 v]> (memory m))
         m).
Proof.
  intros Hsz Ha Hv. unfold op_str.
  step_with (get_reg_Done _ _ _ Ha). step_with (get_reg_Done _ _ _ Hv).
  rewrite (bind_Done _ _ m tt _ (mem_write_Done _ v m Hsz (u16_range _))).
  reflexivity.
Qed.

(** X11. STR and then LDR with the same base register and offset bring the
    stored register value, as a 16-bit word, to the destination of the LDR
    (and set [COND] from it), whenever the address is not the keyboard
    status register. *)
Theorem str_then_ldr (cs : bool) (st ld : Z) (m : machine) (a v : Z) :
  sized m -> Z.shiftr st 12 = OP_STR -> Z.shiftr ld 12 = OP_LDR ->
  Z.land (Z.shiftr ld 6) 7 = Z.land (Z.shiftr st 6) 7 ->
  Z.land ld 63 = Z.land st 63 ->
  cell (reg m) (Z.land (Z.shiftr st 6) 7) = Some a ->
  cell (reg m) (Z.land (Z.shiftr st 9) 7) = Some v ->
  u16 (a + sign_extend (Z.land st 63) 6) <> MR_KBSR ->
  exists m1 m2,
    exec cs st m = Done true m1 /\ exec cs ld m1 = Done true m2 /\
    cell (memory m2) (u16 (a + sign_extend (Z.land st 63) 6)) = Some (u16 v) /\
    cell (reg m2) (Z.land (Z.shiftr ld 9) 7) = Some (u16 v) /\
    flags_written (Z.land (Z.shiftr ld 9) 7) m2.
Proof.
  intros Hsz Hst Hld Hbase Hoff Ha Hv Hptr.
  set (ptr := u16 (a + sign_extend (Z.land st 63) 6)) in *.
  pose proof (u16_range (a + sign_extend (Z.land st 63) 6)) as Hrange. fold ptr in Hrange.
  pose proof (exec_opcode_rest cs st) as E. cbv zeta in E.
  destruct E as (_ & _ & _ & _ & E7 & _).
  pose proof (exec_opcode cs ld) as E'. cbv zeta in E'.
  destruct E' as (_ & _ & _ & _ & _ & E6 & _).
  rewrite (E7 Hst), (E6 Hld), (op_str_run st m a v Hsz Ha Hv). fold ptr.
  set (m1 := with_memory _ m).
  assert (sized m1) as Hsz1 by (apply sized_with_memory_insert; exact Hsz).
  assert (cell (memory m1) ptr = Some (u16 v)) as Hcell.
  { unfold m1. cbn [memory with_memory]. apply cell_insert_eq.
    destruct Hsz as [-> _]. lia. }
  destruct (write_then_flags (Z.land (Z.shiftr ld 9) 7) (u16 v) m1 (proj2 Hsz1)
              (field3_range _)) as (c & m2 & Hrun & Hm2 & Hdr & Hc & Hf).
  exists m1, m2. split; [reflexivity|].
  assert (u16 (u16 v) = u16 v) as Hidem by (apply u16_small, u16_range).
  rewrite Hidem in *.
  split; [|split; [|split; [exact Hdr|]]].
  - unfold op_ldr. rewrite Hbase, Hoff.
    step_with (get_reg_Done _ _ m1 Ha). fold ptr.
    step_with (mem_read_elsewhere ptr (u16 v) m1 Hptr Hcell). exact Hrun.
  - rewrite Hm2. cbn [memory with_reg]. exact Hcell.
  - exists (u16 v), c. auto.
Qed.

(** [STR R6, R1, #2] and [LDR R5, R1, #2] (the words [0x7C42], [0x6A42])
    where [R1 = 0x4000], [R6 = 0x8000] and [R5 = 0xFFFF]: [memory[0x4002]],
    which held 0, and then [R5] receive [0x8000]. *)
Lemma str_then_ldr_witness :
  (sized busy_machine /\ Z.shiftr 31810 12 = 7 /\ Z.shiftr 27202 12 = 6 /\
   Z.land (Z.shiftr 27202 6) 7 = Z.land (Z.shiftr 31810 6) 7 /\
   Z.land 27202 63 = Z.land 31810 63 /\
   cell (reg busy_machine) (Z.land (Z.shiftr 31810 6) 7) = Some 16384 /\
   cell (reg busy_machine) (Z.land (Z.shiftr 31810 9) 7) = Some 32768 /\
   cell (reg busy_machine) (Z.land (Z.shiftr 27202 9) 7) = Some 65535 /\
   cell (memory busy_machine) 16386 = Some 0 /\
   u16 (16384 + sign_extend (Z.land 31810 63) 6) = 16386 /\
   u16 (16384 + sign_extend (Z.land 31810 63) 6) <> 65024) /\
  exists m1 m2,
    exec true 31810 busy_machine = Done true m1 /\
    exec true 27202 m1 = Done true m2 /\
    cell (memory m2) (u16 (16384 + sign_extend (Z.land 31810 63) 6))
    = Some (u16 32768) /\
    cell (reg m2) (Z.land (Z.shiftr 27202 9) 7) = Some (u16 32768) /\
    flags_written (Z.land (Z.shiftr 27202 9) 7) m2.
Proof.
  assert (cell (memory busy_machine) 16386 = Some 0) as Hold
    by (vm_compute; reflexivity).
  split.
  - split; [exact busy_machine_sized|]. repeat split; try assumption.
    discriminate.
  - apply (str_then_ldr true 31810 27202 busy_machine 16384 32768).
    + exact busy_machine_sized.
    + reflexivity.
    + reflexivity.
    + reflexivity.
    + reflexivity.
    + reflexivity.
    + reflexivity.
    + discriminate.
Defined.

(** X12. LDI loads through a pointer: with [a = PC + sext(inst[8:0], 9)]
    modulo 2^16, it puts [memory[memory[a]]] in [DR], sets [COND] from it and
    changes nothing else, as long as neither address is the keyboard status
    register. *)
Theorem ldi_result (cs : bool) (inst : Z) (m : machine) (pc ptr w : Z) :
  sized m -> Z.shiftr inst 12 = OP_LDI ->
  cell (reg m) R_PC = Some pc ->
  cell (memory m) (u16 (pc + sign_extend (Z.land inst 511) 9)) = Some ptr ->
  cell (memory m) ptr = Some w ->
  u16 (pc + sign_extend (Z.land inst 511) 9) <> MR_KBSR -> ptr <> MR_KBSR ->
  exists c,
    exec cs inst m
    = Done true
        (with_reg
           (<[Z.to_nat R_COND := c]>
              (<[Z.to_nat (Z.land (Z.shiftr inst 9) 7) := u16 w]> (reg m))) m) /\
    flag_for c (u16 w).
Proof.
  intros Hsz Hop Hpc Hptr Hw Hne1 Hne2.
  pose proof (exec_opcode cs inst) as E. cbv zeta in E.
  destruct E as (_ & _ & _ & _ & E10 & _). rewrite (E10 Hop). unfold op_ldi.
  destruct (write_then_flags (Z.land (Z.shiftr inst 9) 7) w m (proj2 Hsz)
              (field3_range _)) as (c & m' & Hrun & -> & _ & _ & Hc).
  exists c. split; [|exact Hc].
  step_with (get_reg_Done _ _ _ Hpc).
  step_with (mem_read_elsewhere _ ptr m Hne1 Hptr).
  step_with (mem_read_elsewhere ptr w m Hne2 Hw). exact Hrun.
Qed.

(** [LDI R2, #4] (the word [0xA404]) at [0x3001], where [memory[0x3005]]
    holds the pointer [0x4000], [memory[0x4000]] holds [0xBEEF] and [R2] is
    [0x00FF]: [R2] receives [0xBEEF], not the pointer. *)
Lemma ldi_result_witness :
  (sized busy_machine /\ Z.shiftr 41988 12 = 10 /\
   cell (reg busy_machine) 8 = Some 12289 /\
   cell (memory busy_machine) (u16 (12289 + sign_extend (Z.land 41988 511) 9))
   = Some 16384 /\
   cell (memory busy_machine) 16384 = Some 48879 /\
   cell (reg busy_machine) (Z.land (Z.shiftr 41988 9) 7) = Some 255 /\
   u16 (12289 + sign_extend (Z.land 41988 511) 9) <> 65024 /\ 16384 <> 65024) /\
  exists c,
    exec true 41988 busy_machine
    = Done true
        (with_reg
           (<[Z.to_nat 9 := c]>
              (<[Z.to_nat (Z.land (Z.shiftr 41988 9) 7) := u16 48879]>
                 (reg busy_machine))) busy_machine) /\
    flag_for c (u16 48879).
Proof.
  assert (cell (memory busy_machine)
            (u16 (12289 + sign_extend (Z.land 41988 511) 9)) = Some 16384) as H1
    by (vm_compute; reflexivity).
  assert (cell (memory busy_machine) 16384 = Some 48879) as H2
    by (vm_compute; reflexivity).
  split.
  - split; [exact busy_machine_sized|]. repeat split; try assumption;
      discriminate.
  - apply (ldi_result true 41988 busy_machine 12289 16384 48879).
    + exact busy_machine_sized.
    + reflexivity.
    + reflexivity.
    + exact H1.
    + exact H2.
    + discriminate.
    + discriminate.
Defined.

(** ** The fetch and the traps *)

(** A turn of the loop is the instruction at [PC] executed with [PC]
    advanced by one, modulo 2^16. *)
Lemma step_fetches cs m pc inst :
  sized m -> cell (reg m) R_PC = Some pc -> pc <> MR_KBSR ->
  cell (memory m) pc = Some inst ->
  step cs m = exec cs inst (with_reg (<[Z.to_nat R_PC := u16 (pc + 1)]> (reg m)) m).
Proof.
  intros [_ Hreg] Hpc Hne Hinst. unfold step, fetch.
  rewrite bind_assoc. step_with (get_reg_Done _ _ _ Hpc).
  rewrite bind_assoc.
  step_with (set_reg_Done 8 (pc + 1) m ltac:(rewrite Hreg; lia)).
  step_with (mem_read_elsewhere pc inst (with_reg (<[Z.to_nat 8 := u16 (pc + 1)]> (reg m)) m)
               Hne Hinst).
  reflexivity.
Qed.

(** [OP_TRAP] up to its [switch]: [R7] receives [PC]. *)
Lemma op_trap_enters cs inst m pc :
  sized m -> cell (reg m) R_PC = Some pc ->
  let m1 := with_reg (<[Z.to_nat R_R7 := u16 pc]> (reg m)) m in
  sized m1 /\
  (Z.land inst 255 = TRAP_GETC -> op_trap cs inst m = trap_getc cs m1) /\
  (Z.land inst 255 = TRAP_OUT -> op_trap cs inst m = trap_out m1) /\
  (Z.land inst 255 = TRAP_PUTS -> op_trap cs inst m = trap_puts cs m1) /\
  (Z.land inst 255 = TRAP_IN -> op_trap cs inst m = trap_in cs m1) /\
  (Z.land inst 255 = TRAP_PUTSP -> op_trap cs inst m = trap_putsp cs m1) /\
  (Z.land inst 255 = TRAP_HALT -> op_trap cs inst m = trap_halt m1).
Proof.
  intros [Hmem Hreg] Hpc m1.
  assert (forall k : M bool,
            (pc <- get_reg 8 ;; set_reg 7 pc ;; k) m = k m1) as Henter.
  { intros k. step_with (get_reg_Done _ _ _ Hpc).
    step_with (set_reg_Done 7 pc m ltac:(rewrite Hreg; lia)). reflexivity. }
  split.
  { split; [exact Hmem|]. unfold m1. cbn [reg with_reg]. now rewrite length_insert. }
  unfold op_trap. cbv zeta.
  repeat split; intros Hvec; rewrite Henter, Hvec; reflexivity.
Qed.

Lemma byte_of_Z_u8 x : byte_of_Z (u8 x) = byte_of_Z x.
Proof.
  unfold byte_of_Z. replace (u8 (u8 x)) with (u8 x); [reflexivity|].
  unfold u8. symmetry. apply Z.mod_mod. lia.
Qed.

Lemma u8_to_char cs x : u8 (to_char cs x) = u8 x.
Proof.
  unfold to_char, s8, u8. destruct cs.
  - rewrite Zminus_mod, Z.mod_mod, <- Zminus_mod by lia. f_equal. lia.
  - apply Z.mod_mod. lia.
Qed.

(** [putc] writes the same byte for a [char] as for the value it came from. *)
Lemma byte_of_to_char cs x : byte_of_Z (to_char cs x) = byte_of_Z x.
Proof. rewrite <- byte_of_Z_u8, u8_to_char. apply byte_of_Z_u8. Qed.

Lemma truthy_to_char cs x : truthy (to_char cs x) = negb (u8 x =? 0).
Proof.
  unfold truthy. f_equal. rewrite <- (u8_to_char cs x).
  unfold to_char. destruct cs.
  - unfold s8, u8.
    pose proof (Z.mod_pos_bound (x + 128) 256 ltac:(lia)) as Hb.
    destruct (Z.eqb_spec ((x + 128) mod 256 - 128) 0) as [H0|H0].
    + rewrite H0. reflexivity.
    + symmetry. apply Z.eqb_neq. intros Hm. apply H0.
      destruct (Z_lt_le_dec ((x + 128) mod 256) 128).
      * rewrite <- (Z.mod_unique ((x + 128) mod 256 - 128) 256 (-1)
                      ((x + 128) mod 256 + 128)) in Hm by lia. lia.
      * rewrite Z.mod_small in Hm by lia. exact Hm.
  - unfold u8. rewrite Z.mod_mod by lia. reflexivity.
Qed.

Lemma with_stdout_twice o1 o2 m :
  with_stdout o2 (with_stdout o1 m) = with_stdout o2 m.
Proof. reflexivity. Qed.

(** X13. A turn of the loop on [TRAP HALT] (any word [0xF.25]) advances
    [PC], copies it to [R7], writes "HALT" and a newline, and ends the loop:
    [run] returns [false] from there whatever fuel is left. *)
Theorem halt_stops_the_loop (cs : bool) (m : machine) (pc inst : Z) :
  sized m -> cell (reg m) R_PC = Some pc -> pc <> MR_KBSR ->
  cell (memory m) pc = Some inst ->
  Z.shiftr inst 12 = OP_TRAP -> Z.land inst 255 = TRAP_HALT ->
  let m' :=
    Machine (memory m)
            (<[Z.to_nat R_R7 := u16 (pc + 1)]>
               (<[Z.to_nat R_PC := u16 (pc + 1)]> (reg m)))
            (stdin m) (stdin_fileno m)
            (stdout m ++ [Byte.x48; Byte.x41; Byte.x4c; Byte.x54; Byte.x0a]) in
  step cs m = Done false m' /\
  forall fuel, run cs (S fuel) m = Done false m'.
Proof.
  intros Hsz Hpc Hne Hinst Hop Hvec m'.
  assert (step cs m = Done false m') as Hstep.
  { rewrite (step_fetches cs m pc inst Hsz Hpc Hne Hinst).
    assert (exec cs inst = op_trap cs inst) as ->
      by (apply (exec_opcode cs inst); exact Hop).
    set (m0 := with_reg _ m).
    assert (sized m0) as Hsz0.
    { destruct Hsz as [Hmem Hreg]. split; [exact Hmem|].
      unfold m0. cbn [reg with_reg]. now rewrite length_insert. }
    assert (cell (reg m0) 8 = Some (u16 (pc + 1))) as Hpc0.
    { unfold m0. cbn [reg with_reg]. apply cell_insert_eq.
      destruct Hsz as [_ ->]. lia. }
    destruct (op_trap_enters cs inst m0 (u16 (pc + 1)) Hsz0 Hpc0)
      as (_ & _ & _ & _ & _ & _ & Hhalt).
    rewrite (Hhalt Hvec). unfold trap_halt, bind, print, putc, ret.
    cbn [stdout with_stdout]. unfold m', with_stdout, with_reg, m0.
    cbn [memory reg stdin stdin_fileno stdout].
    rewrite (u16_small (u16 (pc + 1))) by apply u16_range.
    rewrite <- app_assoc. reflexivity. }
  split; [exact Hstep|].
  intros fuel. cbn [run]. step_with Hstep. reflexivity.
Qed.

Lemma halt_machine_sized : sized halt_machine.
Proof.
  split; [|reflexivity]. unfold halt_machine. cbn [memory].
  rewrite length_insert. apply length_replicate.
Qed.

Lemma halt_stops_the_loop_witness :
  (sized halt_machine /\ cell (reg halt_machine) 8 = Some 12288 /\
   12288 <> 65024 /\ cell (memory halt_machine) 12288 = Some 61477 /\
   Z.shiftr 61477 12 = 15 /\ Z.land 61477 255 = 37) /\
  step true halt_machine
  = Done false
      (Machine (memory halt_machine)
               (<[Z.to_nat 7 := u16 (12288 + 1)]>
                  (<[Z.to_nat 8 := u16 (12288 + 1)]> (reg halt_machine)))
               (stdin halt_machine) (stdin_fileno halt_machine)
               (stdout halt_machine
                  ++ [Byte.x48; Byte.x41; Byte.x4c; Byte.x54; Byte.x0a])).
Proof.
  assert (cell (memory halt_machine) 12288 = Some 61477) as Hinst
    by (vm_compute; reflexivity).
  split.
  - split; [exact halt_machine_sized|]. repeat split; try assumption; discriminate.
  - apply (halt_stops_the_loop true halt_machine 12288 61477).
    + exact halt_machine_sized.
    + reflexivity.
    + discriminate.
    + exact Hinst.
    + reflexivity.
    + reflexivity.
Defined.

(** X14. [TRAP OUT] writes one byte, the low eight bits of [R0], and apart
    from the link in [R7] changes nothing else. *)
Theorem out_writes_low_byte (cs : bool) (inst : Z) (m : machine) (pc r0 : Z) :
  sized m -> Z.shiftr inst 12 = OP_TRAP -> Z.land inst 255 = TRAP_OUT ->
  cell (reg m) R_PC = Some pc -> cell (reg m) R_R0 = Some r0 ->
  exec cs inst m
  = Done true
      (with_stdout (stdout m ++ [byte_of_Z (r0 mod 256)])
         (with_reg (<[Z.to_nat R_R7 := u16 pc]> (reg m)) m)).
Proof.
  intros Hsz Hop Hvec Hpc Hr0.
  assert (exec cs inst = op_trap cs inst) as ->
    by (apply (exec_opcode cs inst); exact Hop).
  destruct (op_trap_enters cs inst m pc Hsz Hpc) as (_ & _ & Hout & _).
  rewrite (Hout Hvec). unfold trap_out.
  assert (cell (reg (with_reg (<[Z.to_nat 7 := u16 pc]> (reg m)) m)) 0 = Some r0)
    as Hr0'.
  { cbn [reg with_reg]. rewrite cell_insert_ne by lia. exact Hr0. }
  step_with (get_reg_Done _ _ _ Hr0').
  unfold bind, putc, ret. cbn [stdout with_reg].
  change (r0 mod 256) with (u8 r0). rewrite byte_of_Z_u8. reflexivity.
Qed.

(** [TRAP OUT] (the word [0xF021]) at [0x3001]. *)
Lemma out_writes_low_byte_witness :
  (sized fetched_at_3000 /\ Z.shiftr 61473 12 = 15 /\ Z.land 61473 255 = 33 /\
   cell (reg fetched_at_3000) 8 = Some 12289 /\
   cell (reg fetched_at_3000) 0 = Some 0) /\
  exec true 61473 fetched_at_3000
  = Done true
      (with_stdout (stdout fetched_at_3000 ++ [byte_of_Z (0 mod 256)])
         (with_reg (<[Z.to_nat 7 := u16 12289]> (reg fetched_at_3000))
                   fetched_at_3000)).
Proof.
  split.
  - split; [exact fetched_at_3000_sized|]. repeat split.
  - apply (out_writes_low_byte true 61473 fetched_at_3000 12289 0).
    + exact fetched_at_3000_sized.
    + reflexivity.
    + reflexivity.
    + reflexivity.
    + reflexivity.
Defined.

Lemma with_stdout_same m : with_stdout (stdout m) m = m.
Proof. destruct m; reflexivity. Qed.

Lemma puts_loop_run cs ws : forall i rest m,
  Forall (fun w => w <> 0) ws ->
  puts_loop cs i (ws ++ 0 :: rest) m
  = Done tt (with_stdout (stdout m ++ (byte_of_Z <$> ws)) m).
Proof.
  induction ws as [|w ws IH]; intros i rest m Hws.
  - cbn. rewrite app_nil_r, with_stdout_same. reflexivity.
  - inversion Hws as [|? ? Hw Hws']; subst.
    cbn [app puts_loop]. rewrite (proj2 (truthy_true w) Hw).
    unfold bind at 1. unfold putc at 1. rewrite IH by exact Hws'.
    cbn [stdout with_stdout]. rewrite with_stdout_twice, byte_of_to_char.
    rewrite fmap_cons, <- app_assoc. reflexivity.
Qed.

Lemma putsp_loop_run cs ws : forall i rest m,
  Forall (fun w => w <> 0) ws ->
  putsp_loop cs i (ws ++ 0 :: rest) m
  = Done tt (with_stdout (stdout m ++ flat_map packed_bytes ws) m).
Proof.
  induction ws as [|w ws IH]; intros i rest m Hws.
  - cbn. rewrite app_nil_r, with_stdout_same. reflexivity.
  - inversion Hws as [|? ? Hw Hws']; subst.
    cbn [app putsp_loop flat_map]. rewrite (proj2 (truthy_true w) Hw). cbv zeta.
    unfold bind at 1. unfold putc at 1.
    rewrite truthy_to_char, !byte_of_to_char. unfold packed_bytes.
    destruct (u8 (Z.shiftr w 8) =? 0); cbn [negb].
    + unfold bind at 1. unfold ret at 1. rewrite IH by exact Hws'.
      cbn [stdout with_stdout]. rewrite with_stdout_twice.
      rewrite <- !app_assoc. reflexivity.
    + unfold bind at 1. unfold putc at 1. rewrite IH by exact Hws'.
      cbn [stdout with_stdout]. rewrite !with_stdout_twice.
      rewrite <- !app_assoc, ?byte_of_to_char. reflexivity.
Qed.

(** X15. [TRAP PUTS] on a string that ends inside memory: when the cells
    from [memory[R0]] on are the non-zero words [ws] followed by a zero
    word, it writes the low byte of each word of [ws], in order, stops at the
    zero word, and apart from the link in [R7] changes nothing else. *)
Theorem puts_prints_the_string (cs : bool) (inst : Z) (m : machine)
    (pc r0 : Z) (ws rest : list Z) :
  sized m -> Z.shiftr inst 12 = OP_TRAP -> Z.land inst 255 = TRAP_PUTS ->
  cell (reg m) R_PC = Some pc -> cell (reg m) R_R0 = Some r0 ->
  drop (Z.to_nat r0) (memory m) = ws ++ 0 :: rest ->
  Forall (fun w => w <> 0) ws ->
  exec cs inst m
  = Done true
      (with_stdout (stdout m ++ (byte_of_Z <$> ws))
         (with_reg (<[Z.to_nat R_R7 := u16 pc]> (reg m)) m)).
Proof.
  intros Hsz Hop Hvec Hpc Hr0 Hcells Hws.
  assert (exec cs inst = op_trap cs inst) as ->
    by (apply (exec_opcode cs inst); exact Hop).
  destruct (op_trap_enters cs inst m pc Hsz Hpc) as (_ & _ & _ & Hputs & _).
  rewrite (Hputs Hvec). unfold trap_puts.
  set (m1 := with_reg _ m).
  assert (cell (reg m1) 0 = Some r0) as Hr0'
    by (unfold m1; cbn [reg with_reg]; rewrite cell_insert_ne by lia; exact Hr0).
  step_with (get_reg_Done _ _ _ Hr0').
  unfold bind at 1. unfold string_at at 1.
  replace (memory m1) with (memory m) by reflexivity. rewrite Hcells.
  unfold bind. rewrite (puts_loop_run cs ws r0 rest m1 Hws). reflexivity.
Qed.

Lemma hi_machine_sized : sized hi_machine.
Proof.
  split; [|reflexivity]. unfold hi_machine. cbn [memory].
  rewrite !length_insert. apply length_replicate.
Qed.

(** [TRAP PUTS] (the word [0xF022]) with "Hi" at the end of memory. *)
Lemma puts_prints_the_string_witness :
  (sized hi_machine /\ Z.shiftr 61474 12 = 15 /\ Z.land 61474 255 = 34 /\
   cell (reg hi_machine) 8 = Some 12289 /\ cell (reg hi_machine) 0 = Some 65533 /\
   drop (Z.to_nat 65533) (memory hi_machine) = [72; 105] ++ 0 :: [] /\
   Forall (fun w => w <> 0) [72; 105]) /\
  exec true 61474 hi_machine
  = Done true
      (with_stdout (stdout hi_machine ++ (byte_of_Z <$> [72; 105]))
         (with_reg (<[Z.to_nat 7 := u16 12289]> (reg hi_machine)) hi_machine)).
Proof.
  assert (drop (Z.to_nat 65533) (memory hi_machine) = [72; 105] ++ 0 :: [])
    as Hcells by (vm_compute; reflexivity).
  assert (Forall (fun w => w <> 0) [72; 105]) as Hws
    by (repeat constructor; discriminate).
  split.
  - split; [exact hi_machine_sized|]. repeat split; assumption.
  - apply (puts_prints_the_string true 61474 hi_machine 12289 65533 [72; 105] []).
    + exact hi_machine_sized.
    + reflexivity.
    + reflexivity.
    + reflexivity.
    + reflexivity.
    + exact Hcells.
    + exact Hws.
Defined.

(** X16. [TRAP PUTSP] on a string that ends inside memory: for each
    non-zero word before the first zero word it writes the low byte and then
    the high byte unless that is zero (so a word with a zero low byte still
    writes a zero byte), and apart from the link in [R7] changes nothing
    else. *)
Theorem putsp_prints_the_packed_string (cs : bool) (inst : Z) (m : machine)
    (pc r0 : Z) (ws rest : list Z) :
  sized m -> Z.shiftr inst 12 = OP_TRAP -> Z.land inst 255 = TRAP_PUTSP ->
  cell (reg m) R_PC = Some pc -> cell (reg m) R_R0 = Some r0 ->
  drop (Z.to_nat r0) (memory m) = ws ++ 0 :: rest ->
  Forall (fun w => w <> 0) ws ->
  exec cs inst m
  = Done true
      (with_stdout (stdout m ++ flat_map packed_bytes ws)
         (with_reg (<[Z.to_nat R_R7 := u16 pc]> (reg m)) m)).
Proof.
  intros Hsz Hop Hvec Hpc Hr0 Hcells Hws.
  assert (exec cs inst = op_trap cs inst) as ->
    by (apply (exec_opcode cs inst); exact Hop).
  destruct (op_trap_enters cs inst m pc Hsz Hpc) as (_ & _ & _ & _ & _ & Hputsp & _).
  rewrite (Hputsp Hvec). unfold trap_putsp.
  set (m1 := with_reg _ m).
  assert (cell (reg m1) 0 = Some r0) as Hr0'
    by (unfold m1; cbn [reg with_reg]; rewrite cell_insert_ne by lia; exact Hr0).
  step_with (get_reg_Done _ _ _ Hr0').
  unfold bind at 1. unfold string_at at 1.
  replace (memory m1) with (memory m) by reflexivity. rewrite Hcells.
  unfold bind. rewrite (putsp_loop_run cs ws r0 rest m1 Hws). reflexivity.
Qed.

Lemma packed_hi_machine_sized : sized packed_hi_machine.
Proof.
  split; [|reflexivity]. unfold packed_hi_machine. cbn [memory].
  rewrite !length_insert. apply length_replicate.
Qed.

(** [TRAP PUTSP] (the word [0xF024]) with the words [0x6948], [0x0021]. *)
Lemma putsp_prints_the_packed_string_witness :
  (sized packed_hi_machine /\ Z.shiftr 61476 12 = 15 /\ Z.land 61476 255 = 36 /\
   cell (reg packed_hi_machine) 8 = Some 12289 /\
   cell (reg packed_hi_machine) 0 = Some 65533 /\
   drop (Z.to_nat 65533) (memory packed_hi_machine) = [26952; 33] ++ 0 :: [] /\
   Forall (fun w => w <> 0) [26952; 33]) /\
  (exec true 61476 packed_hi_machine
   = Done true
       (with_stdout (stdout packed_hi_machine ++ flat_map packed_bytes [26952; 33])
          (with_reg (<[Z.to_nat 7 := u16 12289]> (reg packed_hi_machine))
                    packed_hi_machine)) /\
   flat_map packed_bytes [26952; 33] = [Byte.x48; Byte.x69; Byte.x21]).
Proof.
  assert (drop (Z.to_nat 65533) (memory packed_hi_machine) = [26952; 33] ++ 0 :: [])
    as Hcells by (vm_compute; reflexivity).
  assert (Forall (fun w => w <> 0) [26952; 33]) as Hws
    by (repeat constructor; discriminate).
  split.
  - split; [exact packed_hi_machine_sized|]. repeat split; assumption.
  - split; [|vm_compute; reflexivity].
    apply (putsp_prints_the_packed_string true 61476 packed_hi_machine 12289 65533
             [26952; 33] []).
    + exact packed_hi_machine_sized.
    + reflexivity.
    + reflexivity.
    + reflexivity.
    + reflexivity.
    + exact Hcells.
    + exact Hws.
Defined.

Lemma getchar_with_reg rs m :
  getchar (with_reg rs m)
  = match getchar m with
    | Done c m1 => Done c (with_reg rs m1)
    | Fault f => Fault f
    end.
Proof.
  unfold getchar. cbn [stdin stdin_fileno with_reg].
  destruct (stdin m); [destruct (stdin_fileno m)|]; reflexivity.
Qed.

Lemma getchar_with_stdout o m :
  getchar (with_stdout o m)
  = match getchar m with
    | Done c m1 => Done c (with_stdout o m1)
    | Fault f => Fault f
    end.
Proof.
  unfold getchar. cbn [stdin stdin_fileno with_stdout].
  destruct (stdin m); [destruct (stdin_fileno m)|]; reflexivity.
Qed.

(** [TRAP_GETC] and [TRAP_IN] once [getchar] has returned [c], a byte or
    [EOF]: [R0] receives [(uint16_t)(char)c] and [COND] its flag; [TRAP_IN]
    has written its prompt before and echoes [c] after. *)
Lemma trap_getc_Done cs m c m1 :
  sized m -> getchar m = Done c m1 ->
  exists f,
    trap_getc cs m
    = Done true
        (with_reg (<[Z.to_nat R_COND := f]>
                     (<[Z.to_nat R_R0 := u16 (to_char cs c)]> (reg m1))) m1) /\
    flag_for f (u16 (to_char cs c)).
Proof.
  intros Hsz Hget. unfold trap_getc. step_with Hget. cbv zeta.
  destruct (getchar_frame m c m1 Hget) as (_ & Hr1 & _ & _).
  destruct (write_then_flags 0 (to_char cs c) m1)
    as (f & m' & Hrun & -> & _ & _ & Hf);
    [rewrite Hr1; apply Hsz|lia|].
  exists f. split; [exact Hrun|exact Hf].
Qed.

Lemma trap_in_Done cs m c m1 :
  sized m -> getchar m = Done c m1 ->
  exists f,
    trap_in cs m
    = Done true
        (with_reg (<[Z.to_nat R_COND := f]>
                     (<[Z.to_nat R_R0 := u16 (to_char cs c)]> (reg m1)))
           (with_stdout (stdout m ++ list_byte_of_string "Enter a character: "
                           ++ [byte_of_Z c]) m1)) /\
    flag_for f (u16 (to_char cs c)).
Proof.
  intros Hsz Hget. unfold trap_in.
  destruct (getchar_frame m c m1 Hget) as (_ & Hr1 & Ho1 & _).
  set (m2 := with_stdout (stdout m ++ list_byte_of_string "Enter a character: ") m).
  assert (print "Enter a character: " m = Done tt m2) as Hprint by reflexivity.
  assert (getchar m2 = Done c (with_stdout (stdout m2) m1)) as Hget2
    by (unfold m2 at 1; rewrite getchar_with_stdout, Hget; reflexivity).
  set (m3 := with_stdout (stdout m2 ++ [byte_of_Z (to_char cs c)]) m1).
  assert (putc (to_char cs c) (with_stdout (stdout m2) m1) = Done tt m3)
    as Hputc by reflexivity.
  destruct (write_then_flags 0 (to_char cs c) m3)
    as (f & m' & Hrun & -> & _ & _ & Hf);
    [unfold m3; cbn [reg with_stdout]; rewrite Hr1; apply Hsz|lia|].
  exists f. split; [|exact Hf].
  step_with Hprint. step_with Hget2. cbv zeta. step_with Hputc. rewrite Hrun.
  unfold m3, m2. cbn [stdout with_stdout reg].
  rewrite byte_of_to_char, <- app_assoc. reflexivity.
Qed.

(** A [getchar] that waits makes the two traps wait. *)
Lemma trap_getc_in_wait cs m f :
  getchar m = Fault f -> trap_getc cs m = Fault f /\ trap_in cs m = Fault f.
Proof.
  intros Hget. split.
  - unfold trap_getc, bind. rewrite Hget. reflexivity.
  - unfold trap_in. unfold bind at 1. unfold print at 1. cbv beta iota.
    unfold bind at 1. rewrite getchar_with_stdout, Hget. reflexivity.
Qed.

(** The two traps as instructions: what [exec] leaves once [getchar] has
    returned [c] and left the terminal as in [m']. *)
Lemma exec_getc cs inst m pc c m' :
  sized m -> Z.shiftr inst 12 = OP_TRAP -> Z.land inst 255 = TRAP_GETC ->
  cell (reg m) R_PC = Some pc -> getchar m = Done c m' ->
  exists f,
    exec cs inst m
    = Done true
        (Machine (memory m)
                 (<[Z.to_nat R_COND := f]>
                    (<[Z.to_nat R_R0 := u16 (to_char cs c)]>
                       (<[Z.to_nat R_R7 := u16 pc]> (reg m))))
                 (stdin m') (stdin_fileno m') (stdout m)) /\
    flag_for f (u16 (to_char cs c)).
Proof.
  intros Hsz Hop Hvec Hpc Hget.
  assert (exec cs inst = op_trap cs inst) as ->
    by (apply (exec_opcode cs inst); exact Hop).
  destruct (op_trap_enters cs inst m pc Hsz Hpc) as (Hsz1 & Hgetc & _).
  rewrite (Hgetc Hvec).
  destruct (getchar_frame m c m' Hget) as (Hm' & Hr' & Ho' & _).
  destruct (trap_getc_Done cs _ c
              (with_reg (<[Z.to_nat 7 := u16 pc]> (reg m)) m') Hsz1)
    as (f & Hrun & Hf); [rewrite getchar_with_reg, Hget; reflexivity|].
  exists f. split; [|exact Hf]. rewrite Hrun. unfold with_reg.
  cbn [memory reg stdin stdin_fileno stdout]. rewrite Hm', Ho'. reflexivity.
Qed.

Lemma exec_in cs inst m pc c m' :
  sized m -> Z.shiftr inst 12 = OP_TRAP -> Z.land inst 255 = TRAP_IN ->
  cell (reg m) R_PC = Some pc -> getchar m = Done c m' ->
  exists f,
    exec cs inst m
    = Done true
        (Machine (memory m)
                 (<[Z.to_nat R_COND := f]>
                    (<[Z.to_nat R_R0 := u16 (to_char cs c)]>
                       (<[Z.to_nat R_R7 := u16 pc]> (reg m))))
                 (stdin m') (stdin_fileno m')
                 (stdout m ++ list_byte_of_string "Enter a character: "
                    ++ [byte_of_Z c])) /\
    flag_for f (u16 (to_char cs c)).
Proof.
  intros Hsz Hop Hvec Hpc Hget.
  assert (exec cs inst = op_trap cs inst) as ->
    by (apply (exec_opcode cs inst); exact Hop).
  destruct (op_trap_enters cs inst m pc Hsz Hpc) as (Hsz1 & _ & _ & _ & Hin & _).
  rewrite (Hin Hvec).
  destruct (getchar_frame m c m' Hget) as (Hm' & Hr' & Ho' & _).
  destruct (trap_in_Done cs _ c
              (with_reg (<[Z.to_nat 7 := u16 pc]> (reg m)) m') Hsz1)
    as (f & Hrun & Hf); [rewrite getchar_with_reg, Hget; reflexivity|].
  exists f. split; [|exact Hf]. rewrite Hrun. unfold with_reg, with_stdout.
  cbn [memory reg stdin stdin_fileno stdout]. rewrite Hm'. reflexivity.
Qed.

Lemma exec_getc_in_wait cs inst m pc :
  sized m -> Z.shiftr inst 12 = OP_TRAP ->
  Z.land inst 255 = TRAP_GETC \/ Z.land inst 255 = TRAP_IN ->
  cell (reg m) R_PC = Some pc -> stdin m = [] -> stdin_fileno m = Idle ->
  exec cs inst m = Fault WaitingForInput.
Proof.
  intros Hsz Hop Hvec Hpc Hbuf Hd.
  assert (exec cs inst = op_trap cs inst) as ->
    by (apply (exec_opcode cs inst); exact Hop).
  destruct (op_trap_enters cs inst m pc Hsz Hpc)
    as (_ & Hgetc & _ & _ & Hin & _).
  assert (getchar (with_reg (<[Z.to_nat 7 := u16 pc]> (reg m)) m)
          = Fault WaitingForInput) as Hwait
    by (rewrite getchar_with_reg, (getchar_waits m Hbuf Hd); reflexivity).
  destruct (trap_getc_in_wait cs _ _ Hwait) as [Hg Hi].
  destruct Hvec as [Hvec|Hvec];
    [rewrite (Hgetc Hvec); exact Hg|rewrite (Hin Hvec); exact Hi].
Qed.

(** The flag of [(uint16_t)(char)EOF]. *)
Lemma eof_stored cs f :
  flag_for f (u16 (to_char cs EOF)) ->
  u16 (to_char cs EOF) = (if cs then 65535 else 255) /\
  f = (if cs then FL_NEG else FL_POS).
Proof.
  destruct cs; vm_compute (u16 _); intros (Hn & _ & Hp);
    (split; [reflexivity|]); [apply Hn|apply Hp]; lia.
Qed.

(** X17. [TRAP GETC] takes its character from the buffer of [stdin] when a
    byte is there, and otherwise from a [read] on the descriptor, whose
    other bytes go to the buffer. It consumes that one byte, writes nothing,
    puts [(uint16_t)(char)b] in [R0] (the byte itself below [0x80], whatever
    the signedness of [char]), sets [COND] from [R0] and changes nothing
    else but the link in [R7]. At the end of the input [getchar] returns
    [EOF], and the trap ends with [R0 = 0xFFFF] and [COND = N] where [char]
    is signed, with [R0 = 0x00FF] and [COND = P] where it is not. It waits
    only with nothing buffered and nothing to read yet. *)
Theorem getc_result (cs : bool) (inst : Z) (m : machine) (pc : Z) :
  sized m -> Z.shiftr inst 12 = OP_TRAP -> Z.land inst 255 = TRAP_GETC ->
  cell (reg m) R_PC = Some pc ->
  let ends r0 c i d :=
    exec cs inst m
    = Done true
        (Machine (memory m)
                 (<[Z.to_nat R_COND := c]>
                    (<[Z.to_nat R_R0 := r0]>
                       (<[Z.to_nat R_R7 := u16 pc]> (reg m))))
                 i d (stdout m)) in
  let stored b := u16 (to_char cs (Z_of_byte b)) in
  (forall b rest, stdin m = b :: rest ->
     exists c, ends (stored b) c rest (stdin_fileno m) /\ flag_for c (stored b)) /\
  (forall b bs next, stdin m = [] -> stdin_fileno m = Ready b bs next ->
     exists c, ends (stored b) c bs next /\ flag_for c (stored b)) /\
  (stdin m = [] -> stdin_fileno m = EndOfFile ->
     ends (if cs then 65535 else 255) (if cs then FL_NEG else FL_POS)
          [] EndOfFile) /\
  (stdin m = [] -> stdin_fileno m = Idle ->
     exec cs inst m = Fault WaitingForInput) /\
  (forall b, Z_of_byte b < 128 -> stored b = Z_of_byte b).
Proof.
  intros Hsz Hop Hvec Hpc ends stored. unfold ends, stored.
  split; [|split; [|split; [|split]]].
  - intros b rest Hbuf.
    destruct (exec_getc cs inst m pc _ _ Hsz Hop Hvec Hpc
                (getchar_buffered m b rest Hbuf)) as (f & Hrun & Hf).
    exists f. split; [exact Hrun|exact Hf].
  - intros b bs next Hbuf Hd.
    destruct (exec_getc cs inst m pc _ _ Hsz Hop Hvec Hpc
                (getchar_refill m b bs next Hbuf Hd)) as (f & Hrun & Hf).
    exists f. split; [exact Hrun|exact Hf].
  - intros Hbuf Hd.
    destruct (exec_getc cs inst m pc _ _ Hsz Hop Hvec Hpc
                (getchar_eof m Hbuf Hd)) as (f & Hrun & Hf).
    destruct (eof_stored cs f Hf) as [Hv ->]. rewrite Hv, Hbuf, Hd in Hrun.
    exact Hrun.
  - intros Hbuf Hd.
    exact (exec_getc_in_wait cs inst m pc Hsz Hop (or_introl Hvec) Hpc Hbuf Hd).
  - intros b Hlow. rewrite u16_to_char.
    destruct (Z.leb_spec 128 (Z_of_byte b)); [lia|].
    rewrite andb_false_r. reflexivity.
Qed.

Lemma key_machine_sized : sized key_machine.
Proof. split; [apply length_replicate|reflexivity]. Qed.

(** [TRAP GETC] (the word [0xF020]) with [0x41 0x42] typed and nothing
    buffered: [R0] receives [0x41], and [0x42] waits in the buffer. *)
Lemma getc_result_witness :
  (sized key_machine /\ Z.shiftr 61472 12 = 15 /\ Z.land 61472 255 = 32 /\
   cell (reg key_machine) 8 = Some 12289 /\ stdin key_machine = [] /\
   stdin_fileno key_machine = Ready Byte.x41 [Byte.x42] Idle) /\
  exists c,
    exec true 61472 key_machine
    = Done true
        (Machine (memory key_machine)
                 (<[Z.to_nat 9 := c]>
                    (<[Z.to_nat 0 := u16 (to_char true (Z_of_byte Byte.x41))]>
                       (<[Z.to_nat 7 := u16 12289]> (reg key_machine))))
                 [Byte.x42] Idle (stdout key_machine)) /\
    flag_for c (u16 (to_char true (Z_of_byte Byte.x41))).
Proof.
  split.
  - split; [exact key_machine_sized|]. repeat split.
  - pose proof (getc_result true 61472 key_machine 12289 key_machine_sized
                  eq_refl eq_refl eq_refl) as H.
    cbv zeta in H. destruct H as (_ & H & _).
    exact (H Byte.x41 [Byte.x42] Idle eq_refl eq_refl).
Defined.

(** X18. [TRAP IN] writes its prompt, takes one character as [TRAP GETC]
    does (from the buffer of [stdin], or by a [read] on the descriptor),
    and writes that very byte after the prompt, whatever the signedness of
    [char]; [R0] and [COND] are as after [TRAP GETC]. At the end of the
    input the echo is the byte [0xFF], the low eight bits of [EOF]. With
    nothing buffered and nothing to read yet the trap waits. *)
Theorem in_result (cs : bool) (inst : Z) (m : machine) (pc : Z) :
  sized m -> Z.shiftr inst 12 = OP_TRAP -> Z.land inst 255 = TRAP_IN ->
  cell (reg m) R_PC = Some pc ->
  let ends r0 c i d echo :=
    exec cs inst m
    = Done true
        (Machine (memory m)
                 (<[Z.to_nat R_COND := c]>
                    (<[Z.to_nat R_R0 := r0]>
                       (<[Z.to_nat R_R7 := u16 pc]> (reg m))))
                 i d
                 (stdout m ++ list_byte_of_string "Enter a character: "
                    ++ [echo])) in
  let stored b := u16 (to_char cs (Z_of_byte b)) in
  (forall b rest, stdin m = b :: rest ->
     exists c, ends (stored b) c rest (stdin_fileno m) b /\
               flag_for c (stored b)) /\
  (forall b bs next, stdin m = [] -> stdin_fileno m = Ready b bs next ->
     exists c, ends (stored b) c bs next b /\ flag_for c (stored b)) /\
  (stdin m = [] -> stdin_fileno m = EndOfFile ->
     ends (if cs then 65535 else 255) (if cs then FL_NEG else FL_POS)
          [] EndOfFile Byte.xff) /\
  (stdin m = [] -> stdin_fileno m = Idle ->
     exec cs inst m = Fault WaitingForInput).
Proof.
  intros Hsz Hop Hvec Hpc ends stored. unfold ends, stored.
  split; [|split; [|split]].
  - intros b rest Hbuf.
    destruct (exec_in cs inst m pc _ _ Hsz Hop Hvec Hpc
                (getchar_buffered m b rest Hbuf)) as (f & Hrun & Hf).
    rewrite byte_of_Z_of_byte in Hrun.
    exists f. split; [exact Hrun|exact Hf].
  - intros b bs next Hbuf Hd.
    destruct (exec_in cs inst m pc _ _ Hsz Hop Hvec Hpc
                (getchar_refill m b bs next Hbuf Hd)) as (f & Hrun & Hf).
    rewrite byte_of_Z_of_byte in Hrun.
    exists f. split; [exact Hrun|exact Hf].
  - intros Hbuf Hd.
    destruct (exec_in cs inst m pc _ _ Hsz Hop Hvec Hpc
                (getchar_eof m Hbuf Hd)) as (f & Hrun & Hf).
    destruct (eof_stored cs f Hf) as [Hv ->]. rewrite Hv, Hbuf, Hd in Hrun.
    exact Hrun.
  - intros Hbuf Hd.
    exact (exec_getc_in_wait cs inst m pc Hsz Hop (or_intror Hvec) Hpc Hbuf Hd).
Qed.

(** [TRAP IN] (the word [0xF023]) with [0x41 0x42] typed and nothing
    buffered: the prompt and [0x41] are written. *)
Lemma in_result_witness :
  (sized key_machine /\ Z.shiftr 61475 12 = 15 /\ Z.land 61475 255 = 35 /\
   cell (reg key_machine) 8 = Some 12289 /\ stdin key_machine = [] /\
   stdin_fileno key_machine = Ready Byte.x41 [Byte.x42] Idle) /\
  exists c,
    exec true 61475 key_machine
    = Done true
        (Machine (memory key_machine)
                 (<[Z.to_nat 9 := c]>
                    (<[Z.to_nat 0 := u16 (to_char true (Z_of_byte Byte.x41))]>
                       (<[Z.to_nat 7 := u16 12289]> (reg key_machine))))
                 [Byte.x42] Idle
                 (stdout key_machine
                    ++ list_byte_of_string "Enter a character: " ++ [Byte.x41])) /\
    flag_for c (u16 (to_char true (Z_of_byte Byte.x41))).
Proof.
  split.
  - split; [exact key_machine_sized|]. repeat split.
  - pose proof (in_result true 61475 key_machine 12289 key_machine_sized
                  eq_refl eq_refl eq_refl) as H.
    cbv zeta in H. destruct H as (_ & H & _).
    exact (H Byte.x41 [Byte.x42] Idle eq_refl eq_refl).
Defined.

(** ** Faults *)

Lemma not_aborted_puts cs : keeps wf (fun f => f <> Aborted) (trap_puts cs).
Proof.
  unfold trap_puts. apply keeps_bind_word; [apply wf_get_reg; lia|].
  intros r0 Hr0 m Hm. unfold bind at 1. unfold string_at at 1. unfold bind.
  pose proof (wf_puts_loop cs (drop (Z.to_nat r0) (memory m)) r0 m Hm) as H.
  destruct (puts_loop cs r0 _ m); [exact H|]. rewrite H. discriminate.
Qed.

Lemma not_aborted_putsp cs : keeps wf (fun f => f <> Aborted) (trap_putsp cs).
Proof.
  unfold trap_putsp. apply keeps_bind_word; [apply wf_get_reg; lia|].
  intros r0 Hr0 m Hm. unfold bind at 1. unfold string_at at 1. unfold bind.
  pose proof (wf_putsp_loop cs (drop (Z.to_nat r0) (memory m)) r0 m Hm) as H.
  destruct (putsp_loop cs r0 _ m); [exact H|]. rewrite H. discriminate.
Qed.

Lemma not_aborted_getchar : keeps wf (fun f => f <> Aborted) getchar.
Proof. apply wf_getchar. discriminate. Qed.

Lemma not_aborted_traps cs :
  keeps wf (fun f => f <> Aborted) (trap_getc cs) /\
  keeps wf (fun f => f <> Aborted) trap_out /\
  keeps wf (fun f => f <> Aborted) (trap_in cs) /\
  keeps wf (fun f => f <> Aborted) trap_halt.
Proof.
  pose proof not_aborted_getchar.
  split; [|split; [|split]];
    unfold trap_getc, trap_out, trap_in, trap_halt; cbv zeta; wf_walk.
Qed.

(** X19. On a well-formed machine an instruction word ends in [abort()]
    exactly when its opcode is RTI or RES, or it is a TRAP whose vector is
    not one of [0x20] to [0x25]. *)
Theorem aborts_exactly_on_reserved (cs : bool) (inst : Z) (m : machine) :
  wf m -> 0 <= inst < 65536 ->
  (exec cs inst m = Fault Aborted <->
   Z.shiftr inst 12 = OP_RTI \/ Z.shiftr inst 12 = OP_RES \/
   (Z.shiftr inst 12 = OP_TRAP /\
    (Z.land inst 255 < 32 \/ 37 < Z.land inst 255))).
Proof.
  intros Hm Hinst. pose proof Hm as [Hsz Hwc].
  assert (0 <= Z.shiftr inst 12 < 16) as Hop.
  { rewrite Z.shiftr_div_pow2 by lia. change (2 ^ 12) with 4096.
    split; [apply Z.div_pos; lia|apply Z.div_lt_upper_bound; lia]. }
  destruct (reg_is_Some m 8 Hsz) as [pc Hpc]; [lia|].
  destruct (op_trap_enters cs inst m pc Hsz Hpc)
    as (Hsz1 & Hgetc & Hout & Hputs & Hin & Hputsp & Hhalt).
  set (m1 := with_reg _ m) in *.
  assert (wf m1) as Hm1.
  { split; [exact Hsz1|]. split; [apply Hwc|].
    unfold m1. cbn [reg with_reg]. apply Forall_insert_word, Hwc. }
  assert (forall c : M bool,
            keeps wf (fun f => f <> Aborted) c ->
            forall m0, wf m0 -> c m0 <> Fault Aborted) as Hno.
  { intros c Hc m0 Hm0 Heq. specialize (Hc m0 Hm0). rewrite Heq in Hc.
    now apply Hc. }
  split.
  - intros Hrun.
    destruct (Z.eq_dec (Z.shiftr inst 12) 8) as [|H8]; [now left|].
    destruct (Z.eq_dec (Z.shiftr inst 12) 13) as [|H13]; [now right; left|].
    right. right.
    destruct (Z.eq_dec (Z.shiftr inst 12) 15) as [H15|H15].
    + split; [exact H15|].
      destruct (Z_lt_le_dec (Z.land inst 255) 32) as [|Hlo]; [now left|].
      destruct (Z_lt_le_dec 37 (Z.land inst 255)) as [|Hhi]; [now right|].
      exfalso.
      rewrite (proj2 (proj2 (proj2 (proj2 (proj2 (proj2 (proj2 (proj2
                 (exec_opcode cs inst)))))))) H15) in Hrun.
      destruct (not_aborted_traps cs) as (Ngetc & Nout & Nin & Nhalt).
      assert (Z.land inst 255 = 32 \/ Z.land inst 255 = 33 \/
              Z.land inst 255 = 34 \/ Z.land inst 255 = 35 \/
              Z.land inst 255 = 36 \/ Z.land inst 255 = 37)
        as [H|[H|[H|[H|[H|H]]]]] by lia.
      * rewrite (Hgetc H) in Hrun. exact (Hno _ Ngetc m1 Hm1 Hrun).
      * rewrite (Hout H) in Hrun. exact (Hno _ Nout m1 Hm1 Hrun).
      * rewrite (Hputs H) in Hrun. exact (Hno _ (not_aborted_puts cs) m1 Hm1 Hrun).
      * rewrite (Hin H) in Hrun. exact (Hno _ Nin m1 Hm1 Hrun).
      * rewrite (Hputsp H) in Hrun. exact (Hno _ (not_aborted_putsp cs) m1 Hm1 Hrun).
      * rewrite (Hhalt H) in Hrun. exact (Hno _ Nhalt m1 Hm1 Hrun).
    + exfalso.
      pose proof (wf_plain_ops (fun f => f <> Aborted) inst)
        as (N1 & N5 & N9 & N0 & N12 & N4 & N2 & N10 & N6 & N14 & N3 & N11 & N7).
      pose proof (exec_opcode cs inst) as E. cbv zeta in E.
      destruct E as (E1 & E5 & E9 & E2 & E10 & E6 & E14 & E4 & _).
      pose proof (exec_opcode_rest cs inst) as E'. cbv zeta in E'.
      destruct E' as (E0 & E12 & E3 & E11 & E7 & _).
      assert (Z.shiftr inst 12 = 0 \/ Z.shiftr inst 12 = 1 \/ Z.shiftr inst 12 = 2 \/
              Z.shiftr inst 12 = 3 \/ Z.shiftr inst 12 = 4 \/ Z.shiftr inst 12 = 5 \/
              Z.shiftr inst 12 = 6 \/ Z.shiftr inst 12 = 7 \/ Z.shiftr inst 12 = 9 \/
              Z.shiftr inst 12 = 10 \/ Z.shiftr inst 12 = 11 \/
              Z.shiftr inst 12 = 12 \/ Z.shiftr inst 12 = 14)
        as [H|[H|[H|[H|[H|[H|[H|[H|[H|[H|[H|[H|H]]]]]]]]]]]] by lia.
      * rewrite (E0 H) in Hrun. exact (Hno _ N0 m Hm Hrun).
      * rewrite (E1 H) in Hrun. exact (Hno _ N1 m Hm Hrun).
      * rewrite (E2 H) in Hrun. exact (Hno _ N2 m Hm Hrun).
      * rewrite (E3 H) in Hrun. exact (Hno _ N3 m Hm Hrun).
      * rewrite (E4 H) in Hrun. exact (Hno _ N4 m Hm Hrun).
      * rewrite (E5 H) in Hrun. exact (Hno _ N5 m Hm Hrun).
      * rewrite (E6 H) in Hrun. exact (Hno _ N6 m Hm Hrun).
      * rewrite (E7 H) in Hrun. exact (Hno _ N7 m Hm Hrun).
      * rewrite (E9 H) in Hrun. exact (Hno _ N9 m Hm Hrun).
      * rewrite (E10 H) in Hrun. exact (Hno _ N10 m Hm Hrun).
      * rewrite (E11 H) in Hrun. exact (Hno _ N11 m Hm Hrun).
      * rewrite (E12 H) in Hrun. exact (Hno _ N12 m Hm Hrun).
      * rewrite (E14 H) in Hrun. exact (Hno _ N14 m Hm Hrun).
  - pose proof (exec_opcode_rest cs inst) as E'. cbv zeta in E'.
    destruct E' as (_ & _ & _ & _ & _ & E8 & E13).
    intros [H|[H|[H Hvec]]].
    + rewrite (E8 H). reflexivity.
    + rewrite (E13 H). reflexivity.
    + rewrite (proj2 (proj2 (proj2 (proj2 (proj2 (proj2 (proj2 (proj2
                 (exec_opcode cs inst)))))))) H).
      unfold op_trap. cbv zeta.
      step_with (get_reg_Done _ _ _ Hpc).
      step_with (set_reg_Done 7 pc m ltac:(destruct Hsz as [_ ->]; lia)).
      remember (Z.land inst 255) as t eqn:Ht.
      repeat match goal with
             | |- context [match ?x with _ => _ end] => destruct x
             end; try reflexivity; lia.
Qed.

(** [RTI] (the word [0x8000]) at [0x3001]. *)
Lemma aborts_exactly_on_reserved_witness :
  (wf fetched_at_3000 /\ 0 <= 32768 < 65536) /\
  exec true 32768 fetched_at_3000 = Fault Aborted.
Proof.
  assert (wf fetched_at_3000) as Hwf
    by (split; [exact fetched_at_3000_sized|exact fetched_at_3000_words]).
  split.
  - split; [exact Hwf|lia].
  - apply (aborts_exactly_on_reserved true 32768 fetched_at_3000).
    + exact Hwf.
    + lia.
    + left. reflexivity.
Defined.

(** ** The loader, again *)

Lemma fread_nil nmemb : fread nmemb [] = ([], None, []).
Proof. cbn [fread]. destruct (nmemb <=? 0); reflexivity. Qed.

(** X20. An image file too short to hold an origin (no byte, or one) loads
    nothing: the machine is left as it is, whatever the uninitialised
    [origin] happens to hold. *)
Theorem short_image_loads_nothing (io : Z) (pi : Z -> byte -> Z)
    (file : list byte) (m : machine) :
  (length file < 2)%nat -> read_image_file io pi file m = Done tt m.
Proof.
  intros Hlen. destruct file as [|b [|b' file]]; cbn [length] in Hlen; [| |lia].
  - unfold read_image_file. rewrite fread_nil, fread_nil. reflexivity.
  - unfold read_image_file.
    assert (fread 1 [b] = ([], Some b, [])) as -> by reflexivity.
    rewrite fread_nil. reflexivity.
Qed.

Lemma short_image_loads_nothing_witness :
  (length [Byte.x30] < 2)%nat /\
  read_image_file 0 (fun old _ => old) [Byte.x30] fetched_at_3000
  = Done tt fetched_at_3000.
Proof.
  split; [cbn; lia|].
  apply (short_image_loads_nothing 0 (fun old _ => old) [Byte.x30] fetched_at_3000).
  cbn. lia.
Defined.

(** X21. An image whose origin is not 0 is loaded as its format says: the
    words that follow the origin, read big-endian and as many as fit below
    the end of memory, are stored from [memory[origin]] on; the cells before
    them, and the cells from the second after them on, keep their content,
    and so do the registers and the terminal. *)
Theorem image_words_are_placed (io : Z) (pi : Z -> byte -> Z)
    (o1 o0 : byte) (payload : list byte) (m : machine) :
  sized m ->
  256 * Z_of_byte o1 + Z_of_byte o0 <> 0 ->
  exists m',
    read_image_file io pi (o1 :: o0 :: payload) m = Done tt m' /\
    reg m' = reg m /\ stdin m' = stdin m /\
    stdin_fileno m' = stdin_fileno m /\ stdout m' = stdout m /\
    length (memory m') = length (memory m) /\
    (forall i w,
       take (Z.to_nat (65536 - (256 * Z_of_byte o1 + Z_of_byte o0)))
            (big_endian_words payload) !! i = Some w ->
       cell (memory m') (256 * Z_of_byte o1 + Z_of_byte o0 + Z.of_nat i) = Some w) /\
    (forall j,
       j < 256 * Z_of_byte o1 + Z_of_byte o0 \/
       256 * Z_of_byte o1 + Z_of_byte o0
       + Z.of_nat (length (take (Z.to_nat (65536 - (256 * Z_of_byte o1 + Z_of_byte o0)))
                                (big_endian_words payload))) < j ->
       cell (memory m') j = cell (memory m) j).
Proof.
  intros Hsz Horigin.
  exact (read_image_file_loads io pi o1 o0 payload m Hsz Horigin).
Qed.

(** The image [30 00 F0 25]. *)
Lemma image_words_are_placed_witness :
  (sized fetched_at_3000 /\ 256 * Z_of_byte Byte.x30 + Z_of_byte Byte.x00 <> 0) /\
  exists m',
    read_image_file 0 (fun old _ => old)
      (Byte.x30 :: Byte.x00 :: [Byte.xf0; Byte.x25]) fetched_at_3000
    = Done tt m' /\
    cell (memory m') 12288 = Some 61477.
Proof.
  split.
  - split; [exact fetched_at_3000_sized|discriminate].
  - destruct (image_words_are_placed 0 (fun old _ => old) Byte.x30 Byte.x00
                [Byte.xf0; Byte.x25] fetched_at_3000 fetched_at_3000_sized
                ltac:(discriminate))
      as (m' & Hrun & _ & _ & _ & _ & _ & Hin & _).
    exists m'. split; [exact Hrun|].
    exact (Hin 0%nat 61477 eq_refl).
Defined.

(** ** The keyboard registers *)

(** X22. The keyboard status register follows [select] on the descriptor,
    not the bytes that wait in the buffer of [stdin]. While the descriptor
    has nothing to read yet, a read of [0xFE00] returns 0 and consumes
    nothing, also when bytes are buffered. When the descriptor is readable
    the read returns [0x8000] and stores what [getchar] returns in
    [memory[0xFE02]]: the next buffered byte when there is one (the
    descriptor is then left alone), else the first byte of a [read], whose
    other bytes become buffered, and [0xFFFF] at the end of the input. A
    read of [0xFE02] after the poll returns the stored byte and consumes
    nothing. *)
Theorem keyboard_poll_follows_descriptor (m : machine) :
  sized m ->
  let polled k i d :=
    Machine (<[Z.to_nat MR_KBDR := k]>
               (<[Z.to_nat MR_KBSR := 32768]> (memory m)))
            (reg m) i d (stdout m) in
  (stdin_fileno m = Idle ->
     mem_read MR_KBSR m
     = Done 0 (with_memory (<[Z.to_nat MR_KBSR := 0]> (memory m)) m)) /\
  (forall b rest, stdin m = b :: rest -> stdin_fileno m <> Idle ->
     mem_read MR_KBSR m
     = Done 32768 (polled (Z_of_byte b) rest (stdin_fileno m))) /\
  (forall b bs next, stdin m = [] -> stdin_fileno m = Ready b bs next ->
     mem_read MR_KBSR m = Done 32768 (polled (Z_of_byte b) bs next) /\
     (mem_read MR_KBSR ;; mem_read MR_KBDR) m
     = Done (Z_of_byte b) (polled (Z_of_byte b) bs next)) /\
  (stdin m = [] -> stdin_fileno m = EndOfFile ->
     mem_read MR_KBSR m = Done 32768 (polled 65535 [] EndOfFile)).
Proof.
  intros Hsz polled. unfold polled.
  split; [|split; [|split]].
  - intros Hd. exact (mem_read_kbsr_idle m Hsz Hd).
  - intros b rest Hbuf Hd.
    rewrite (mem_read_kbsr_readable m _ _ Hsz Hd (getchar_buffered m b rest Hbuf)).
    rewrite (u16_small (Z_of_byte b)) by (pose proof (Z_of_byte_range b); lia).
    reflexivity.
  - intros b bs next Hbuf Hd.
    assert (mem_read 65024 m
            = Done 32768
                (Machine (<[Z.to_nat 65026 := Z_of_byte b]>
                            (<[Z.to_nat 65024 := 32768]> (memory m)))
                         (reg m) bs next (stdout m))) as Hpoll.
    { rewrite (mem_read_kbsr_readable m _ _ Hsz ltac:(congruence)
                 (getchar_refill m b bs next Hbuf Hd)).
      rewrite (u16_small (Z_of_byte b)) by (pose proof (Z_of_byte_range b); lia).
      reflexivity. }
    split; [exact Hpoll|]. step_with Hpoll.
    apply mem_read_elsewhere; [lia|]. cbn [memory].
    apply cell_insert_eq. rewrite length_insert. destruct Hsz as [-> _]. lia.
  - intros Hbuf Hd.
    rewrite (mem_read_kbsr_readable m _ _ Hsz ltac:(congruence)
               (getchar_eof m Hbuf Hd)).
    change (u16 (-1)) with 65535. unfold with_memory. rewrite Hbuf, Hd.
    reflexivity.
Qed.

(** The bytes [0x41 0x42] typed before the first poll: the poll delivers
    [0x41] and takes [0x42] to the buffer, and the next poll returns 0. *)
Lemma keyboard_poll_follows_descriptor_witness :
  let m1 :=
    Machine (<[Z.to_nat 65026 := Z_of_byte Byte.x41]>
               (<[Z.to_nat 65024 := 32768]> (memory key_machine)))
            (reg key_machine) [Byte.x42] Idle (stdout key_machine) in
  (sized key_machine /\ stdin key_machine = [] /\
   stdin_fileno key_machine = Ready Byte.x41 [Byte.x42] Idle /\
   sized m1 /\ stdin_fileno m1 = Idle) /\
  mem_read 65024 key_machine = Done 32768 m1 /\
  mem_read 65024 m1
  = Done 0 (with_memory (<[Z.to_nat 65024 := 0]> (memory m1)) m1).
Proof.
  intros m1.
  assert (sized m1) as Hsz1.
  { split; [|reflexivity]. unfold m1. cbn [memory].
    rewrite !length_insert. apply key_machine_sized. }
  split.
  - split; [exact key_machine_sized|]. repeat split; apply Hsz1.
  - split.
    + pose proof (keyboard_poll_follows_descriptor key_machine
                    key_machine_sized) as H.
      cbv zeta in H. destruct H as (_ & _ & H & _).
      exact (proj1 (H Byte.x41 [Byte.x42] Idle eq_refl eq_refl)).
    + pose proof (keyboard_poll_follows_descriptor m1 Hsz1) as H.
      cbv zeta in H. destruct H as (H & _).
      exact (H eq_refl).
Defined.

(** ** Reachable states *)

(** X23. In every state the loop of [main] reaches, [memory] has its 65 536
    cells and [reg] its ten, and every one of them holds a value below 2^16.
    A turn of the loop from such a state never indexes [reg] outside the
    array, and reads or writes [memory] outside the array only at index
    65 536 (the string traps running off the end). *)
Theorem reachable_states_hold_words (io : Z) (pi : Z -> byte -> Z) (cs : bool)
    (images : list (list byte)) (input : descriptor)
    (m0 : machine) (running : bool) (m : machine) :
  main_setup io pi images (power_on input) = Done tt m0 ->
  steps cs m0 running m ->
  length (memory m) = Z.to_nat MEMORY_MAX /\
  length (reg m) = Z.to_nat R_COUNT /\
  Forall (fun w => 0 <= w < 65536) (memory m) /\
  Forall (fun w => 0 <= w < 65536) (reg m) /\
  forall f, step cs m = Fault f ->
            (forall i, f <> RegOutOfRange i) /\
            (forall i, f = MemoryOutOfRange i -> i = MEMORY_MAX).
Proof.
  intros Hsetup Hsteps.
  assert (wf m0) as H0.
  { pose proof (wf_main_setup io pi images (power_on input) (wf_power_on input)) as H.
    rewrite Hsetup in H. exact H. }
  pose proof (steps_keep_wf cs m0 running m H0 Hsteps) as Hm.
  destruct Hm as [[Hmem Hreg] [Hwm Hwr]].
  repeat (split; [assumption|]).
  intros f Hf.
  pose proof (wf_step cs m (conj (conj Hmem Hreg) (conj Hwm Hwr))) as H.
  rewrite Hf in H. destruct H as [Hb | Heq].
  - destruct f; cbn in Hb; try contradiction; split; intros; discriminate.
  - subst f. split; [intros; discriminate|].
    intros i Hi. injection Hi as Hi. symmetry. exact Hi.
Qed.

(** The image [30 00 10 21 F0 25] and the state after its first turn. *)
Lemma reachable_states_hold_words_witness :
  let image := [Byte.x30; Byte.x00; Byte.x10; Byte.x21; Byte.xf0; Byte.x25] in
  let keep := fun (old : Z) (_ : byte) => old in
  reg_after R_R0 (main 0 keep true 1 [image] (power_on Idle)) = Some 1 /\
  match main_setup 0 keep [image] (power_on Idle) with
  | Done _ m0 =>
      match step true m0 with
      | Done _ m1 => Forall (fun w => 0 <= w < 65536) (reg m1)
      | Fault _ => True
      end
  | Fault _ => True
  end.
Proof.
  cbv zeta. split; [vm_compute; reflexivity|].
  destruct (main_setup 0 _ _ (power_on Idle)) as [[] m0|f] eqn:E0; [|exact I].
  destruct (step true m0) as [r m1|f] eqn:E1; [|exact I].
  apply (reachable_states_hold_words 0 (fun old _ => old) true
           [[Byte.x30; Byte.x00; Byte.x10; Byte.x21; Byte.xf0; Byte.x25]] Idle
           m0 r m1 E0).
  apply (steps_step true m0 m0 r m1); [apply steps_refl|exact E1].
Defined.
